(** * Attendance metrics of the upload route: a shallow embedding

    The upload route ([src/app/api/upload/route.ts]) turns the rows of an
    attendance sheet into daily records and summary totals.  This file
    embeds its helper functions ([parseTime], [parseDate],
    [calculateDailyMetrics]), the aggregation loop of [POST], and the
    string-only [parseDateString] of the older handler, together with the
    part of the ECMAScript runtime they call.

    - A JavaScript string is a list of UTF-16 code units ([list Z]).
    - A JavaScript Number is an IEEE-754 binary64 value: [spec_float] with
      the operations of [SpecFloat] at precision 53 and [emax] 1024.
    - A [Date] object is its time value, [None] standing for [NaN]
      (an invalid date).
    - What the engine and the host decide (the clock, the local time zone,
      the parsing of free-form date strings) is an explicit environment. *)

From Stdlib Require Import ZArith List Bool Lia Ascii SpecFloat.
From Stdlib Require String.
Import String.StringSyntax.
Import ListNotations.
Open Scope Z_scope.

(* ================================================================== *)
(** ** Strings *)

Definition jsstring := list Z.

Definition cu (a : ascii) : Z := Z.of_N (N_of_ascii a).

(** An ASCII literal as a JavaScript string. *)
Definition lit (s : String.string) : jsstring :=
  map cu (String.list_ascii_of_string s).
Arguments lit s%_string_scope.

Definition jsstring_eqb (a b : jsstring) : bool :=
  if list_eq_dec Z.eq_dec a b then true else false.

(** [WhiteSpace] and [LineTerminator] code points (what [trim] and the
    numeric conversions strip). *)
Definition isWhiteSpace (c : Z) : bool :=
  (c =? 9) || (c =? 10) || (c =? 11) || (c =? 12) || (c =? 13) || (c =? 32)
  || (c =? 160) || (c =? 5760) || ((8192 <=? c) && (c <=? 8202))
  || (c =? 8232) || (c =? 8233) || (c =? 8239) || (c =? 8287)
  || (c =? 12288) || (c =? 65279).

Fixpoint trimStart (s : jsstring) : jsstring :=
  match s with
  | [] => []
  | c :: r => if isWhiteSpace c then trimStart r else s
  end.

Definition trimEnd (s : jsstring) : jsstring := rev (trimStart (rev s)).

(** [String.prototype.trim] *)
Definition trim (s : jsstring) : jsstring := trimEnd (trimStart s).

(** [String.prototype.includes] for a one-unit search string. *)
Definition includes (c : Z) (s : jsstring) : bool := existsb (Z.eqb c) s.

(** [String.prototype.split] for a one-unit separator: the pieces between
    the occurrences of [sep], in order; a string without [sep] is its own
    single piece. *)
Fixpoint split (sep : Z) (s : jsstring) : list jsstring :=
  match s with
  | [] => [[]]
  | c :: r =>
      if c =? sep then [] :: split sep r
      else match split sep r with
           | p :: ps => (c :: p) :: ps
           | [] => [[c]]
           end
  end.

(** [String.prototype.padStart(n, "0")] *)
Definition padStart0 (n : nat) (s : jsstring) : jsstring :=
  repeat 48 (n - length s) ++ s.

(* ================================================================== *)
(** ** Decimal digits *)

Definition isDigit (c : Z) : bool := (48 <=? c) && (c <=? 57).

Definition digitChar (d : Z) : Z := 48 + d.

(** The longest prefix of decimal digits, as digit values, and the rest. *)
Fixpoint takeDigits (s : jsstring) : list Z * jsstring :=
  match s with
  | c :: r =>
      if isDigit c then let '(ds, rest) := takeDigits r in (c - 48 :: ds, rest)
      else ([], s)
  | [] => ([], [])
  end.

(** Value of a digit list, most significant digit first. *)
Definition digitsValue (ds : list Z) : Z :=
  fold_left (fun acc d => 10 * acc + d) ds 0.

(** Digits of a non-negative integer, least significant first. *)
Fixpoint lsDigits (fuel : nat) (n : Z) : list Z :=
  match fuel with
  | O => []
  | S f => n mod 10 :: (if n <? 10 then [] else lsDigits f (n / 10))
  end.

(** The decimal representation of a non-negative integer, no leading
    zeros ("0" for zero). *)
Definition decimalDigits (n : Z) : list Z :=
  rev (lsDigits (S (Z.to_nat (Z.log2 n))) n).

Definition showNat (n : Z) : jsstring := map digitChar (decimalDigits n).

(* ================================================================== *)
(** ** Numbers *)

Definition Number := spec_float.

Definition prec := 53.
Definition emax := 1024.

Definition NaN : Number := S754_nan.
Definition posZero : Number := S754_zero false.
Definition Infinity : Number := S754_infinity false.

(** 𝔽(z): the Number nearest to the integer [z] (ties to even). *)
Definition ofZ (z : Z) : Number := binary_normalize prec emax z 0 false.

(** 𝔽(num/den) for a non-negative rational, with the sign [s] attached
    (so that a zero keeps its sign): the division of [SpecFloat] rounds
    the exact quotient of the two mantissas, whatever their sizes. *)
Definition ofRatio (s : bool) (num : Z) (den : positive) : Number :=
  match num with
  | Zpos n =>
      SFdiv prec emax (S754_finite s n 0) (S754_finite false den 0)
  | _ => S754_zero s
  end.

Definition add := SFadd prec emax.
Definition sub := SFsub prec emax.
Definition mul := SFmul prec emax.
Definition div := SFdiv prec emax.
Definition ltb := SFltb.
Definition gtb (x y : Number) : bool := SFltb y x.

Definition isNaN (x : Number) : bool :=
  match x with S754_nan => true | _ => false end.

(** ToBoolean on a Number: [NaN] and both zeros are falsy. *)
Definition truthyNumber (x : Number) : bool :=
  match x with
  | S754_nan | S754_zero _ => false
  | _ => true
  end.

(** The exact value of a positive finite Number [m * 2^e] as a fraction. *)
Definition ratOf (m : positive) (e : Z) : Z * positive :=
  match e with
  | Zneg p => (Zpos m, Pos.pow 2 p)
  | _ => (Zpos m * 2 ^ e, 1%positive)
  end.

Definition Number_eqb (x y : Number) : bool :=
  match x, y with
  | S754_nan, S754_nan => true
  | S754_zero a, S754_zero b => Bool.eqb a b
  | S754_infinity a, S754_infinity b => Bool.eqb a b
  | S754_finite a m e, S754_finite b m' e' =>
      Bool.eqb a b && Pos.eqb m m' && Z.eqb e e'
  | _, _ => false
  end.

(** An optional leading sign: whether it is a minus, and what follows. *)
Definition stripSign (t : jsstring) : bool * jsstring :=
  match t with
  | c :: r =>
      if c =? 45 then (true, r) else if c =? 43 then (false, r) else (false, t)
  | [] => (false, [])
  end.

(** [parseInt(s, 10)]: leading white space is skipped, then an optional
    sign, then the longest run of decimal digits; [NaN] when that run is
    empty.  A zero keeps the sign. *)
Definition parseInt10 (s : jsstring) : Number :=
  let '(neg, body) := stripSign (trimStart s) in
  match fst (takeDigits body) with
  | [] => NaN
  | ds =>
      let v := digitsValue ds in
      if v =? 0 then S754_zero neg else ofZ (if neg then - v else v)
  end.

(* ------------------------------------------------------------------ *)
(** *** Number::toString (radix 10) *)

(** [num/den < 10^n] *)
Definition ltPow10 (num den n : Z) : bool :=
  if 0 <=? n then num <? den * 10 ^ n else num * 10 ^ (- n) <? den.

Fixpoint findExp (fuel : nat) (num den n : Z) : Z :=
  match fuel with
  | O => n
  | S f => if ltPow10 num den n then n else findExp f num den (n + 1)
  end.

(** The [n] with [10^(n-1) <= num/den < 10^n]. *)
Definition decimalExponent (num den : Z) : Z :=
  findExp 6 num den ((Z.log2 num - Z.log2 den) * 30103 / 100000 - 1).

(** [num/den * 10^j] as a fraction. *)
Definition scale10 (num den j : Z) : Z * Z :=
  if 0 <=? j then (num * 10 ^ j, den) else (num, den * 10 ^ (- j)).

(** Does the decimal [s * 10^j] round to [x]? *)
Definition roundsTo (x : Number) (s j : Z) : bool :=
  let '(a, b) := scale10 s 1 j in
  Number_eqb (ofRatio false a (Z.to_pos b)) x.

(** The shortest digit string: the least [k] for which some [k]-digit [s]
    has [s * 10^(n-k)] rounding to [x]; among two such [s] the one nearer
    to [x], the even one on a tie.  Returns [(s, n)]. *)
Fixpoint shortest (fuel : nat) (k : Z) (x : Number) (num den n : Z)
  : Z * Z :=
  let '(a, b) := scale10 num den (k - n) in
  let lo := a / b in
  let r := a mod b in
  let hi := lo + 1 in
  let okLo := roundsTo x lo (n - k) in
  let okHi := negb (r =? 0) && roundsTo x hi (n - k) in
  let pick s := if s =? 10 ^ k then (10 ^ (k - 1), n + 1) else (s, n) in
  match fuel with
  | O => pick lo
  | S f =>
      match okLo, okHi with
      | true, true =>
          match 2 * r ?= b with
          | Lt => pick lo
          | Gt => pick hi
          | Eq => pick (if Z.even lo then lo else hi)
          end
      | true, false => pick lo
      | false, true => pick hi
      | false, false => shortest f (k + 1) x num den n
      end
  end.

Definition showDigits (ds : list Z) : jsstring := map digitChar ds.

Definition zeros (n : Z) : jsstring := repeat 48 (Z.to_nat n).

(** Steps 6 to 10 of Number::toString on the digits of [s] and [n]. *)
Definition formatShortest (ds : list Z) (n : Z) : jsstring :=
  let k := Z.of_nat (List.length ds) in
  if (-5 <=? n) && (n <=? 21) then
    if k <=? n then showDigits ds ++ zeros (n - k)
    else if 0 <? n then
      showDigits (firstn (Z.to_nat n) ds) ++ [46]
        ++ showDigits (skipn (Z.to_nat n) ds)
    else [48; 46] ++ zeros (- n) ++ showDigits ds
  else
    let e := n - 1 in
    let tail := [101; if e <? 0 then 45 else 43] ++ showNat (Z.abs e) in
    match ds with
    | [d] => showDigits [d] ++ tail
    | d :: rest => showDigits [d] ++ [46] ++ showDigits rest ++ tail
    | [] => tail
    end.

(** [String(x)] for a Number. *)
Definition numberToString (x : Number) : jsstring :=
  match x with
  | S754_nan => lit "NaN"
  | S754_zero _ => lit "0"
  | S754_infinity s => (if s then [45] else []) ++ lit "Infinity"
  | S754_finite s m e =>
      let '(num, den) := ratOf m e in
      let n0 := decimalExponent num (Zpos den) in
      let '(sd, n) :=
        shortest 17 1 (S754_finite false m e) num (Zpos den) n0 in
      (if s then [45] else []) ++ formatShortest (decimalDigits sd) n
  end.

(* ------------------------------------------------------------------ *)
(** *** Number.prototype.toFixed *)

(** The integer [n] for which [n / 10^f - num/den] is nearest to zero,
    the larger one of two. *)
Definition nearestScaled (f : Z) (num : Z) (den : positive) : Z :=
  (2 * num * 10 ^ f + Zpos den) / (2 * Zpos den).

(** Places the decimal point [f] digits from the right of the digits of
    [n], left-padding with zeros to [f + 1] digits. *)
Definition fixedDigits (f : nat) (n : Z) : jsstring :=
  let m := padStart0 (S f) (showNat n) in
  let k := List.length m in
  match f with
  | O => m
  | _ => firstn (k - f) m ++ [46] ++ skipn (k - f) m
  end.

Definition toFixed (f : nat) (x : Number) : jsstring :=
  match x with
  | S754_finite s m e =>
      let '(num, den) := ratOf m e in
      (if s then [45] else []) ++
      (if 10 ^ 21 * Zpos den <=? num
       then numberToString (S754_finite false m e)
       else fixedDigits f (nearestScaled (Z.of_nat f) num den))
  | S754_zero _ => fixedDigits f 0
  | _ => numberToString x
  end.

(* ------------------------------------------------------------------ *)
(** *** StringToNumber: [Number(s)] on a string *)

Definition isHexDigit (c : Z) : bool :=
  isDigit c || ((97 <=? c) && (c <=? 102)) || ((65 <=? c) && (c <=? 70)).

Definition hexValue (c : Z) : Z :=
  if isDigit c then c - 48 else if 97 <=? c then c - 87 else c - 55.

(** [0x], [0o] and [0b] literals: every code unit after the prefix must
    be a digit of the radix, and there is at least one. *)
Definition parseNonDecimal (t : jsstring) : option Number :=
  let conv (radix : Z) (ok : Z -> bool) (ds : jsstring) :=
    match ds with
    | [] => None
    | _ =>
        if forallb ok ds
        then Some (ofZ (fold_left (fun a c => radix * a + hexValue c) ds 0))
        else None
    end in
  match t with
  | z :: p :: ds =>
      if negb (z =? 48) then None
      else if (p =? 120) || (p =? 88) then conv 16 isHexDigit ds
      else if (p =? 111) || (p =? 79)
      then conv 8 (fun c => (48 <=? c) && (c <=? 55)) ds
      else if (p =? 98) || (p =? 66)
      then conv 2 (fun c => (48 <=? c) && (c <=? 49)) ds
      else None
  | _ => None
  end.

(** The exponent part: nothing, or [e]/[E], an optional sign and at least
    one digit, up to the end of the string. *)
Definition parseExponent (r : jsstring) : option Z :=
  match r with
  | [] => Some 0
  | c :: r1 =>
      if (c =? 101) || (c =? 69) then
        let '(neg, r2) := stripSign r1 in
        match takeDigits r2 with
        | ([], _) => None
        | (ds, []) => Some (if neg then - digitsValue ds else digitsValue ds)
        | (_, _ :: _) => None
        end
      else None
  end.

(** The fraction: a period and the digits after it, if any. *)
Definition takeFraction (r1 : jsstring) : list Z * jsstring :=
  match r1 with
  | c :: r => if c =? 46 then takeDigits r else ([], r1)
  | [] => ([], r1)
  end.

(** 𝔽 of the decimal [v * 10^j], [v >= 0], with sign [s]. *)
Definition ofDecimal (s : bool) (v j : Z) : Number :=
  let '(a, b) := scale10 v 1 j in ofRatio s a (Z.to_pos b).

Definition parseStrDecimal (t : jsstring) : Number :=
  let '(neg, body) := stripSign t in
  if jsstring_eqb body (lit "Infinity") then S754_infinity neg
  else
    let '(ip, r1) := takeDigits body in
    let '(fp, r2) := takeFraction r1 in
    match ip ++ fp with
    | [] => NaN
    | ds =>
        match parseExponent r2 with
        | Some ex =>
            ofDecimal neg (digitsValue ds) (ex - Z.of_nat (List.length fp))
        | None => NaN
        end
    end.

Definition StringToNumber (s : jsstring) : Number :=
  let t := trim s in
  match t with
  | [] => posZero
  | _ =>
      match parseNonDecimal t with
      | Some v => v
      | None => parseStrDecimal t
      end
  end.

(* ------------------------------------------------------------------ *)
(** *** Math.round and truncation *)

(** [Math.round]: the nearest integer, ties toward +∞; a result of zero
    keeps the sign of the argument. *)
Definition MathRound (x : Number) : Number :=
  match x with
  | S754_finite s m (Zneg p) =>
      let den := Zpos (Pos.pow 2 p) in
      let num := if s then Zneg m else Zpos m in
      let z := (2 * num + den) / (2 * den) in
      if z =? 0 then S754_zero s else ofZ z
  | _ => x
  end.

(** The integer part of a finite Number (ToIntegerOrInfinity). *)
Definition truncZ (x : Number) : option Z :=
  match x with
  | S754_zero _ => Some 0
  | S754_finite s m e =>
      let '(num, den) := ratOf m e in
      let q := num / Zpos den in
      Some (if s then - q else q)
  | _ => None
  end.

(** TimeClip: a time value is an integral number of milliseconds of
    magnitude at most 8.64e15, or [NaN] ([None]). *)
Definition TimeClip (x : Number) : option Z :=
  match truncZ x with
  | Some z => if 8640000000000000 <? Z.abs z then None else Some z
  | None => None
  end.

(* ================================================================== *)
(** ** Dates *)

(** A [Date] object: its time value in milliseconds since the epoch,
    [None] for an invalid date. *)
Record JSDate := mkDate { timeValue : option Z }.

(** What the host decides: the clock read by [new Date()], the offset of
    local time from UTC at a given instant, and [Date.parse] (whose
    accepted formats beyond the ISO one are left to the engine). *)
Record Env := mkEnv {
  now : Z;
  localTZA : Z -> Z;
  dateParse : jsstring -> option Z
}.

Definition msPerDay := 86400000.

(** [Date.prototype.getDay]: the week day of the local time, 0 = Sunday;
    [None] is [NaN]. *)
Definition getDay (env : Env) (d : JSDate) : option Z :=
  match timeValue d with
  | Some t => Some (((t + localTZA env t) / msPerDay + 4) mod 7)
  | None => None
  end.

(** Year, month (1..12) and day of the month of a day number counted
    from 1970-01-01, in the proleptic Gregorian calendar. *)
Definition civilFromDays (days : Z) : Z * Z * Z :=
  let z := days + 719468 in
  let era := z / 146097 in
  let doe := z - era * 146097 in
  let yoe := (doe - doe / 1460 + doe / 36524 - doe / 146096) / 365 in
  let doy := doe - (365 * yoe + yoe / 4 - yoe / 100) in
  let mp := (5 * doy + 2) / 153 in
  let d := doy - (153 * mp + 2) / 5 + 1 in
  let m := if mp <? 10 then mp + 3 else mp - 9 in
  ((yoe + era * 400) + (if m <=? 2 then 1 else 0), m, d).

Definition pad (n : nat) (z : Z) : jsstring := padStart0 n (showNat z).

Inductive Outcome (A : Type) : Type :=
  | Ok (a : A)
  | Throws (error : jsstring).
Arguments Ok {A} a.
Arguments Throws {A} error.

(** [Date.prototype.toISOString]: a [RangeError] on an invalid date. *)
Definition toISOString (d : JSDate) : Outcome jsstring :=
  match timeValue d with
  | None => Throws (lit "RangeError")
  | Some t =>
      let '(y, mo, dd) := civilFromDays (t / msPerDay) in
      let ms := t mod msPerDay in
      let year :=
        if (0 <=? y) && (y <=? 9999) then pad 4 y
        else (if y <? 0 then [45] else [43]) ++ pad 6 (Z.abs y) in
      Ok (year ++ [45] ++ pad 2 mo ++ [45] ++ pad 2 dd ++ [84]
          ++ pad 2 (ms / 3600000) ++ [58] ++ pad 2 (ms / 60000 mod 60)
          ++ [58] ++ pad 2 (ms / 1000 mod 60) ++ [46] ++ pad 3 (ms mod 1000)
          ++ [90])
  end.

(* ================================================================== *)
(** ** Cells and rows *)

(** A cell of a decoded sheet row: absent, [null], a string or a number. *)
Inductive Cell :=
  | CUndefined
  | CNull
  | CStr (s : jsstring)
  | CNum (x : Number).

(** ToBoolean *)
Definition truthy (c : Cell) : bool :=
  match c with
  | CStr [] => false
  | CStr _ => true
  | CNum x => truthyNumber x
  | _ => false
  end.

(** [String(c)] *)
Definition toStringCell (c : Cell) : jsstring :=
  match c with
  | CUndefined => lit "undefined"
  | CNull => lit "null"
  | CStr s => s
  | CNum x => numberToString x
  end.

(** What [parseDate] may receive: a cell or a [Date] object. *)
Inductive DateCell :=
  | DVal (c : Cell)
  | DObj (d : JSDate).

(** interface ExcelRow *)
Record ExcelRow := mkRow {
  rowEmployeeName : Cell;
  rowDate : DateCell;
  rowInTime : Cell;
  rowOutTime : Cell
}.

(** [new Date(value)] with one argument that is not a [Date]. *)
Definition newDate (env : Env) (c : Cell) : JSDate :=
  match c with
  | CStr s => mkDate (dateParse env s)
  | CNum x => mkDate (TimeClip x)
  | CNull => mkDate (Some 0)
  | CUndefined => mkDate None
  end.

(* ================================================================== *)
(** ** The helpers of the upload route *)

Definition WEEKDAY_HOURS : Number := Eval vm_compute in StringToNumber (lit "8.5").
Definition SATURDAY_HOURS : Number := Eval vm_compute in StringToNumber (lit "4.0").
Definition SUNDAY_HOURS : Number := Eval vm_compute in StringToNumber (lit "0").

Record ParsedTime := mkParsedTime { str : jsstring; mins : Number }.

(** function parseTime *)
Definition parseTime (timeVal : Cell) : option ParsedTime :=
  if negb (truthy timeVal) then None
  else
    let timeStr := trim (toStringCell timeVal) in
    match timeStr with
    | [] => None
    | _ =>
        let separator := if includes 58 timeStr then 58 else 46 in
        let parts := split separator timeStr in
        match parts with
        | p0 :: p1 :: _ =>
            let hours := parseInt10 p0 in
            let minutes := parseInt10 p1 in
            if isNaN hours || isNaN minutes then None
            else Some {|
              str := padStart0 2 (numberToString hours) ++ [58]
                     ++ padStart0 2 (numberToString minutes);
              mins := add (mul hours (ofZ 60)) minutes |}
        | _ => None
        end
    end.

(** function parseDate *)
Definition parseDate (env : Env) (dateVal : DateCell) : JSDate :=
  match dateVal with
  | DObj d => d
  | DVal (CNum x) =>
      newDate env
        (CNum (MathRound
                 (mul (mul (sub x (ofZ 25569)) (ofZ 86400)) (ofZ 1000))))
  | DVal c =>
      let d := newDate env c in
      match timeValue d with
      | None => mkDate (Some (now env))
      | Some _ => d
      end
  end.

(** function parseDateString, the date helper of the older handler
    ([isValid] of date-fns holds of a [Date] whose time value is not
    [NaN]). *)
Definition parseDateString (env : Env) (dateVal : DateCell) : JSDate :=
  match dateVal with
  | DObj d => d
  | DVal c =>
      let d := newDate env c in
      match timeValue d with
      | Some _ => d
      | None => mkDate (Some (now env))
      end
  end.

Inductive DayName := Weekday | Saturday | Sunday.

Definition dayNameString (d : DayName) : jsstring :=
  match d with
  | Weekday => lit "Weekday"
  | Saturday => lit "Saturday"
  | Sunday => lit "Sunday"
  end.

Record DailyRecord := mkRecord {
  date : jsstring;
  dayName : DayName;
  inTime : jsstring;
  outTime : jsstring;
  expectedHours : Number;
  workedHours : Number;
  isLeave : bool
}.

(** [dayIndex === k] for the result of [getDay] ([NaN] equals nothing). *)
Definition isDay (dayIndex : option Z) (k : Z) : bool :=
  match dayIndex with
  | Some d => d =? k
  | None => false
  end.

(** Section B of [calculateDailyMetrics]: expected hours and day name. *)
Definition dayPolicy (dayIndex : option Z) : Number * DayName :=
  if isDay dayIndex 0 then (SUNDAY_HOURS, Sunday)
  else if isDay dayIndex 6 then (SATURDAY_HOURS, Saturday)
  else (WEEKDAY_HOURS, Weekday).

(** Section C of [calculateDailyMetrics]: worked hours and the leave
    flag, from the day index and the two parsed punches. *)
Definition workedAndLeave (dayIndex : option Z)
    (inObj outObj : option ParsedTime) : Number * bool :=
  if negb (isDay dayIndex 0) then
    match inObj, outObj with
    | Some i, Some o =>
        let diffMins := sub (mins o) (mins i) in
        (if gtb diffMins posZero
         then StringToNumber (toFixed 2 (div diffMins (ofZ 60)))
         else posZero, false)
    | _, _ => (posZero, true)
    end
  else (posZero, false).

(** function calculateDailyMetrics *)
Definition calculateDailyMetrics (env : Env) (row : ExcelRow)
  : Outcome DailyRecord :=
  let date := parseDate env (rowDate row) in
  let dayIndex := getDay env date in
  let '(expected, dayName) := dayPolicy dayIndex in
  let inObj := parseTime (rowInTime row) in
  let outObj := parseTime (rowOutTime row) in
  let '(worked, isLeave) := workedAndLeave dayIndex inObj outObj in
  match toISOString date with
  | Throws e => Throws e
  | Ok iso =>
      Ok {| date := iso;
            dayName := dayName;
            inTime := match inObj with Some i => str i | None => lit "-" end;
            outTime := match outObj with Some o => str o | None => lit "-" end;
            expectedHours := expected;
            workedHours := worked;
            isLeave := isLeave |}
  end.

(* ================================================================== *)
(** ** The aggregation loop of POST *)

Definition bind {A B : Type} (m : Outcome A) (f : A -> Outcome B)
  : Outcome B :=
  match m with
  | Ok a => f a
  | Throws e => Throws e
  end.

(** The variables the loop of [POST] updates.  [leavesTaken] counts
    array elements, so it stays far below 2^53 and is kept as an
    integer. *)
Record Totals := mkTotals {
  records : list DailyRecord;
  totalExpected : Number;
  totalWorked : Number;
  leavesTaken : Z;
  employeeName : jsstring
}.

Definition initialTotals : Totals :=
  {| records := [];
     totalExpected := posZero;
     totalWorked := posZero;
     leavesTaken := 0;
     employeeName := lit "Unknown Employee" |}.

(** The part of the loop body after [calculateDailyMetrics]. *)
Definition accumulate (st : Totals) (metrics : DailyRecord) : Totals :=
  {| records := records st ++ [metrics];
     totalExpected := add (totalExpected st) (expectedHours metrics);
     totalWorked := add (totalWorked st) (workedHours metrics);
     leavesTaken := if isLeave metrics then leavesTaken st + 1
                    else leavesTaken st;
     employeeName := employeeName st |}.

(** One call of the [forEach] callback. *)
Definition forEachBody (env : Env) (index : Z) (row : ExcelRow)
    (st : Totals) : Outcome Totals :=
  let st1 :=
    if (index =? 0) && truthy (rowEmployeeName row)
    then {| records := records st;
            totalExpected := totalExpected st;
            totalWorked := totalWorked st;
            leavesTaken := leavesTaken st;
            employeeName := toStringCell (rowEmployeeName row) |}
    else st in
  bind (calculateDailyMetrics env row) (fun metrics =>
  Ok (accumulate st1 metrics)).

Fixpoint forEach (env : Env) (index : Z) (rows : list ExcelRow)
    (st : Totals) : Outcome Totals :=
  match rows with
  | [] => Ok st
  | row :: rest =>
      bind (forEachBody env index row st) (forEach env (index + 1) rest)
  end.

(** Step 3 of [POST]: the productivity string. *)
Definition productivityOf (totalExpected totalWorked : Number) : jsstring :=
  if gtb totalExpected posZero
  then toFixed 1 (mul (div totalWorked totalExpected) (ofZ 100))
  else lit "0.0".

Record Summary := mkSummary {
  sEmployeeName : jsstring;
  sTotalExpected : Number;
  sTotalWorked : Number;
  sLeavesTaken : Z;
  sProductivity : jsstring;
  sRecords : list DailyRecord
}.

Definition summaryOf (st : Totals) : Summary :=
  {| sEmployeeName := employeeName st;
     sTotalExpected := totalExpected st;
     sTotalWorked := totalWorked st;
     sLeavesTaken := leavesTaken st;
     sProductivity := productivityOf (totalExpected st) (totalWorked st);
     sRecords := records st |}.

Inductive Response :=
  | Success (data : Summary)
  | Failure (status : Z) (error : jsstring).

(** [POST] from the decoded rows on (reading the upload and decoding the
    workbook come before and are not modelled). *)
Definition POST (env : Env) (jsonData : list ExcelRow) : Response :=
  match jsonData with
  | [] => Failure 400 (lit "No data found in sheet")
  | _ =>
      match forEach env 0 jsonData initialTotals with
      | Ok st => Success (summaryOf st)
      | Throws _ => Failure 500 (lit "Internal Server Error")
      end
  end.

(** The Batch Aggregator on its own: the loop's accumulation over a
    sequence of daily records, followed by step 3. *)
Definition aggregate (rs : list DailyRecord) : Summary :=
  summaryOf (fold_left accumulate rs initialTotals).

(* ================================================================== *)
(** ** The dashboard's recomputation (the page component) *)

(** [String.prototype.startsWith] *)
Fixpoint startsWith (s prefix : jsstring) : bool :=
  match prefix, s with
  | [], _ => true
  | p :: prefix', c :: s' => (c =? p) && startsWith s' prefix'
  | _ :: _, [] => false
  end.

(** The records of the selected month; every record when no month is
    selected. *)
Definition filteredRecords (records : list DailyRecord)
    (selectedMonth : jsstring) : list DailyRecord :=
  filter (fun r =>
            match selectedMonth with
            | [] => true
            | _ => startsWith (date r) selectedMonth
            end) records.

Record Stats := mkStats {
  worked : Number;
  expected : Number;
  leaves : Z;
  productivity : jsstring
}.

(** The [stats] of [useMemo]: the same accumulation over the filtered
    records. *)
Definition stats (records : list DailyRecord) (selectedMonth : jsstring)
  : Stats :=
  let '(worked, expected, leaves) :=
    fold_left
      (fun (acc : Number * Number * Z) r =>
         let '(worked, expected, leaves) := acc in
         (add worked (workedHours r), add expected (expectedHours r),
          if isLeave r then leaves + 1 else leaves))
      (filteredRecords records selectedMonth) (posZero, posZero, 0) in
  {| worked := worked;
     expected := expected;
     leaves := leaves;
     productivity :=
       if gtb expected posZero
       then toFixed 1 (mul (div worked expected) (ofZ 100))
       else lit "0.0" |}.

(* ================================================================== *)
(** ** A concrete host *)

(** Day number, counted from 1970-01-01, of a calendar date. *)
Definition daysFromCivil (y m d : Z) : Z :=
  let y' := if m <=? 2 then y - 1 else y in
  let era := y' / 400 in
  let yoe := y' - era * 400 in
  let doy := (153 * (if 2 <? m then m - 3 else m + 9) + 2) / 5 + d - 1 in
  let doe := yoe * 365 + yoe / 4 - yoe / 100 + doy in
  era * 146097 + doe - 719468.

(** [Date.parse] restricted to the ISO date-only form [YYYY-MM-DD] (UTC
    midnight); any other string is not recognised. *)
Definition isoDateParse (s : jsstring) : option Z :=
  match s with
  | [y1; y2; y3; y4; h1; m1; m2; h2; d1; d2] =>
      if forallb isDigit [y1; y2; y3; y4; m1; m2; d1; d2]
         && (h1 =? 45) && (h2 =? 45) then
        let y := digitsValue (map (fun c => c - 48) [y1; y2; y3; y4]) in
        let m := digitsValue (map (fun c => c - 48) [m1; m2]) in
        let d := digitsValue (map (fun c => c - 48) [d1; d2]) in
        if (1 <=? m) && (m <=? 12) && (1 <=? d)
           && (d <=? daysFromCivil (y + m / 12) (m mod 12 + 1) 1
                     - daysFromCivil y m 1)
        then Some (daysFromCivil y m d * msPerDay)
        else None
      else None
  | _ => None
  end.

(** A host on UTC whose clock reads [t]. *)
Definition utcHost (t : Z) : Env :=
  {| now := t; localTZA := fun _ => 0; dateParse := isoDateParse |}.

(* ================================================================== *)
(** ** Notions used in the statements *)

(** The binary64 representation of the integer [z] with sign [s], for
    [z] below 2^53: the mantissa is shifted to 53 bits. *)
Definition exactInt (s : bool) (z : positive) : Number :=
  let d := Z.log2 (Zpos z) + 1 in
  S754_finite s (Z.to_pos (Zpos z * 2 ^ (53 - d))) (d - 53).

Definition signedInt (a : Z) : Number :=
  match a with
  | Z0 => S754_zero false
  | Zpos z => exactInt false z
  | Zneg z => exactInt true z
  end.

(** Integers that every Number operation below represents exactly. *)
Definition safeInt (a : Z) : Prop := Z.abs a < 2 ^ 53.

Definition cval (s : bool) (z : positive) : Z := if s then Zneg z else Zpos z.

(** [x] is not [NaN] and carries the sign bit [s]. *)
Definition hasSign (s : bool) (x : Number) : Prop :=
  match x with
  | S754_zero s' | S754_infinity s' | S754_finite s' _ _ => s' = s
  | S754_nan => False
  end.

(** [x >= 0] *)
Definition geZero (x : Number) : bool := SFleb posZero x.

(** max(0, x); [NaN] is not above 0. *)
Definition max0 (x : Number) : Number := if ltb posZero x then x else posZero.

(** [x] rounded to two decimal places, as a Number. *)
Definition round2 (x : Number) : Number := StringToNumber (toFixed 2 x).

(** Digit values. *)
Definition validDigits (ds : list Z) : Prop := Forall (fun d => 0 <= d <= 9) ds.

(** Two digits, a colon, two digits. *)
Definition isHHMM (s : jsstring) : bool :=
  match s with
  | [a; b; colon; c; d] =>
      isDigit a && isDigit b && (colon =? 58) && isDigit c && isDigit d
  | _ => false
  end.

(** The sum of a sequence of Numbers, added from the left starting at 0. *)
Definition sumNumbers (l : list Number) : Number := fold_left add l posZero.

Definition countLeaves (rs : list DailyRecord) : Z :=
  Z.of_nat (List.length (filter isLeave rs)).

(** After leading white space, [s] does not start with a minus sign. *)
Definition noMinus (s : jsstring) : bool :=
  negb (fst (stripSign (trimStart s))).

(** A decimal literal: integer digits, an optional fraction and an
    optional exponent with its sign. *)
Definition decimalLiteral (A : list Z) (frac : option (list Z))
    (ex : option (bool * list Z)) : jsstring :=
  showDigits A
  ++ match frac with Some B => 46 :: showDigits B | None => [] end
  ++ match ex with
     | Some (neg, E) => 101 :: (if neg then 45 else 43) :: showDigits E
     | None => []
     end.

(** The value the literal denotes, as [v * 10^j]. *)
Definition literalValue (A : list Z) (frac : option (list Z))
    (ex : option (bool * list Z)) : Z * Z :=
  let B := match frac with Some B => B | None => [] end in
  let e := match ex with
           | Some (neg, E) => if neg then - digitsValue E else digitsValue E
           | None => 0
           end in
  (digitsValue (A ++ B), e - Z.of_nat (List.length B)).

(** Well-formed parts of a decimal literal. *)
Definition validExp (ex : option (bool * list Z)) : Prop :=
  match ex with
  | Some (_, E) => validDigits E /\ E <> []
  | None => True
  end.

Definition validFrac (frac : option (list Z)) : Prop :=
  match frac with
  | Some B => validDigits B
  | None => True
  end.

(** A punch cell holding the number 0 or the empty string. *)
Definition zeroOrEmpty (c : Cell) : Prop :=
  c = CStr [] \/ exists s, c = CNum (S754_zero s).

(** The row with one of its punch cells replaced. *)
Definition withInTime (row : ExcelRow) (c : Cell) : ExcelRow :=
  {| rowEmployeeName := rowEmployeeName row; rowDate := rowDate row;
     rowInTime := c; rowOutTime := rowOutTime row |}.

Definition withOutTime (row : ExcelRow) (c : Cell) : ExcelRow :=
  {| rowEmployeeName := rowEmployeeName row; rowDate := rowDate row;
     rowInTime := rowInTime row; rowOutTime := c |}.

(** The calculator applied to every row in order; an exception stops it. *)
Fixpoint calculateAll (env : Env) (rows : list ExcelRow)
  : Outcome (list DailyRecord) :=
  match rows with
  | [] => Ok []
  | row :: rest =>
      bind (calculateDailyMetrics env row) (fun r =>
      bind (calculateAll env rest) (fun rs => Ok (r :: rs)))
  end.

(** The expected hours the calculator can assign. *)
Definition policyHours (r : DailyRecord) : Prop :=
  expectedHours r = WEEKDAY_HOURS \/ expectedHours r = SATURDAY_HOURS
  \/ expectedHours r = SUNDAY_HOURS.

(** A fixed-point string with one decimal: at least one digit, a
    period, one digit. *)
Definition isOneDecimal (s : jsstring) : bool :=
  match rev s with
  | d :: p :: a :: A => isDigit d && (p =? 46) && forallb isDigit (a :: A)
  | _ => false
  end.

(** The number of tenths a one-decimal string denotes: its digits read
    without the period. *)
Definition tenthsOf (s : jsstring) : Z :=
  digitsValue (map (fun c => c - 48) (filter isDigit s)).

(** [n / 10] is the value of [x] rounded to one decimal: no one-decimal
    value is nearer to [x], that is, the distance is at most a
    twentieth. *)
Definition nearestTenth (n : Z) (x : Number) : Prop :=
  match x with
  | S754_zero _ => n = 0
  | S754_finite _ m e =>
      let '(num, den) := ratOf m e in
      2 * Z.abs (10 * num - n * Zpos den) <= Zpos den
  | _ => False
  end.

(** [x] is finite and its magnitude is below 10^21. *)
Definition belowE21 (x : Number) : bool :=
  match x with
  | S754_zero _ => true
  | S754_finite _ m e => let '(num, den) := ratOf m e in num <? 10 ^ 21 * Zpos den
  | _ => false
  end.

(** Follows the spec's words for a numeric cell:
    round((serial − 25569) × 86400) seconds since the Unix epoch. *)
Definition specSerialDate (serial : Number) : JSDate :=
  mkDate (TimeClip
            (mul (MathRound (mul (sub serial (ofZ 25569)) (ofZ 86400)))
                 (ofZ 1000))).

(** The same host with its clock reading [t]. *)
Definition setNow (env : Env) (t : Z) : Env :=
  {| now := t; localTZA := localTZA env; dateParse := dateParse env |}.

(** The date cell resolves without the fallback to the clock. *)
Definition dateResolved (env : Env) (dateVal : DateCell) : Prop :=
  match dateVal with
  | DObj _ => True
  | DVal (CNum _) => True
  | DVal CNull => True
  | DVal (CStr s) => dateParse env s <> None
  | DVal CUndefined => False
  end.

(** The totals of a summary, without the employee name. *)
Definition totalsOf (s : Summary)
  : Number * Number * Z * jsstring * list DailyRecord :=
  (sTotalExpected s, sTotalWorked s, sLeavesTaken s, sProductivity s,
   sRecords s).

(** [m * 2^e] is an integer. *)
Definition intValued (m : positive) (e : Z) : Prop :=
  0 <= e \/ exists c, Zpos m = c * 2 ^ (- e).

(** A Number whose value is an integer. *)
Definition isInteger (x : Number) : Prop :=
  match x with
  | S754_zero _ => True
  | S754_finite _ m e => intValued m e
  | _ => False
  end.

Definition integerOrInfinite (x : Number) : Prop :=
  isInteger x \/ exists s, x = S754_infinity s.

(** The millisecond count of a numeric cell taken as a spreadsheet
    serial, as the code computes it. *)
Definition serialMs (x : Number) : Number :=
  MathRound (mul (mul (sub x (ofZ 25569)) (ofZ 86400)) (ofZ 1000)).

(* ================================================================== *)
(** ** The older handler (third version of [route.ts]) *)

(** [a || b] on cells. *)
Definition orElse (a b : Cell) : Cell := if truthy a then a else b.

(** [a || b] on date cells; an object is truthy. *)
Definition orElseDate (a b : DateCell) : DateCell :=
  match a with
  | DObj _ => a
  | DVal c => if truthy c then a else b
  end.

(** A row read with the capitalised keys and their lower-case
    alternates. *)
Record LooseRow := mkLooseRow {
  keyDate : DateCell;
  keyDateLower : DateCell;
  keyInTime : Cell;
  keyInTimeLower : Cell;
  keyOutTime : Cell;
  keyOutTimeLower : Cell
}.

(** An array element that may be missing, in arithmetic: [undefined]
    converts to [NaN]. *)
Definition elementNumber (o : option Number) : Number :=
  match o with
  | Some x => x
  | None => NaN
  end.

(** [const [h, m] = String(t).split(':').map(Number); h * 60 + m] *)
Definition legacyMinutes (t : Cell) : Number :=
  let parts := map StringToNumber (split 58 (toStringCell t)) in
  add (mul (elementNumber (nth_error parts 0)) (ofZ 60))
      (elementNumber (nth_error parts 1)).

Record LegacyRecord := mkLegacyRecord {
  legacyDate : jsstring;
  legacyDayName : DayName;
  legacyInTime : Cell;
  legacyOutTime : Cell;
  legacyExpectedHours : Number;
  legacyWorkedHours : Number;
  legacyIsLeave : bool
}.

(** function calculateDailyMetrics of the older handler *)
Definition calculateDailyMetricsLegacy (env : Env) (row : LooseRow)
  : Outcome LegacyRecord :=
  let dateRaw := orElseDate (keyDate row) (keyDateLower row) in
  let date := parseDateString env dateRaw in
  let dayIndex := getDay env date in
  let '(expected, dayName) := dayPolicy dayIndex in
  let inTime := orElse (keyInTime row) (keyInTimeLower row) in
  let outTime := orElse (keyOutTime row) (keyOutTimeLower row) in
  let '(worked, isLeave) :=
    if negb (isDay dayIndex 0) then
      if negb (truthy inTime) || negb (truthy outTime) then (posZero, true)
      else
        let startMins := legacyMinutes inTime in
        let endMins := legacyMinutes outTime in
        let diff := sub endMins startMins in
        (if gtb diff posZero
         then StringToNumber (toFixed 2 (div diff (ofZ 60)))
         else posZero, false)
    else (posZero, false) in
  match toISOString date with
  | Throws e => Throws e
  | Ok iso =>
      Ok {| legacyDate := iso;
            legacyDayName := dayName;
            legacyInTime := orElse inTime (CStr (lit "-"));
            legacyOutTime := orElse outTime (CStr (lit "-"));
            legacyExpectedHours := expected;
            legacyWorkedHours := worked;
            legacyIsLeave := isLeave |}
  end.

(* ================================================================== *)
(** ** The handler with persistence (second version of [route.ts]) *)

Record DbMetrics := mkDbMetrics {
  dbDate : jsstring;
  dbDateObj : JSDate;
  dbDayName : DayName;
  dbInTime : option jsstring;
  dbOutTime : option jsstring;
  dbExpectedHours : Number;
  dbWorkedHours : Number;
  dbIsLeave : bool
}.

(** function calculateDailyMetrics of the handler with persistence: the
    punches are [null] when absent and the [Date] object is kept. *)
Definition calculateDailyMetricsDb (env : Env) (row : ExcelRow)
  : Outcome DbMetrics :=
  let date := parseDate env (rowDate row) in
  let dayIndex := getDay env date in
  let '(expected, dayName) := dayPolicy dayIndex in
  let inObj := parseTime (rowInTime row) in
  let outObj := parseTime (rowOutTime row) in
  let '(worked, isLeave) := workedAndLeave dayIndex inObj outObj in
  match toISOString date with
  | Throws e => Throws e
  | Ok iso =>
      Ok {| dbDate := iso;
            dbDateObj := date;
            dbDayName := dayName;
            dbInTime := option_map str inObj;
            dbOutTime := option_map str outObj;
            dbExpectedHours := expected;
            dbWorkedHours := worked;
            dbIsLeave := isLeave |}
  end.

(** A stored attendance record: the fields the handler writes (the
    employee it belongs to is left out). *)
Record AttendanceRecord := mkAttendanceRecord {
  arDate : JSDate;
  arInTime : option jsstring;
  arOutTime : option jsstring;
  arWorkedHours : Number;
  arIsLeave : bool;
  arDayType : jsstring
}.

(** The [create] data of the upsert. *)
Definition createData (record : DbMetrics) : AttendanceRecord :=
  {| arDate := dbDateObj record;
     arInTime := dbInTime record;
     arOutTime := dbOutTime record;
     arWorkedHours := dbWorkedHours record;
     arIsLeave := dbIsLeave record;
     arDayType := dayNameString (dbDayName record) |}.

Definition literal_8_5 : Number := Eval vm_compute in StringToNumber (lit "8.5").
Definition literal_4_0 : Number := Eval vm_compute in StringToNumber (lit "4.0").

(** The loop over the records fetched back from the store. *)
Definition storedTotalsStep (acc : Number * Number * Z) (r : AttendanceRecord)
  : Number * Number * Z :=
  let '(totalExpected, totalWorked, leavesTaken) := acc in
  let totalExpected :=
    if jsstring_eqb (arDayType r) (lit "Weekday")
    then add totalExpected literal_8_5 else totalExpected in
  let totalExpected :=
    if jsstring_eqb (arDayType r) (lit "Saturday")
    then add totalExpected literal_4_0 else totalExpected in
  (totalExpected, add totalWorked (arWorkedHours r),
   if arIsLeave r then leavesTaken + 1 else leavesTaken).

Definition storedTotals (allRecords : list AttendanceRecord)
  : Number * Number * Z :=
  fold_left storedTotalsStep allRecords (posZero, posZero, 0).

(** [a] and [b] are the same instant. *)
Definition sameDate (a b : JSDate) : bool :=
  match timeValue a, timeValue b with
  | Some x, Some y => x =? y
  | _, _ => false
  end.

(** [a] is an earlier instant than [b]. *)
Definition dateBefore (a b : JSDate) : bool :=
  match timeValue a, timeValue b with
  | Some x, Some y => x <? y
  | _, _ => false
  end.

(** The [update] data of the upsert, applied to the stored record. *)
Definition updateData (stored : AttendanceRecord) (record : DbMetrics)
  : AttendanceRecord :=
  {| arDate := arDate stored;
     arInTime := dbInTime record;
     arOutTime := dbOutTime record;
     arWorkedHours := dbWorkedHours record;
     arIsLeave := dbIsLeave record;
     arDayType := dayNameString (dbDayName record) |}.

(** [prisma.attendanceRecord.upsert] on the stored records of the
    employee, which hold at most one record for a date: the record of
    that date is updated when there is one, and the record is created
    otherwise. *)
Fixpoint upsert (store : list AttendanceRecord) (record : DbMetrics)
  : list AttendanceRecord :=
  match store with
  | [] => [createData record]
  | r :: rest =>
      if sameDate (arDate r) (dbDateObj record)
      then updateData r record :: rest
      else r :: upsert rest record
  end.

(** The loop that saves the processed records. *)
Definition saveAll (store : list AttendanceRecord) (processed : list DbMetrics)
  : list AttendanceRecord :=
  fold_left upsert processed store.

Fixpoint insertByDate (r : AttendanceRecord) (l : list AttendanceRecord)
  : list AttendanceRecord :=
  match l with
  | [] => [r]
  | x :: rest =>
      if dateBefore (arDate r) (arDate x) then r :: x :: rest
      else x :: insertByDate r rest
  end.

(** [prisma.attendanceRecord.findMany] for the employee, ordered by
    date, ascending. *)
Definition findMany (store : list AttendanceRecord) : list AttendanceRecord :=
  fold_right insertByDate [] store.

(** The first loop of the handler: the metrics of every row. *)
Fixpoint processRecords (env : Env) (rows : list ExcelRow)
  : Outcome (list DbMetrics) :=
  match rows with
  | [] => Ok []
  | row :: rest =>
      bind (calculateDailyMetricsDb env row) (fun m =>
      bind (processRecords env rest) (fun ms => Ok (m :: ms)))
  end.

(** Steps 2 to 4 of the handler, for the totals: the rows are processed,
    the records saved, every record of the employee fetched back, and the
    totals taken over them.  [store] holds the records the employee has
    before the upload. *)
Definition totalsAfterSaving (env : Env) (store : list AttendanceRecord)
    (jsonData : list ExcelRow) : Outcome (Number * Number * Z) :=
  bind (processRecords env jsonData) (fun processed =>
  Ok (storedTotals (findMany (saveAll store processed)))).

(** [s || '-'] for a string or [null]. *)
Definition orDash (s : option jsstring) : jsstring :=
  match s with
  | Some (c :: r) => c :: r
  | _ => lit "-"
  end.

Record StoredView := mkStoredView {
  viewDate : jsstring;
  viewInTime : jsstring;
  viewOutTime : jsstring;
  viewWorkedHours : Number;
  viewIsLeave : bool;
  viewDayType : jsstring
}.

(** One element of [records] in the response: the stored record with
    its date as a string and its absent punches as '-'. *)
Definition storedView (r : AttendanceRecord) : Outcome StoredView :=
  bind (toISOString (arDate r)) (fun iso =>
  Ok {| viewDate := iso;
        viewInTime := orDash (arInTime r);
        viewOutTime := orDash (arOutTime r);
        viewWorkedHours := arWorkedHours r;
        viewIsLeave := arIsLeave r;
        viewDayType := arDayType r |}).

(* ================================================================== *)
(** ** The table of the dashboard *)

(** function StatusBadge: the label shown. *)
Definition StatusBadge (isLeave : bool) (dayName : jsstring) : jsstring :=
  if jsstring_eqb dayName (lit "Sunday") then lit "Holiday"
  else if isLeave then lit "Absent / Leave"
  else lit "Present".

(** Whether the table row is tinted red. *)
Definition rowTinted (isLeave : bool) (dayName : jsstring) : bool :=
  isLeave && negb (jsstring_eqb dayName (lit "Sunday")).

(** A Number of the response as the page receives it, after
    [JSON.stringify] ([NextResponse.json]) and [JSON.parse]
    ([res.json]): a finite Number is written by Number::toString and
    read back, [NaN] and the infinities are written as [null] ([None]). *)
Definition viaJSON (x : Number) : option Number :=
  match x with
  | S754_nan | S754_infinity _ => None
  | _ => Some (StringToNumber (numberToString x))
  end.

(** The hours cell: the hours, or '-' ([null > 0] is false). *)
Definition hoursCell (workedHours : option Number) : Cell :=
  match workedHours with
  | Some w => if gtb w posZero then CNum w else CStr (lit "-")
  | None => CStr (lit "-")
  end.

(* ================================================================== *)
(** ** Further notions used in the statements *)

Definition allWhiteSpace (s : jsstring) : Prop :=
  Forall (fun c => isWhiteSpace c = true) s.

(** The rest of the string does not start with a digit. *)
Definition noDigitAhead (r : jsstring) : Prop :=
  match r with
  | [] => True
  | c :: _ => isDigit c = false
  end.

(** The row is a leave day: not a Sunday, and a punch does not parse. *)
Definition leaveRow (env : Env) (row : ExcelRow) : bool :=
  negb (isDay (getDay env (parseDate env (rowDate row))) 0)
  && match parseTime (rowInTime row), parseTime (rowOutTime row) with
     | Some _, Some _ => false
     | _, _ => true
     end.

Definition isNumericCell (dateVal : DateCell) : Prop :=
  exists x, dateVal = DVal (CNum x).

(** The record of the first version of the handler that corresponds to
    a record of the handler with persistence. *)
Definition ofDbMetrics (r : DbMetrics) : DailyRecord :=
  {| date := dbDate r;
     dayName := dbDayName r;
     inTime := orDash (dbInTime r);
     outTime := orDash (dbOutTime r);
     expectedHours := dbExpectedHours r;
     workedHours := dbWorkedHours r;
     isLeave := dbIsLeave r |}.

(** A month as the month input gives it: YYYY-MM. *)
Definition monthString (y m : Z) : jsstring := pad 4 y ++ [45] ++ pad 2 m.

(** The date cell of the row parses to an invalid date. *)
Definition invalidDate (env : Env) (row : ExcelRow) : Prop :=
  timeValue (parseDate env (rowDate row)) = None.

(** Year and month, in UTC, of a time value. *)
Definition utcYearMonth (t : Z) : Z * Z :=
  let '(y, m, _) := civilFromDays (t / msPerDay) in (y, m).

(** The date of the row falls, in UTC, in month [m] of year [y]. *)
Definition rowInMonth (env : Env) (y m : Z) (row : ExcelRow) : bool :=
  match timeValue (parseDate env (rowDate row)) with
  | Some t => let '(y', m') := utcYearMonth t in (y' =? y) && (m' =? m)
  | None => false
  end.

(** [ToBoolean] of what a date cell holds. *)
Definition truthyDate (a : DateCell) : bool :=
  match a with
  | DObj _ => true
  | DVal c => truthy c
  end.

(** The row as the current handler reads it: the capitalised keys. *)
Definition strictRow (name : Cell) (row : LooseRow) : ExcelRow :=
  {| rowEmployeeName := name; rowDate := keyDate row;
     rowInTime := keyInTime row; rowOutTime := keyOutTime row |}.

(** A punch written as hour digits, a colon and minute digits, each
    below 100. *)
Definition cleanPunch (c : Cell) (H M : list Z) : Prop :=
  c = CStr (showDigits H ++ 58 :: showDigits M)
  /\ validDigits H /\ validDigits M /\ H <> [] /\ M <> []
  /\ digitsValue H <= 99 /\ digitsValue M <= 99.

(** The time value of the date of a row, 0 for an invalid date. *)
Definition rowMs (env : Env) (row : ExcelRow) : Z :=
  match timeValue (parseDate env (rowDate row)) with
  | Some t => t
  | None => 0
  end.

Fixpoint increasing (ts : list Z) : bool :=
  match ts with
  | a :: rest =>
      match rest with
      | b :: _ => (a <? b) && increasing rest
      | [] => true
      end
  | [] => true
  end.

(** The dates of the rows are distinct and in ascending order. *)
Definition datesIncrease (env : Env) (rows : list ExcelRow) : Prop :=
  increasing (map (rowMs env) rows) = true.

(* ================================================================== *)
(** ** Exact arithmetic on safe integers *)


Lemma digits2_pos_log2 p : Zpos (digits2_pos p) = Z.log2 (Zpos p) + 1.
Proof.
  destruct p as [p|p|]; simpl; try reflexivity;
  induction p as [p IH|p IH|]; simpl in *; lia.
Qed.

Lemma pos_iter_xO_Z m p : Zpos (Pos.iter xO m p) = Zpos m * 2 ^ Zpos p.
Proof.
  induction p as [|p IH] using Pos.peano_ind.
  - simpl. lia.
  - rewrite Pos.iter_succ, Pos2Z.inj_succ, Z.pow_succ_r by lia.
    rewrite Pos2Z.inj_xO, IH. ring.
Qed.

Lemma iter_shr_1_exact p : forall m,
  iter_pos shr_1 p (Build_shr_record (Zpos (Pos.iter xO m p)) false false)
  = Build_shr_record (Zpos m) false false.
Proof.
  induction p as [p IH|p IH|]; intros m; simpl.
  - rewrite IH. apply IH.
  - rewrite IH. apply IH.
  - reflexivity.
Qed.

Lemma fexp_normal x : -1021 <= x -> fexp prec emax x = x - 53.
Proof. unfold fexp, emin, prec, emax. lia. Qed.

Lemma log2_shift z k : 0 <= k -> Z.log2 (Zpos z * 2 ^ k) = Z.log2 (Zpos z) + k.
Proof. intros. rewrite Z.log2_mul_pow2 by lia. lia. Qed.

Lemma binary_round_aux_canonical s m e :
  Z.log2 (Zpos m) + 1 = 53 -> -1074 <= e <= 971 ->
  binary_round_aux prec emax s (Zpos m) e loc_Exact = S754_finite s m e.
Proof.
  intros Hd He. unfold binary_round_aux, shr_fexp.
  cbn [Zdigits2 shr_record_of_loc]. rewrite digits2_pos_log2, Hd.
  assert (Hf : fexp prec emax (53 + e) - e = 0).
  { unfold fexp, emin, prec, emax. lia. }
  rewrite Hf. cbn [shr shr_m loc_of_shr_record round_nearest_even].
  cbn [Zdigits2 shr_record_of_loc]. rewrite digits2_pos_log2, Hd, Hf.
  cbn [shr shr_m].
  replace (e <=? emax - prec) with true; [reflexivity|].
  symmetry. apply Z.leb_le. unfold emax, prec. lia.
Qed.

Lemma binary_round_aux_int s m e z :
  Zpos m = Zpos z * 2 ^ (- e) ->
  e <= Z.log2 (Zpos z) + 1 - 53 -> Z.log2 (Zpos z) + 1 <= 53 ->
  binary_round_aux prec emax s (Zpos m) e loc_Exact = exactInt s z.
Proof.
  intros Hm He Hd.
  pose proof (Z.log2_nonneg (Zpos z)) as Hl.
  set (dz := Z.log2 (Zpos z) + 1) in *.
  assert (Hdm : Z.log2 (Zpos m) + 1 = dz - e).
  { rewrite Hm, log2_shift by lia. unfold dz. lia. }
  remember (dz - 53 - e) as n eqn:Hn. destruct n as [|p|p]; try lia.
  - (* already canonical *)
    assert (e = dz - 53) by lia.
    unfold exactInt. fold dz.
    replace (53 - dz) with (- e) by lia. rewrite <- Hm, <- H. simpl Z.to_pos.
    apply binary_round_aux_canonical; lia.
  - set (m' := Z.to_pos (Zpos z * 2 ^ (53 - dz))).
    assert (Hm' : Zpos m' = Zpos z * 2 ^ (53 - dz)).
    { unfold m'. rewrite Z2Pos.id; [reflexivity|].
      apply Z.mul_pos_pos; [lia|]. apply Z.pow_pos_nonneg; lia. }
    assert (Hmm : m = Pos.iter xO m' p).
    { apply Pos2Z.inj. rewrite pos_iter_xO_Z, Hm', Hm, <- Z.mul_assoc.
      rewrite <- Z.pow_add_r by lia. do 2 f_equal. lia. }
    unfold binary_round_aux, shr_fexp.
    cbn [Zdigits2 shr_record_of_loc]. rewrite digits2_pos_log2, Hdm.
    replace (dz - e + e) with dz by lia.
    rewrite fexp_normal by lia. rewrite <- Hn.
    cbn [shr]. rewrite Hmm, iter_shr_1_exact.
    cbn [shr_m loc_of_shr_record round_nearest_even].
    assert (Hd' : Z.log2 (Zpos m') + 1 = 53).
    { rewrite Hm', log2_shift by lia. unfold dz. lia. }
    cbn [Zdigits2].
    rewrite digits2_pos_log2, Hd'.
    replace (fexp prec emax (53 + (e + Zpos p)) - (e + Zpos p)) with 0
      by (unfold fexp, emin, prec, emax; lia).
    cbn [shr shr_m].
    replace (e + Zpos p <=? emax - prec) with true
      by (symmetry; apply Z.leb_le; unfold emax, prec; lia).
    unfold exactInt. fold dz. fold m'. f_equal. lia.
Qed.

Lemma binary_round_int s m e z :
  e <= 0 -> Zpos m = Zpos z * 2 ^ (- e) -> Z.log2 (Zpos z) + 1 <= 53 ->
  binary_round prec emax s m e = exactInt s z.
Proof.
  intros He Hm Hd.
  pose proof (Z.log2_nonneg (Zpos z)) as Hl.
  unfold binary_round, shl_align.
  rewrite digits2_pos_log2, Hm, log2_shift by lia.
  rewrite fexp_normal by lia.
  destruct (Z.log2 (Zpos z) + - e + 1 + e - 53 - e) as [|d|d] eqn:Hs.
  - apply binary_round_aux_int; [rewrite Hm; reflexivity|lia|lia].
  - apply binary_round_aux_int; [rewrite Hm; reflexivity|lia|lia].
  - apply binary_round_aux_int; [|lia|lia].
    rewrite pos_iter_xO_Z, Hm, <- Z.mul_assoc, <- Z.pow_add_r by lia.
    do 2 f_equal. lia.
Qed.

Lemma log2_safe z : Zpos z < 2 ^ 53 -> Z.log2 (Zpos z) + 1 <= 53.
Proof.
  intros H. assert (Z.log2 (Zpos z) < 53); [|lia].
  apply Z.log2_lt_pow2; lia.
Qed.

Lemma ofZ_exact a : safeInt a -> ofZ a = signedInt a.
Proof.
  unfold safeInt, ofZ. destruct a as [|z|z]; intros H; simpl binary_normalize.
  - reflexivity.
  - apply binary_round_int; [lia|simpl; lia|apply log2_safe; simpl in H; lia].
  - apply binary_round_int; [lia|simpl; lia|apply log2_safe; simpl in H; lia].
Qed.

Lemma exactInt_mantissa z :
  Z.log2 (Zpos z) + 1 <= 53 ->
  Zpos (Z.to_pos (Zpos z * 2 ^ (53 - (Z.log2 (Zpos z) + 1))))
  = Zpos z * 2 ^ (53 - (Z.log2 (Zpos z) + 1)).
Proof.
  intros H. rewrite Z2Pos.id; [reflexivity|].
  apply Z.mul_pos_pos; [lia|]. apply Z.pow_pos_nonneg; lia.
Qed.

Lemma mul_exactInt sx sy zx zy :
  Zpos zx < 2 ^ 53 -> Zpos zy < 2 ^ 53 -> Zpos (zx * zy) < 2 ^ 53 ->
  mul (exactInt sx zx) (exactInt sy zy) = exactInt (xorb sx sy) (zx * zy).
Proof.
  intros Hx Hy Hxy.
  pose proof (log2_safe _ Hx). pose proof (log2_safe _ Hy).
  pose proof (log2_safe _ Hxy).
  pose proof (Z.log2_nonneg (Zpos zx)). pose proof (Z.log2_nonneg (Zpos zy)).
  assert (Z.log2 (Zpos zx) + Z.log2 (Zpos zy) <= Z.log2 (Zpos (zx * zy))).
  { rewrite Pos2Z.inj_mul. apply Z.log2_mul_below; lia. }
  unfold mul, exactInt at 1 2. cbn [SFmul].
  apply binary_round_aux_int; [|lia|lia].
  rewrite Pos2Z.inj_mul, !exactInt_mantissa by lia.
  rewrite Pos2Z.inj_mul.
  replace (- (Z.log2 (Zpos zx) + 1 - 53 + (Z.log2 (Zpos zy) + 1 - 53)))
    with ((53 - (Z.log2 (Zpos zx) + 1)) + (53 - (Z.log2 (Zpos zy) + 1))) by lia.
  rewrite Z.pow_add_r by lia. ring.
Qed.

Lemma shl_align_value m e e' :
  e' <= e -> Zpos (fst (shl_align m e e')) = Zpos m * 2 ^ (e - e').
Proof.
  intros H. unfold shl_align.
  destruct (e' - e) as [|d|d] eqn:Hs; cbn [fst]; try lia.
  - replace (e - e') with 0 by lia. lia.
  - rewrite pos_iter_xO_Z. do 2 f_equal. lia.
Qed.

Lemma binary_normalize_int v e a :
  e <= 0 -> v = a * 2 ^ (- e) -> safeInt a ->
  binary_normalize prec emax v e false = signedInt a.
Proof.
  intros He Hv Ha. unfold safeInt in Ha.
  assert (0 < 2 ^ (- e)) by (apply Z.pow_pos_nonneg; lia).
  destruct a as [|z|z].
  - subst v. reflexivity.
  - destruct v as [|m|m]; try nia.
    simpl. apply binary_round_int; [lia|lia|apply log2_safe; simpl in Ha; lia].
  - destruct v as [|m|m]; try nia.
    simpl. apply binary_round_int; [lia| |apply log2_safe; simpl in Ha; lia].
    change (Zneg m) with (- Zpos m) in Hv. change (Zneg z) with (- Zpos z) in Hv. nia.
Qed.

Lemma exactInt_aligned s z e' :
  Zpos z < 2 ^ 53 -> e' <= Z.log2 (Zpos z) + 1 - 53 ->
  cond_Zopp s (Zpos (fst (shl_align
     (Z.to_pos (Zpos z * 2 ^ (53 - (Z.log2 (Zpos z) + 1))))
     (Z.log2 (Zpos z) + 1 - 53) e')))
  = cval s z * 2 ^ (- e').
Proof.
  intros Hz He. pose proof (log2_safe _ Hz).
  rewrite shl_align_value by lia. rewrite exactInt_mantissa by lia.
  rewrite <- Z.mul_assoc, <- Z.pow_add_r by lia.
  replace (53 - (Z.log2 (Zpos z) + 1) + (Z.log2 (Zpos z) + 1 - 53 - e'))
    with (- e') by lia.
  destruct s; unfold cond_Zopp, cval; lia.
Qed.

Lemma add_exactInt sx sy zx zy :
  Zpos zx < 2 ^ 53 -> Zpos zy < 2 ^ 53 -> safeInt (cval sx zx + cval sy zy) ->
  add (exactInt sx zx) (exactInt sy zy) = signedInt (cval sx zx + cval sy zy).
Proof.
  intros Hx Hy Hxy.
  pose proof (log2_safe _ Hx). pose proof (log2_safe _ Hy).
  unfold add, exactInt. cbn [SFadd].
  apply binary_normalize_int; [lia| |assumption].
  rewrite !exactInt_aligned by lia. ring.
Qed.

Lemma sub_exactInt sx sy zx zy :
  Zpos zx < 2 ^ 53 -> Zpos zy < 2 ^ 53 -> safeInt (cval sx zx - cval sy zy) ->
  sub (exactInt sx zx) (exactInt sy zy) = signedInt (cval sx zx - cval sy zy).
Proof.
  intros Hx Hy Hxy.
  pose proof (log2_safe _ Hx). pose proof (log2_safe _ Hy).
  unfold sub, exactInt. cbn [SFsub].
  apply binary_normalize_int; [lia| |assumption].
  rewrite !exactInt_aligned by lia. ring.
Qed.

Lemma signedInt_cval s z : signedInt (cval s z) = exactInt s z.
Proof. destruct s; reflexivity. Qed.

Lemma add_ofZ a b :
  safeInt a -> safeInt b -> safeInt (a + b) ->
  add (ofZ a) (ofZ b) = ofZ (a + b).
Proof.
  intros Ha Hb Hab. rewrite !ofZ_exact by assumption.
  unfold safeInt in *.
  destruct a as [|x|x], b as [|y|y]; try reflexivity.
  - apply (add_exactInt false false); unfold safeInt, cval in *; simpl Z.abs in *; lia.
  - apply (add_exactInt false true); unfold safeInt, cval in *; simpl Z.abs in *; lia.
  - apply (add_exactInt true false); unfold safeInt, cval in *; simpl Z.abs in *; lia.
  - apply (add_exactInt true true); unfold safeInt, cval in *; simpl Z.abs in *; lia.
Qed.

Lemma sub_ofZ a b :
  safeInt a -> safeInt b -> safeInt (a - b) ->
  sub (ofZ a) (ofZ b) = ofZ (a - b).
Proof.
  intros Ha Hb Hab. rewrite !ofZ_exact by assumption.
  unfold safeInt in *.
  destruct a as [|x|x], b as [|y|y]; try reflexivity.
  - apply (sub_exactInt false false); unfold safeInt, cval in *; simpl Z.abs in *; lia.
  - apply (sub_exactInt false true); unfold safeInt, cval in *; simpl Z.abs in *; lia.
  - apply (sub_exactInt true false); unfold safeInt, cval in *; simpl Z.abs in *; lia.
  - apply (sub_exactInt true true); unfold safeInt, cval in *; simpl Z.abs in *; lia.
Qed.

Lemma mul_ofZ_nonneg a b :
  0 <= a -> 0 <= b -> a * b < 2 ^ 53 -> a < 2 ^ 53 -> b < 2 ^ 53 ->
  mul (ofZ a) (ofZ b) = ofZ (a * b).
Proof.
  intros Ha Hb Hab Ha' Hb'.
  rewrite !ofZ_exact by (unfold safeInt; lia).
  destruct a as [|x|x], b as [|y|y]; try reflexivity; try lia.
  apply (mul_exactInt false false); lia.
Qed.

Lemma mul_ofZ a b :
  a <> 0 -> b <> 0 -> safeInt a -> safeInt b -> safeInt (a * b) ->
  mul (ofZ a) (ofZ b) = ofZ (a * b).
Proof.
  intros Ha Hb Ha' Hb' Hab.
  rewrite !ofZ_exact by assumption. unfold safeInt in *.
  destruct a as [|x|x], b as [|y|y]; try congruence.
  - apply (mul_exactInt false false); unfold safeInt, cval in *; simpl Z.abs in *; lia.
  - apply (mul_exactInt false true); unfold safeInt, cval in *; simpl Z.abs in *; lia.
  - apply (mul_exactInt true false); unfold safeInt, cval in *; simpl Z.abs in *; lia.
  - apply (mul_exactInt true true); unfold safeInt, cval in *; simpl Z.abs in *; lia.
Qed.

(** Sign of a rounded result *)

Lemma shr_1_nonneg r : 0 <= shr_m r -> 0 <= shr_m (shr_1 r).
Proof.
  destruct r as [m rr ss]. simpl.
  destruct m as [|[p|p|]|[p|p|]]; simpl; lia.
Qed.

Lemma iter_pos_invariant {A} (P : A -> Prop) (f : A -> A) :
  (forall x, P x -> P (f x)) -> forall p x, P x -> P (iter_pos f p x).
Proof.
  intros Hf. induction p as [p IH|p IH|]; intros x Hx; simpl; auto.
Qed.

Lemma shr_nonneg r e n : 0 <= shr_m r -> 0 <= shr_m (fst (shr r e n)).
Proof.
  intros H. destruct n; simpl; try assumption.
  apply (iter_pos_invariant (fun r => 0 <= shr_m r)); auto using shr_1_nonneg.
Qed.

Lemma shr_record_of_loc_m m l : shr_m (shr_record_of_loc m l) = m.
Proof. destruct l as [|[| |]]; reflexivity. Qed.

Lemma round_nearest_even_nonneg m l : 0 <= m -> 0 <= round_nearest_even m l.
Proof.
  intros H. destruct l as [|[| |]]; simpl; try lia.
  destruct (Z.even m); lia.
Qed.

Lemma binary_round_aux_sign s m e l :
  0 <= m -> hasSign s (binary_round_aux prec emax s m e l).
Proof.
  intros Hm. unfold binary_round_aux, shr_fexp.
  destruct (shr (shr_record_of_loc m l) e _) as [r1 e1] eqn:E1.
  destruct (shr (shr_record_of_loc _ loc_Exact) e1 _) as [r2 e2] eqn:E2.
  assert (H1 : 0 <= shr_m r1).
  { change r1 with (fst (r1, e1)). rewrite <- E1. apply shr_nonneg.
    rewrite shr_record_of_loc_m. assumption. }
  assert (H2 : 0 <= shr_m r2).
  { change r2 with (fst (r2, e2)). rewrite <- E2. apply shr_nonneg.
    rewrite shr_record_of_loc_m. apply round_nearest_even_nonneg, H1. }
  destruct (shr_m r2) as [|q|q]; [reflexivity| |lia].
  destruct (e2 <=? emax - prec); reflexivity.
Qed.

Lemma binary_round_sign s m e : hasSign s (binary_round prec emax s m e).
Proof.
  unfold binary_round. destruct (shl_align _ _ _) as [mz ez].
  apply binary_round_aux_sign. lia.
Qed.

Lemma mul_sign x y sx sy :
  hasSign sx x -> hasSign sy y ->
  mul x y = NaN \/ hasSign (xorb sx sy) (mul x y).
Proof.
  destruct x as [a|a| |a mx ex], y as [b|b| |b my ey]; simpl;
    intros Hx Hy; subst; try contradiction; auto.
  right. apply binary_round_aux_sign. lia.
Qed.

Lemma div_finite_sign sx mx ex sy my ey :
  hasSign (xorb sx sy)
    (div (S754_finite sx mx ex) (S754_finite sy my ey)).
Proof.
  unfold div. cbn [SFdiv].
  destruct (SFdiv_core_binary prec emax (Zpos mx) ex (Zpos my) ey)
    as [[q e'] l] eqn:E.
  apply binary_round_aux_sign.
  unfold SFdiv_core_binary in E.
  set (s := _ - _ - _) in E.
  set (m' := match s with Zpos _ => _ | Z0 => _ | Zneg _ => _ end) in E.
  assert (Hm' : 0 <= m').
  { unfold m'. destruct s; try lia. apply Z.shiftl_nonneg. lia. }
  pose proof (Z.div_pos m' (Zpos my) Hm' eq_refl) as Hq.
  unfold Z.div in Hq.
  destruct (Z.div_eucl m' (Zpos my)) as [q' r']. simpl in Hq.
  inversion E; subst. assumption.
Qed.

(** Adding numbers that are not negative *)
Lemma add_nonneg x y :
  hasSign false x -> hasSign false y -> hasSign false (add x y).
Proof.
  destruct x as [a|a| |a mx ex], y as [b|b| |b my ey]; simpl;
    intros Hx Hy; subst; try contradiction; try reflexivity.
  cbn [cond_Zopp].
  match goal with |- context [Zpos ?a + Zpos ?b] =>
    change (Zpos a + Zpos b) with (Zpos (a + b)) end.
  apply binary_round_sign.
Qed.

(** Rounding an integer gives an integer or an infinity *)

Lemma shr_exponent r e n : e <= snd (shr r e n).
Proof. destruct n; simpl; lia. Qed.

Lemma binary_round_aux_exponent s m e l s' m' e' :
  binary_round_aux prec emax s m e l = S754_finite s' m' e' ->
  snd (shr_fexp prec emax m e l) <= e'.
Proof.
  unfold binary_round_aux.
  destruct (shr_fexp prec emax m e l) as [r1 e1]. cbn [snd].
  destruct (shr_fexp prec emax _ e1 loc_Exact) as [r2 e2] eqn:E2.
  assert (H : e1 <= e2).
  { change e2 with (snd (r2, e2)). rewrite <- E2. unfold shr_fexp.
    apply shr_exponent. }
  destruct (shr_m r2); try discriminate.
  destruct (e2 <=? emax - prec); try discriminate.
  intros H'. injection H' as _ _ <-. exact H.
Qed.

Lemma binary_round_aux_integer s m e :
  intValued m e ->
  integerOrInfinite (binary_round_aux prec emax s (Zpos m) e loc_Exact).
Proof.
  intros Hi.
  pose proof (binary_round_aux_sign s (Zpos m) e loc_Exact ltac:(lia)) as Hs.
  pose proof (binary_round_aux_exponent s (Zpos m) e loc_Exact) as He.
  unfold shr_fexp in He. cbn [Zdigits2 shr_record_of_loc] in He.
  destruct (fexp prec emax (Zpos (digits2_pos m) + e) - e) as [|p|p] eqn:En.
  - (* nothing is shifted out *)
    unfold binary_round_aux, shr_fexp. cbn [Zdigits2 shr_record_of_loc].
    rewrite En. cbn [shr shr_m loc_of_shr_record round_nearest_even Zdigits2
                     shr_record_of_loc].
    rewrite En. cbn [shr shr_m].
    destruct (e <=? emax - prec); [left; exact Hi|right; eauto].
  - destruct (Z_le_gt_dec (e + Zpos p) 0) as [Hle|Hgt].
    + (* the bits shifted out are zeros *)
      destruct Hi as [Hi|[c Hc]]; [lia|].
      assert (Hc0 : 0 < c).
      { assert (0 < 2 ^ (- e)) by (apply Z.pow_pos_nonneg; lia). nia. }
      set (m1 := Z.to_pos (c * 2 ^ (- e - Zpos p))).
      assert (Hm1 : Zpos m1 = c * 2 ^ (- e - Zpos p)).
      { unfold m1. rewrite Z2Pos.id; [reflexivity|].
        apply Z.mul_pos_pos; [assumption|]. apply Z.pow_pos_nonneg; lia. }
      assert (Hm : m = Pos.iter xO m1 p).
      { apply Pos2Z.inj. rewrite pos_iter_xO_Z, Hm1, Hc, <- Z.mul_assoc.
        rewrite <- Z.pow_add_r by lia. repeat f_equal; lia. }
      assert (Hd : Zpos (digits2_pos m) = Zpos (digits2_pos m1) + Zpos p).
      { rewrite !digits2_pos_log2, Hm, pos_iter_xO_Z, log2_shift by lia. lia. }
      clear Hs He. subst m.
      unfold binary_round_aux, shr_fexp. cbn [Zdigits2 shr_record_of_loc].
      rewrite En. cbn [shr]. rewrite !iter_shr_1_exact.
      cbn [shr_m loc_of_shr_record round_nearest_even Zdigits2
           shr_record_of_loc].
      replace (fexp prec emax (Zpos (digits2_pos m1) + (e + Zpos p))
               - (e + Zpos p)) with 0
        by (rewrite Hd in En; replace (Zpos (digits2_pos m1) + (e + Zpos p))
              with (Zpos (digits2_pos m1) + Zpos p + e) by lia; lia).
      cbn [shr shr_m].
      destruct (e + Zpos p <=? emax - prec); [left|right; eauto].
      unfold isInteger, intValued. right. exists c. rewrite Hm1.
      repeat f_equal; lia.
    + (* the exponent becomes positive *)
      cbn [shr snd] in He.
      destruct (binary_round_aux prec emax s (Zpos m) e loc_Exact)
        as [b|b| |b m' e'] eqn:E.
      * left. exact I.
      * right. eauto.
      * contradiction.
      * left. unfold isInteger, intValued. left. specialize (He _ _ _ eq_refl). lia.
  - unfold binary_round_aux, shr_fexp. cbn [Zdigits2 shr_record_of_loc].
    rewrite En. cbn [shr shr_m loc_of_shr_record round_nearest_even Zdigits2
                     shr_record_of_loc].
    rewrite En. cbn [shr shr_m].
    destruct (e <=? emax - prec); [left; exact Hi|right; eauto].
Qed.

Lemma divisible_exponent m c e : Zpos m = c * 2 ^ (- e) -> e <= 0.
Proof.
  intros H. destruct (Z_le_gt_dec e 0) as [|Hgt]; [assumption|].
  rewrite Z.pow_neg_r in H by lia. lia.
Qed.

Lemma intValued_shl m e e' :
  intValued m e -> intValued (fst (shl_align m e e')) (snd (shl_align m e e')).
Proof.
  intros Hi. unfold shl_align. destruct (e' - e) as [|d|d] eqn:E; cbn [fst snd];
    try assumption.
  unfold intValued in *.
  destruct (Z_le_gt_dec 0 e') as [H0|H0]; [left; assumption|]. right.
  destruct Hi as [Hi|[c Hc]].
  - exists (Zpos m * 2 ^ e). rewrite pos_iter_xO_Z, <- Z.mul_assoc.
    rewrite <- Z.pow_add_r by lia. repeat f_equal; lia.
  - pose proof (divisible_exponent _ _ _ Hc).
    exists c. rewrite pos_iter_xO_Z, Hc, <- Z.mul_assoc.
    rewrite <- Z.pow_add_r by lia. repeat f_equal; lia.
Qed.

Lemma binary_round_integer s m e :
  intValued m e -> integerOrInfinite (binary_round prec emax s m e).
Proof.
  intros Hi. unfold binary_round.
  pose proof (intValued_shl m e
                (fexp prec emax (Zpos (digits2_pos m) + e)) Hi) as H.
  destruct (shl_align _ _ _) as [mz ez]. cbn [fst snd] in H.
  apply binary_round_aux_integer, H.
Qed.

Lemma ofZ_integer z : integerOrInfinite (ofZ z).
Proof.
  destruct z as [|p|p]; [left; exact I| |];
    apply binary_round_integer; unfold intValued; left; lia.
Qed.

Lemma intValued_mul mx ex my ey :
  intValued mx ex -> intValued my ey -> intValued (mx * my) (ex + ey).
Proof.
  unfold intValued. intros Hx Hy.
  destruct (Z_le_gt_dec 0 (ex + ey)) as [H0|H0]; [left; assumption|].
  right. rewrite Pos2Z.inj_mul.
  destruct Hx as [Hx|[cx Hx]], Hy as [Hy|[cy Hy]]; try lia;
    try pose proof (divisible_exponent _ _ _ Hx);
    try pose proof (divisible_exponent _ _ _ Hy).
  - exists (Zpos mx * 2 ^ ex * cy). rewrite Hy.
    replace (- ey) with (ex + - (ex + ey)) by lia.
    rewrite Z.pow_add_r by lia. ring.
  - exists (cx * (Zpos my * 2 ^ ey)). rewrite Hx.
    replace (- ex) with (ey + - (ex + ey)) by lia.
    rewrite Z.pow_add_r by lia. ring.
  - exists (cx * cy). rewrite Hx, Hy.
    replace (- (ex + ey)) with (- ex + - ey) by lia.
    rewrite Z.pow_add_r by lia. ring.
Qed.

Lemma mul_integer x sy my ey :
  integerOrInfinite x -> intValued my ey ->
  integerOrInfinite (mul x (S754_finite sy my ey)).
Proof.
  intros [Hx|[s ->]] Hy; [|right; simpl; eauto].
  destruct x as [b|b| |b mx ex]; try contradiction.
  - left. exact I.
  - apply binary_round_aux_integer, intValued_mul; assumption.
Qed.

Lemma intValued_aligned m e e' :
  e' <= e -> intValued m e ->
  0 <= e' \/ exists c, Zpos (fst (shl_align m e e')) = c * 2 ^ (- e').
Proof.
  unfold intValued. intros Hle Hi.
  destruct (Z_le_gt_dec 0 e') as [H0|H0]; [left; assumption|].
  right. rewrite shl_align_value by assumption.
  destruct Hi as [Hi|[c Hc]].
  - exists (Zpos m * 2 ^ e). rewrite <- Z.mul_assoc, <- Z.pow_add_r by lia.
    repeat f_equal; lia.
  - pose proof (divisible_exponent _ _ _ Hc).
    exists c. rewrite Hc, <- Z.mul_assoc, <- Z.pow_add_r by lia.
    repeat f_equal; lia.
Qed.

Lemma add_integer x y :
  integerOrInfinite x -> integerOrInfinite y ->
  hasSign false x -> hasSign false y ->
  integerOrInfinite (add x y).
Proof.
  intros Hx Hy Sx Sy.
  destruct x as [bx|bx| |bx mx ex], y as [by_|by_| |by_ my ey];
    cbn [hasSign] in Sx, Sy; subst; try contradiction;
    unfold add; cbn [SFadd]; try assumption.
  destruct Hx as [Hx|[s Hx]]; [|discriminate].
  destruct Hy as [Hy|[s Hy]]; [|discriminate].
  cbn [isInteger] in Hx, Hy. cbn [cond_Zopp].
  match goal with |- context [Zpos ?a + Zpos ?b] =>
    change (Zpos a + Zpos b) with (Zpos (a + b)) end.
  cbn [binary_normalize]. apply binary_round_integer.
  set (z := Z.min ex ey).
  destruct (intValued_aligned mx ex z ltac:(unfold z; lia) Hx) as [H0|[cx Hcx]];
    [left; assumption|].
  destruct (intValued_aligned my ey z ltac:(unfold z; lia) Hy) as [H0|[cy Hcy]];
    [left; assumption|].
  right. exists (cx + cy). rewrite Pos2Z.inj_add. rewrite Hcx, Hcy. ring.
Qed.

(* ================================================================== *)
(** ** Digits, white space and splitting *)

Ltac zbool :=
  repeat match goal with
  | |- context [?a =? ?b] => destruct (Z.eqb_spec a b); try lia
  | |- context [?a <=? ?b] => destruct (Z.leb_spec a b); try lia
  | |- context [?a <? ?b] => destruct (Z.ltb_spec a b); try lia
  end; try reflexivity; try discriminate.

Lemma isDigit_spec c : isDigit c = true <-> 48 <= c <= 57.
Proof. unfold isDigit. rewrite andb_true_iff, !Z.leb_le. tauto. Qed.

Lemma isDigit_digitChar d : 0 <= d <= 9 -> isDigit (digitChar d) = true.
Proof. intros. apply isDigit_spec. unfold digitChar. lia. Qed.

Lemma digit_not_space c : isDigit c = true -> isWhiteSpace c = false.
Proof.
  intros H. apply isDigit_spec in H. unfold isWhiteSpace. zbool.
Qed.

Lemma validDigits_app a b :
  validDigits a -> validDigits b -> validDigits (a ++ b).
Proof. unfold validDigits. intros. apply Forall_app. auto. Qed.

Lemma validDigits_repeat0 n : validDigits (repeat 0 n).
Proof.
  unfold validDigits. induction n; simpl; constructor; auto. lia.
Qed.

Lemma takeDigits_stop r :
  match r with [] => True | c :: _ => isDigit c = false end ->
  takeDigits r = ([], r).
Proof. destruct r as [|c r]; simpl; intros H; [|rewrite H]; reflexivity. Qed.

Lemma takeDigits_showDigits ds r :
  validDigits ds ->
  takeDigits (showDigits ds ++ r)
  = (ds ++ fst (takeDigits r), snd (takeDigits r)).
Proof.
  induction 1 as [|d ds Hd _ IH]; simpl.
  - destruct (takeDigits r); reflexivity.
  - rewrite isDigit_digitChar by assumption.
    fold (showDigits ds). rewrite IH. unfold digitChar. f_equal. f_equal. lia.
Qed.

Lemma takeDigits_all ds r :
  validDigits ds ->
  match r with [] => True | c :: _ => isDigit c = false end ->
  takeDigits (showDigits ds ++ r) = (ds, r).
Proof.
  intros Hd Hr. rewrite takeDigits_showDigits, takeDigits_stop by assumption.
  simpl. rewrite app_nil_r. reflexivity.
Qed.

(** *** The decimal representation of an integer *)

Lemma lsDigits_valid fuel : forall n, validDigits (lsDigits fuel n).
Proof.
  induction fuel as [|f IH]; intros n; simpl; constructor.
  - pose proof (Z.mod_pos_bound n 10). lia.
  - destruct (n <? 10); [constructor|]. apply IH.
Qed.

Lemma lsDigits_value fuel : forall n,
  0 <= n < 10 ^ Z.of_nat fuel ->
  fold_right (fun d acc => d + 10 * acc) 0 (lsDigits fuel n) = n.
Proof.
  induction fuel as [|f IH]; intros n Hn.
  - simpl in *. lia.
  - cbn [lsDigits fold_right]. destruct (Z.ltb_spec n 10).
    + simpl. rewrite Z.mod_small; lia.
    + rewrite IH.
      * pose proof (Z.div_mod n 10). lia.
      * rewrite Nat2Z.inj_succ, Z.pow_succ_r in Hn by lia.
        split; [apply Z.div_pos; lia|].
        apply Z.div_lt_upper_bound; lia.
Qed.

Lemma digitsValue_rev l :
  digitsValue (rev l) = fold_right (fun d acc => d + 10 * acc) 0 l.
Proof.
  unfold digitsValue.
  induction l as [|d l IH]; [reflexivity|].
  cbn [rev fold_right]. rewrite fold_left_app. cbn [fold_left].
  rewrite IH. lia.
Qed.

Lemma pow10_log2 n : 0 <= n -> n < 10 ^ Z.of_nat (S (Z.to_nat (Z.log2 n))).
Proof.
  intros Hn. rewrite Nat2Z.inj_succ, Z2Nat.id by apply Z.log2_nonneg.
  destruct (Z.eq_dec n 0) as [->|Hz].
  - simpl. lia.
  - pose proof (Z.log2_spec n ltac:(lia)) as [_ H].
    pose proof (Z.log2_nonneg n).
    eapply Z.lt_le_trans; [exact H|].
    apply Z.pow_le_mono_l. lia.
Qed.

Lemma decimalDigits_value n : 0 <= n -> digitsValue (decimalDigits n) = n.
Proof.
  intros Hn. unfold decimalDigits.
  rewrite digitsValue_rev. apply lsDigits_value.
  split; [assumption|apply pow10_log2; assumption].
Qed.

Lemma decimalDigits_valid n : validDigits (decimalDigits n).
Proof.
  unfold decimalDigits, validDigits.
  apply Forall_rev. apply lsDigits_valid.
Qed.

Lemma decimalDigits_nonempty n : decimalDigits n <> [].
Proof.
  unfold decimalDigits. cbn [lsDigits].
  intros H. apply (f_equal (@List.length Z)) in H.
  rewrite length_rev in H. simpl in H. discriminate.
Qed.

(** *** White space *)

Lemma trimStart_keep c r : isWhiteSpace c = false -> trimStart (c :: r) = c :: r.
Proof. intros H. simpl. rewrite H. reflexivity. Qed.

Lemma trimEnd_keep s c : isWhiteSpace c = false -> trimEnd (s ++ [c]) = s ++ [c].
Proof.
  intros H. unfold trimEnd. rewrite rev_app_distr. simpl. rewrite H.
  simpl. rewrite rev_involutive. reflexivity.
Qed.

Lemma trim_keep c s d :
  isWhiteSpace c = false -> isWhiteSpace d = false ->
  trim (c :: s ++ [d]) = c :: s ++ [d].
Proof.
  intros Hc Hd. unfold trim. rewrite trimStart_keep by assumption.
  change (c :: s ++ [d]) with ((c :: s) ++ [d]). apply trimEnd_keep, Hd.
Qed.

Lemma trim_single c : isWhiteSpace c = false -> trim [c] = [c].
Proof. intros H. unfold trim, trimEnd. simpl. rewrite H. simpl. rewrite H. reflexivity. Qed.

(** A string that starts with a unit that is not white space still
    starts with it after trimming. *)
Lemma trim_head c r :
  isWhiteSpace c = false -> exists r', trim (c :: r) = c :: r'.
Proof.
  intros H. unfold trim. rewrite trimStart_keep by assumption.
  unfold trimEnd.
  assert (G : forall l, exists l', trimStart (l ++ [c]) = l' ++ [c]).
  { induction l as [|x l [l' IH]]; simpl.
    - rewrite H. exists []. reflexivity.
    - destruct (isWhiteSpace x); [exists l'; exact IH|].
      exists (x :: l). reflexivity. }
  simpl rev. destruct (G (rev r)) as [l' ->].
  rewrite rev_app_distr. simpl. eexists. reflexivity.
Qed.

(** *** Splitting *)

Lemma split_nonempty sep s : split sep s <> [].
Proof.
  destruct s as [|c r]; simpl; [discriminate|].
  destruct (c =? sep); [discriminate|].
  destruct (split sep r); discriminate.
Qed.

Lemma split_absent sep s : includes sep s = false -> split sep s = [s].
Proof.
  unfold includes. induction s as [|c r IH]; simpl; [reflexivity|].
  rewrite orb_false_iff. intros [Hc Hr].
  rewrite Z.eqb_sym, Hc, IH by assumption. reflexivity.
Qed.

Lemma split_at sep a b :
  includes sep a = false -> split sep (a ++ sep :: b) = a :: split sep b.
Proof.
  unfold includes. induction a as [|c r IH]; simpl.
  - rewrite Z.eqb_refl. reflexivity.
  - rewrite orb_false_iff. intros [Hc Hr].
    rewrite Z.eqb_sym, Hc, IH by assumption. reflexivity.
Qed.

Lemma split_present sep s :
  includes sep s = true ->
  exists p0 p1 rest, split sep s = p0 :: p1 :: rest.
Proof.
  unfold includes. induction s as [|c r IH]; simpl; [discriminate|].
  rewrite (Z.eqb_sym sep c). destruct (c =? sep); simpl.
  - intros _. destruct (split sep r) as [|p ps] eqn:E.
    + destruct (split_nonempty _ _ E).
    + eauto.
  - intros H. destruct (IH H) as (p0 & p1 & rest & ->). eauto.
Qed.

(** Fewer than two parts exactly when the separator does not occur. *)
Lemma split_short sep s :
  (List.length (split sep s) < 2)%nat <-> includes sep s = false.
Proof.
  split.
  - intros H. destruct (includes sep s) eqn:E; [|reflexivity].
    destruct (split_present _ _ E) as (p0 & p1 & rest & Hs).
    rewrite Hs in H. simpl in H. lia.
  - intros H. rewrite split_absent by assumption. simpl. lia.
Qed.

Lemma includes_showDigits c ds :
  validDigits ds -> isDigit c = false -> includes c (showDigits ds) = false.
Proof.
  unfold includes. induction 1 as [|d ds Hd _ IH]; simpl; intros Hc.
  - reflexivity.
  - rewrite IH by assumption. rewrite orb_false_r.
    apply Z.eqb_neq. intros ->. rewrite isDigit_digitChar in Hc by assumption.
    discriminate.
Qed.

(* ================================================================== *)
(** ** parseInt *)

Lemma stripSign_digit c r :
  isDigit c = true -> stripSign (c :: r) = (false, c :: r).
Proof.
  intros H. apply isDigit_spec in H. unfold stripSign. zbool.
Qed.

Lemma ofZ_zero : ofZ 0 = S754_zero false.
Proof. reflexivity. Qed.

Lemma ofZ_sign_pos z : hasSign false (ofZ (Zpos z)).
Proof. apply binary_round_sign. Qed.

Lemma ofZ_sign_neg z : hasSign true (ofZ (Zneg z)).
Proof. apply binary_round_sign. Qed.

Lemma hasSign_not_NaN s x : hasSign s x -> isNaN x = false.
Proof. destruct x; simpl; intros; try reflexivity; contradiction. Qed.

Lemma ofZ_not_NaN z : isNaN (ofZ z) = false.
Proof.
  destruct z.
  - reflexivity.
  - eapply hasSign_not_NaN, ofZ_sign_pos.
  - eapply hasSign_not_NaN, ofZ_sign_neg.
Qed.

Lemma takeDigits_valid s : validDigits (fst (takeDigits s)).
Proof.
  induction s as [|c r IH]; simpl; [constructor|].
  destruct (isDigit c) eqn:E; [|constructor].
  destruct (takeDigits r) as [ds rest]. simpl in *.
  constructor; [|assumption]. apply isDigit_spec in E. lia.
Qed.

Lemma digitsValue_nonneg ds : validDigits ds -> 0 <= digitsValue ds.
Proof.
  unfold digitsValue. intros H.
  assert (G : forall a, 0 <= a -> 0 <= fold_left (fun acc d => 10 * acc + d) ds a).
  { induction H as [|d ds Hd _ IH]; cbn [fold_left]; intros a Ha; [assumption|].
    apply IH. cbv beta in Hd. lia. }
  apply G. lia.
Qed.

(** [parseInt] on a run of digits followed by something that is not a
    digit: the value of the run. *)
Lemma parseInt10_digits ds r :
  validDigits ds -> ds <> [] ->
  match r with [] => True | c :: _ => isDigit c = false end ->
  parseInt10 (showDigits ds ++ r) = ofZ (digitsValue ds).
Proof.
  intros Hv Hne Hr. unfold parseInt10.
  destruct ds as [|d ds']; [congruence|].
  inversion Hv as [|? ? Hd Hv']; subst.
  cbn [showDigits map app].
  rewrite trimStart_keep
    by (apply digit_not_space, isDigit_digitChar, Hd).
  rewrite stripSign_digit by (apply isDigit_digitChar, Hd).
  change (digitChar d :: map digitChar ds' ++ r)
    with (showDigits (d :: ds') ++ r).
  rewrite takeDigits_all by assumption. cbn [fst].
  destruct (Z.eqb_spec (digitsValue (d :: ds')) 0) as [->|]; reflexivity.
Qed.

(** [parseInt] yields [NaN] exactly when no digit follows the optional
    sign. *)
Lemma parseInt10_NaN s :
  isNaN (parseInt10 s) = true <->
  fst (takeDigits (snd (stripSign (trimStart s)))) = [].
Proof.
  unfold parseInt10. destruct (stripSign (trimStart s)) as [neg body].
  cbn [snd]. destruct (fst (takeDigits body)) as [|d ds].
  - split; reflexivity.
  - split; [|discriminate]. intros H. exfalso.
    destruct (digitsValue (d :: ds) =? 0); [discriminate|].
    rewrite ofZ_not_NaN in H. discriminate.
Qed.

(** Without a minus sign the result is not negative. *)
Lemma parseInt10_noMinus s :
  noMinus s = true -> isNaN (parseInt10 s) = false ->
  hasSign false (parseInt10 s).
Proof.
  unfold noMinus, parseInt10.
  destruct (stripSign (trimStart s)) as [neg body]. cbn [fst].
  intros Hn. apply negb_true_iff in Hn. subst neg.
  pose proof (takeDigits_valid body) as Hv.
  destruct (fst (takeDigits body)) as [|d ds]; [discriminate|].
  intros _. pose proof (digitsValue_nonneg _ Hv) as H0.
  destruct (Z.eqb_spec (digitsValue (d :: ds)) 0); [reflexivity|].
  destruct (digitsValue (d :: ds)) as [|z|z]; try lia.
  apply ofZ_sign_pos.
Qed.

(* ================================================================== *)
(** ** The Time Parser *)

(** The general shape of a successful parse. *)
Lemma parseTime_parts c p0 p1 rest :
  truthy c = true ->
  trim (toStringCell c) <> [] ->
  split (if includes 58 (trim (toStringCell c)) then 58 else 46)
        (trim (toStringCell c)) = p0 :: p1 :: rest ->
  isNaN (parseInt10 p0) = false -> isNaN (parseInt10 p1) = false ->
  parseTime c = Some {|
    str := padStart0 2 (numberToString (parseInt10 p0)) ++ [58]
           ++ padStart0 2 (numberToString (parseInt10 p1));
    mins := add (mul (parseInt10 p0) (ofZ 60)) (parseInt10 p1) |}.
Proof.
  intros Ht Hne Hs H0 H1. unfold parseTime. rewrite Ht. cbn [negb].
  destruct (trim (toStringCell c)) as [|x t] eqn:E; [congruence|].
  rewrite Hs, H0, H1. reflexivity.
Qed.

Lemma parseTime_success c p :
  parseTime c = Some p ->
  exists p0 p1 rest,
    truthy c = true /\
    split (if includes 58 (trim (toStringCell c)) then 58 else 46)
          (trim (toStringCell c)) = p0 :: p1 :: rest /\
    isNaN (parseInt10 p0) = false /\ isNaN (parseInt10 p1) = false /\
    p = {| str := padStart0 2 (numberToString (parseInt10 p0)) ++ [58]
                  ++ padStart0 2 (numberToString (parseInt10 p1));
           mins := add (mul (parseInt10 p0) (ofZ 60)) (parseInt10 p1) |}.
Proof.
  unfold parseTime. destruct (truthy c); [|discriminate]. cbn [negb].
  destruct (trim (toStringCell c)) as [|x t] eqn:E; [discriminate|].
  destruct (split _ (x :: t)) as [|p0 [|p1 rest]]; try discriminate.
  destruct (isNaN (parseInt10 p0)) eqn:E0; [discriminate|].
  destruct (isNaN (parseInt10 p1)) eqn:E1; [discriminate|].
  cbn [orb]. intros H. inversion H; subst. exists p0, p1, rest. auto.
Qed.

(** C5.  The Time Parser is a total function of the cell (it never
    raises), and it returns absent exactly when the cell is falsy, or
    trims to the empty string, or splitting on the detected separator
    (colon if present, otherwise period) yields fewer than two parts, or
    one of the first two parts does not parse as a base-10 integer;
    otherwise it returns a ParsedTime. *)
Theorem parseTime_absent_iff (c : Cell) :
  let t := trim (toStringCell c) in
  let parts := split (if includes 58 t then 58 else 46) t in
  (parseTime c = None <->
     truthy c = false \/ t = [] \/ (List.length parts < 2)%nat
     \/ isNaN (parseInt10 (nth 0 parts [])) = true
     \/ isNaN (parseInt10 (nth 1 parts [])) = true)
  /\ (parseTime c = None \/ exists p, parseTime c = Some p).
Proof.
  intros t parts. split.
  - unfold parseTime. fold t. destruct (truthy c); cbn [negb]; [|tauto].
    destruct t as [|x t'] eqn:Et; [tauto|]. fold parts.
    destruct parts as [|p0 [|p1 rest]]; cbn [List.length nth].
    + split; [intros _; right; right; left; lia|reflexivity].
    + split; [intros _; right; right; left; lia|reflexivity].
    + destruct (isNaN (parseInt10 p0)) eqn:E0;
      destruct (isNaN (parseInt10 p1)) eqn:E1; cbn [orb];
        (split; [intros H; try discriminate H; tauto|]);
        try reflexivity.
      intros [H|[H|[H|[H|H]]]]; try discriminate; lia.
  - destruct (parseTime c) as [p|]; eauto.
Qed.

(** A run of digits, a separator, a run of digits. *)
Lemma parseTime_digits sep H M :
  sep = 58 \/ sep = 46 ->
  validDigits H -> validDigits M -> H <> [] -> M <> [] ->
  parseTime (CStr (showDigits H ++ sep :: showDigits M))
  = Some {|
      str := padStart0 2 (numberToString (ofZ (digitsValue H))) ++ [58]
             ++ padStart0 2 (numberToString (ofZ (digitsValue M)));
      mins := add (mul (ofZ (digitsValue H)) (ofZ 60)) (ofZ (digitsValue M)) |}.
Proof.
  intros Hsep HvH HvM HH HM.
  assert (Hsd : isDigit sep = false) by (destruct Hsep; subst; reflexivity).
  destruct H as [|h0 H']; [congruence|].
  destruct (exists_last HM) as (M' & ml & EM).
  assert (Hh0 : 0 <= h0 <= 9) by (inversion HvH; assumption).
  assert (Hml : 0 <= ml <= 9).
  { rewrite EM in HvM. apply Forall_app in HvM. destruct HvM as [_ HvM].
    inversion HvM; assumption. }
  set (s := showDigits (h0 :: H') ++ sep :: showDigits M).
  assert (Etrim : trim s = s).
  { unfold s. rewrite EM. unfold showDigits. rewrite map_app. cbn [map app].
    replace (digitChar h0 :: map digitChar H' ++ sep :: map digitChar M' ++ [digitChar ml])
      with (digitChar h0 :: (map digitChar H' ++ sep :: map digitChar M') ++ [digitChar ml])
      by (rewrite <- app_assoc; reflexivity).
    apply trim_keep; apply digit_not_space, isDigit_digitChar; assumption. }
  assert (Esep : (if includes 58 s then 58 else 46) = sep).
  { unfold s, includes. rewrite existsb_app. cbn [existsb].
    fold (includes 58 (showDigits (h0 :: H'))) (includes 58 (showDigits M)).
    rewrite !includes_showDigits by (assumption || reflexivity).
    destruct Hsep; subst; reflexivity. }
  rewrite <- (parseInt10_digits (h0 :: H') []) by (assumption || congruence || exact I).
  rewrite <- (parseInt10_digits M []) by (assumption || exact I).
  rewrite !app_nil_r.
  apply (parseTime_parts (CStr s) _ _ []).
  - reflexivity.
  - cbn [toStringCell]. rewrite Etrim. discriminate.
  - cbn [toStringCell]. rewrite Etrim, Esep. unfold s.
    rewrite split_at by (apply includes_showDigits; assumption).
    rewrite split_absent by (apply includes_showDigits; assumption).
    reflexivity.
  - rewrite <- (app_nil_r (showDigits (h0 :: H'))).
    rewrite parseInt10_digits by (assumption || congruence || exact I).
    apply ofZ_not_NaN.
  - rewrite <- (app_nil_r (showDigits M)).
    rewrite parseInt10_digits by (assumption || exact I).
    apply ofZ_not_NaN.
Qed.

(** Minutes since midnight of two non-negative fields, computed exactly. *)
Lemma mins_exact h m :
  0 <= h -> 0 <= m -> 60 * h + m < 2 ^ 53 ->
  add (mul (ofZ h) (ofZ 60)) (ofZ m) = ofZ (60 * h + m).
Proof.
  intros Hh Hm Hb.
  rewrite mul_ofZ_nonneg by lia.
  rewrite add_ofZ by (unfold safeInt; lia).
  f_equal. lia.
Qed.

(** Numbers up to 9999 print as their decimal digits. *)
Lemma numberToString_small h :
  0 <= h <= 9999 -> numberToString (ofZ h) = showNat h.
Proof.
  intros Hh.
  assert (G : forallb (fun n => jsstring_eqb (numberToString (ofZ n)) (showNat n))
                (map Z.of_nat (seq 0 (Z.to_nat 10000))) = true) by (vm_compute; reflexivity).
  rewrite forallb_forall in G.
  specialize (G h). unfold jsstring_eqb in G.
  destruct (list_eq_dec Z.eq_dec (numberToString (ofZ h)) (showNat h)) as [E|];
    [exact E|].
  assert (false = true); [|discriminate].
  apply G. apply in_map_iff. exists (Z.to_nat h). split; [lia|].
  apply in_seq. lia.
Qed.

Lemma pad2_small h :
  0 <= h <= 99 ->
  padStart0 2 (showNat h) = [digitChar (h / 10); digitChar (h mod 10)].
Proof.
  intros Hh.
  assert (G : forallb (fun n => jsstring_eqb (padStart0 2 (showNat n))
                                 [digitChar (n / 10); digitChar (n mod 10)])
                (map Z.of_nat (seq 0 (Z.to_nat 100))) = true) by (vm_compute; reflexivity).
  rewrite forallb_forall in G.
  specialize (G h). unfold jsstring_eqb in G.
  destruct (list_eq_dec Z.eq_dec (padStart0 2 (showNat h))
              [digitChar (h / 10); digitChar (h mod 10)]) as [E|]; [exact E|].
  assert (false = true); [|discriminate].
  apply G. apply in_map_iff. exists (Z.to_nat h). split; [lia|].
  apply in_seq. lia.
Qed.

Lemma two_digits x :
  0 <= x <= 99 -> 0 <= x / 10 <= 9 /\ 0 <= x mod 10 <= 9.
Proof.
  intros H. pose proof (Z.div_mod x 10). pose proof (Z.mod_pos_bound x 10).
  lia.
Qed.

(** C4 (amended).  A cell that is truthy, trims to a non-empty string and
    splits on the detected separator into parts of which the first two
    parse as base-10 integers [h] and [m] yields minutesSinceMidnight
    [h * 60 + m] and the display made of [h] and [m], each left-padded
    with zeros to at least two characters, joined by a colon.  For a run
    of digits, a colon or a period, and a run of digits, with values [h]
    and [m], minutesSinceMidnight is exactly the integer [60 h + m]
    (below 2^53), and the display is two digits, a colon, two digits
    whenever [h <= 99] and [m <= 99]. *)
Theorem parseTime_valid :
  (forall c p0 p1 rest,
     truthy c = true ->
     trim (toStringCell c) <> [] ->
     split (if includes 58 (trim (toStringCell c)) then 58 else 46)
           (trim (toStringCell c)) = p0 :: p1 :: rest ->
     isNaN (parseInt10 p0) = false -> isNaN (parseInt10 p1) = false ->
     parseTime c = Some {|
       str := padStart0 2 (numberToString (parseInt10 p0)) ++ [58]
              ++ padStart0 2 (numberToString (parseInt10 p1));
       mins := add (mul (parseInt10 p0) (ofZ 60)) (parseInt10 p1) |})
  /\
  (forall sep H M,
     sep = 58 \/ sep = 46 ->
     validDigits H -> validDigits M -> H <> [] -> M <> [] ->
     60 * digitsValue H + digitsValue M < 2 ^ 53 ->
     exists p,
       parseTime (CStr (showDigits H ++ sep :: showDigits M)) = Some p
       /\ mins p = ofZ (60 * digitsValue H + digitsValue M)
       /\ str p = padStart0 2 (numberToString (ofZ (digitsValue H))) ++ [58]
                  ++ padStart0 2 (numberToString (ofZ (digitsValue M)))
       /\ (digitsValue H <= 99 -> digitsValue M <= 99 ->
           str p = [digitChar (digitsValue H / 10);
                    digitChar (digitsValue H mod 10); 58;
                    digitChar (digitsValue M / 10);
                    digitChar (digitsValue M mod 10)]
           /\ isHHMM (str p) = true)).
Proof.
  split; [exact parseTime_parts|].
  intros sep H M Hsep HvH HvM HH HM Hb.
  pose proof (digitsValue_nonneg _ HvH) as H0.
  pose proof (digitsValue_nonneg _ HvM) as M0.
  eexists. split; [apply parseTime_digits; assumption|].
  cbn [mins str]. split; [apply mins_exact; assumption|].
  split; [reflexivity|].
  intros Hh Hm.
  rewrite (numberToString_small (digitsValue H)) by lia.
  rewrite (numberToString_small (digitsValue M)) by lia.
  rewrite (pad2_small (digitsValue H)), (pad2_small (digitsValue M)) by lia.
  split; [reflexivity|].
  cbn [isHHMM app].
  pose proof (two_digits (digitsValue H) ltac:(lia)) as [? ?].
  pose proof (two_digits (digitsValue M) ltac:(lia)) as [? ?].
  rewrite !isDigit_digitChar by assumption.
  reflexivity.
Qed.

Lemma parseTime_valid_witness :
  exists p, parseTime (CStr (lit "9:5")) = Some p
            /\ mins p = ofZ 545 /\ str p = lit "09:05".
Proof.
  destruct (proj2 parseTime_valid 58 [9] [5]) as (p & Hp & Hm & _ & Hs).
  - left; reflexivity.
  - repeat constructor; lia.
  - repeat constructor; lia.
  - discriminate.
  - discriminate.
  - vm_compute. reflexivity.
  - exists p. split; [exact Hp|]. split; [exact Hm|].
    apply Hs; vm_compute; discriminate.
Defined.

(** An hour of three digits: the display of "100:5" is "100:05", not
    two digits, a colon, two digits. *)
Lemma parseTime_three_digit_hour :
  parseTime (CStr (lit "100:5"))
  = Some {| str := lit "100:05"; mins := ofZ 6005 |}
  /\ isHHMM (lit "100:05") = false.
Proof. split; vm_compute; reflexivity. Qed.

(* ------------------------------------------------------------------ *)

Lemma geZero_hasSign x : hasSign false x -> geZero x = true.
Proof.
  destruct x as [s|s| |s m e]; simpl; intros H; subst;
    try contradiction; reflexivity.
Qed.

Lemma mul_finite_sign sx x sy my ey :
  hasSign sx x -> hasSign (xorb sx sy) (mul x (S754_finite sy my ey)).
Proof.
  destruct x as [s|s| |s m e]; simpl; intros H; subst;
    try contradiction; try reflexivity.
  apply binary_round_aux_sign. lia.
Qed.

Lemma ofZ_60_finite : exists m e, ofZ 60 = S754_finite false m e.
Proof. vm_compute. eauto. Qed.

Lemma mins_nonneg h m :
  hasSign false h -> hasSign false m ->
  hasSign false (add (mul h (ofZ 60)) m).
Proof.
  intros Hh Hm. destruct ofZ_60_finite as (m60 & e60 & ->).
  apply add_nonneg; [|assumption].
  apply (mul_finite_sign false h false). assumption.
Qed.

Lemma parseTime_toString c :
  truthy c = true -> parseTime c = parseTime (CStr (toStringCell c)).
Proof.
  intros Ht. unfold parseTime. rewrite Ht. cbn [toStringCell negb].
  destruct (toStringCell c) as [|x s]; reflexivity.
Qed.

Lemma parseInt10_integer s :
  isNaN (parseInt10 s) = false -> integerOrInfinite (parseInt10 s).
Proof.
  unfold parseInt10. destruct (stripSign (trimStart s)) as [neg body].
  destruct (fst (takeDigits body)) as [|d ds]; [discriminate|].
  intros _. destruct (digitsValue (d :: ds) =? 0); [left; exact I|].
  apply ofZ_integer.
Qed.

Lemma mins_integer h m :
  integerOrInfinite h -> integerOrInfinite m ->
  hasSign false h -> hasSign false m ->
  integerOrInfinite (add (mul h (ofZ 60)) m).
Proof.
  intros Ih Im Sh Sm.
  pose proof (ofZ_integer 60) as I60.
  destruct ofZ_60_finite as (m60 & e60 & E60). rewrite E60 in *.
  destruct I60 as [I60|[s I60]]; [|discriminate].
  apply add_integer; try assumption.
  - apply mul_integer; assumption.
  - apply (mul_finite_sign false h false). assumption.
Qed.

(** C9 (amended).  Whenever the Time Parser succeeds and neither of the
    first two parts carries a minus sign, minutesSinceMidnight is not
    negative, and it is an integer (or +Infinity, for a field too large
    for a Number); for a run of digits, a separator and a run of digits
    it is the integer [60 h + m >= 0]. *)
Theorem parseTime_mins_nonneg :
  forall c p,
    parseTime c = Some p ->
    let t := trim (toStringCell c) in
    let parts := split (if includes 58 t then 58 else 46) t in
    noMinus (nth 0 parts []) = true -> noMinus (nth 1 parts []) = true ->
    geZero (mins p) = true
    /\ integerOrInfinite (mins p)
    /\ (forall sep H M,
          toStringCell c = showDigits H ++ sep :: showDigits M ->
          sep = 58 \/ sep = 46 ->
          validDigits H -> validDigits M -> H <> [] -> M <> [] ->
          60 * digitsValue H + digitsValue M < 2 ^ 53 ->
          mins p = ofZ (60 * digitsValue H + digitsValue M)
          /\ 0 <= 60 * digitsValue H + digitsValue M).
Proof.
  intros c p Hp t parts N0 N1.
  assert (G : geZero (mins p) = true /\ integerOrInfinite (mins p)).
  { destruct (parseTime_success _ _ Hp)
      as (p0 & p1 & rest & Ht & Hs & E0 & E1 & ->).
    fold t in Hs. fold parts in Hs. rewrite Hs in N0, N1.
    cbn [nth] in N0, N1. cbn [mins].
    pose proof (parseInt10_noMinus _ N0 E0).
    pose proof (parseInt10_noMinus _ N1 E1).
    split.
    - apply geZero_hasSign, mins_nonneg; assumption.
    - apply mins_integer; try assumption; apply parseInt10_integer;
        assumption. }
  destruct G as [G1 G2]. split; [exact G1|]. split; [exact G2|].
  intros sep H M Es Hsep HvH HvM HH HM Hb.
  pose proof (digitsValue_nonneg _ HvH). pose proof (digitsValue_nonneg _ HvM).
  split; [|lia].
  destruct (parseTime_success _ _ Hp) as (_ & _ & _ & Ht & _).
  rewrite (parseTime_toString _ Ht), Es, parseTime_digits in Hp
    by assumption.
  injection Hp as <-. cbn [mins]. apply mins_exact; assumption.
Qed.

Lemma parseTime_mins_nonneg_witness :
  geZero (mins {| str := lit "09:05"; mins := ofZ 545 |}) = true.
Proof.
  apply (parseTime_mins_nonneg (CStr (lit "9:5"))
           {| str := lit "09:05"; mins := ofZ 545 |});
    vm_compute; reflexivity.
Defined.

(** A field too large for a Number: 400 nines parse to +Infinity. *)
Lemma parseTime_huge_hour :
  option_map mins (parseTime (CStr (repeat 57 400 ++ lit ":00")))
  = Some Infinity.
Proof. vm_compute. reflexivity. Qed.

(** A negative hour: "-5:30" parses, to -270 minutes. *)
Lemma parseTime_negative_hour :
  parseTime (CStr (lit "-5:30"))
  = Some {| str := lit "-5:30"; mins := ofZ (-270) |}
  /\ geZero (ofZ (-270)) = false.
Proof. split; vm_compute; reflexivity. Qed.

(* ================================================================== *)
(** ** Reading back what Number printing writes *)

Lemma trim_id s :
  Forall (fun c => isWhiteSpace c = false) s -> trim s = s.
Proof.
  intros H. unfold trim, trimEnd.
  assert (G : forall l, Forall (fun c => isWhiteSpace c = false) l ->
                        trimStart l = l).
  { intros l Hl. destruct Hl as [|c l Hc _]; [reflexivity|].
    apply trimStart_keep, Hc. }
  rewrite (G s H), (G (rev s)) by (apply Forall_rev, H).
  apply rev_involutive.
Qed.

Lemma showDigits_app a b : showDigits (a ++ b) = showDigits a ++ showDigits b.
Proof. apply map_app. Qed.

Lemma zeros_showDigits n : zeros n = showDigits (repeat 0 (Z.to_nat n)).
Proof.
  unfold zeros, showDigits.
  induction (Z.to_nat n) as [|k IH]; cbn [repeat map];
    [reflexivity|rewrite IH; reflexivity].
Qed.

Lemma showDigits_noSpace ds :
  validDigits ds -> Forall (fun c => isWhiteSpace c = false) (showDigits ds).
Proof.
  induction 1; simpl; constructor; auto.
  apply digit_not_space, isDigit_digitChar. assumption.
Qed.

Lemma decimalLiteral_noSpace A frac ex :
  validDigits A -> validFrac frac -> validExp ex ->
  Forall (fun c => isWhiteSpace c = false) (decimalLiteral A frac ex).
Proof.
  intros HA HB HE. unfold decimalLiteral.
  apply Forall_app. split; [apply showDigits_noSpace, HA|].
  apply Forall_app. split.
  - destruct frac as [B|]; [|constructor].
    constructor; [reflexivity|]. apply showDigits_noSpace, HB.
  - destruct ex as [[neg E]|]; [|constructor]. destruct HE as [HE _].
    constructor; [reflexivity|].
    constructor; [destruct neg; reflexivity|]. apply showDigits_noSpace, HE.
Qed.

Lemma stripSign_sign (neg : bool) r :
  stripSign ((if neg then 45 else 43) :: r) = (neg, r).
Proof. destruct neg; reflexivity. Qed.

Lemma parseExponent_literal ex :
  validExp ex ->
  parseExponent
    match ex with
    | Some (neg, E) => 101 :: (if neg then 45 else 43) :: showDigits E
    | None => []
    end
  = Some match ex with
         | Some (neg, E) => if neg then - digitsValue E else digitsValue E
         | None => 0
         end.
Proof.
  destruct ex as [[neg E]|]; [|reflexivity]. intros [HE HE'].
  cbn [parseExponent]. change (101 =? 101) with true. cbn [orb].
  rewrite stripSign_sign.
  rewrite <- (app_nil_r (showDigits E)).
  rewrite takeDigits_all by (assumption || exact I).
  destruct E; [congruence|reflexivity].
Qed.

Lemma exponent_head_not_digit (ex : option (bool * list Z)) :
  match match ex with
        | Some (neg, E) => 101 :: (if neg then 45 else 43) :: showDigits E
        | None => []
        end with
  | [] => True
  | c :: _ => isDigit c = false
  end.
Proof. destruct ex as [[neg E]|]; [reflexivity|exact I]. Qed.

(** [parseStrDecimal] on a literal with a non-empty integer part. *)
Lemma parseStrDecimal_literal A frac ex :
  validDigits A -> A <> [] -> validFrac frac -> validExp ex ->
  parseStrDecimal (decimalLiteral A frac ex)
  = ofDecimal false (fst (literalValue A frac ex))
                    (snd (literalValue A frac ex)).
Proof.
  intros HA HA' HB HE. unfold parseStrDecimal.
  destruct A as [|a0 A']; [congruence|].
  assert (Ha0 : 0 <= a0 <= 9) by (inversion HA; assumption).
  unfold decimalLiteral. cbn [showDigits map app].
  rewrite stripSign_digit by (apply isDigit_digitChar, Ha0).
  replace (jsstring_eqb _ (lit "Infinity")) with false.
  2:{ unfold jsstring_eqb.
      destruct (list_eq_dec _ _ _) as [E|]; [|reflexivity].
      exfalso.
      assert (L : lit "Infinity" = 73 :: tl (lit "Infinity")) by reflexivity.
      rewrite L in E. injection E as E _. unfold digitChar in E. lia. }
  change (digitChar a0 :: map digitChar A' ++ ?r)
    with (showDigits (a0 :: A') ++ r).
  set (X := match ex with
            | Some (neg, E) => 101 :: (if neg then 45 else 43) :: showDigits E
            | None => []
            end).
  pose proof (exponent_head_not_digit ex) as HX. fold X in HX.
  destruct frac as [B|].
  - rewrite takeDigits_all by (assumption || reflexivity).
    cbn [app takeFraction]. rewrite (takeDigits_all B X) by assumption.
    rewrite Z.eqb_refl. cbv iota beta zeta.
    unfold X. rewrite parseExponent_literal by assumption.
    reflexivity.
  - cbn [app]. rewrite takeDigits_all by assumption.
    assert (EX : takeFraction X = ([], X)).
    { unfold X. destruct ex as [[neg E]|]; reflexivity. }
    rewrite EX. cbv iota beta zeta.
    unfold X. rewrite parseExponent_literal by assumption.
    unfold literalValue. cbn [fst snd List.length app].
    reflexivity.
Qed.

Lemma parseNonDecimal_literal A frac ex :
  validDigits A -> A <> [] ->
  parseNonDecimal (decimalLiteral A frac ex) = None.
Proof.
  intros HA HA'. unfold decimalLiteral.
  destruct A as [|a0 [|a1 A']]; [congruence| |].
  - cbn [showDigits map app].
    destruct frac as [B|]; cbn [app].
    + unfold parseNonDecimal. destruct (digitChar a0 =? 48); reflexivity.
    + destruct ex as [[neg E]|]; cbn [app]; unfold parseNonDecimal.
      * destruct (digitChar a0 =? 48); reflexivity.
      * reflexivity.
  - cbn [showDigits map app]. unfold parseNonDecimal.
    assert (H1 : 0 <= a1 <= 9).
    { inversion HA as [|? ? _ HA1]; inversion HA1; assumption. }
    destruct (digitChar a0 =? 48); cbn [negb]; [|reflexivity].
    unfold digitChar. zbool.
Qed.

Lemma StringToNumber_literal A frac ex :
  validDigits A -> A <> [] -> validFrac frac -> validExp ex ->
  StringToNumber (decimalLiteral A frac ex)
  = ofDecimal false (fst (literalValue A frac ex))
                    (snd (literalValue A frac ex)).
Proof.
  intros HA HA' HB HE. unfold StringToNumber.
  rewrite trim_id by (apply decimalLiteral_noSpace; assumption).
  rewrite parseNonDecimal_literal by assumption.
  rewrite parseStrDecimal_literal by assumption.
  destruct (decimalLiteral A frac ex) eqn:E; [|reflexivity].
  exfalso. destruct A; [congruence|]. discriminate E.
Qed.

Lemma ofRatio_sign s num den :
  hasSign s (ofRatio s num den).
Proof.
  unfold ofRatio. destruct num; try reflexivity.
  pose proof (div_finite_sign s p 0 false den 0) as H.
  rewrite xorb_false_r in H. exact H.
Qed.

Lemma ofDecimal_sign s v j : hasSign s (ofDecimal s v j).
Proof.
  unfold ofDecimal. destruct (scale10 v 1 j). apply ofRatio_sign.
Qed.

Lemma validDigits_firstn n ds : validDigits ds -> validDigits (firstn n ds).
Proof.
  unfold validDigits. intros H. revert n.
  induction H; intros [|n]; simpl; constructor; auto.
Qed.

Lemma validDigits_skipn n ds : validDigits ds -> validDigits (skipn n ds).
Proof.
  unfold validDigits. intros H. revert n.
  induction H; intros [|n]; simpl; auto.
Qed.

(** What Number::toString writes for a positive finite Number is a
    decimal literal. *)
Lemma formatShortest_literal ds n :
  validDigits ds -> ds <> [] ->
  exists A frac ex,
    formatShortest ds n = decimalLiteral A frac ex
    /\ validDigits A /\ A <> [] /\ validFrac frac /\ validExp ex.
Proof.
  intros Hv Hne. unfold formatShortest.
  destruct ((-5 <=? n) && (n <=? 21)).
  - destruct (Z.of_nat (List.length ds) <=? n).
    + exists (ds ++ repeat 0 (Z.to_nat (n - Z.of_nat (List.length ds)))), None, None.
      unfold decimalLiteral. rewrite zeros_showDigits, showDigits_app, !app_nil_r.
      repeat split; cbn [validFrac validExp]; auto.
      * apply validDigits_app; [assumption|apply validDigits_repeat0].
      * destruct ds; [congruence|discriminate].
    + destruct (Z.ltb_spec 0 n) as [Hn|Hn].
      * exists (firstn (Z.to_nat n) ds), (Some (skipn (Z.to_nat n) ds)), None.
        unfold decimalLiteral. rewrite !app_nil_r.
        repeat split; cbn [validFrac validExp]; auto.
        -- apply validDigits_firstn, Hv.
        -- destruct ds; [congruence|].
           destruct (Z.to_nat n) eqn:E; [lia|discriminate].
        -- apply validDigits_skipn, Hv.
      * exists [0], (Some (repeat 0 (Z.to_nat (- n)) ++ ds)), None.
        unfold decimalLiteral.
        rewrite zeros_showDigits, showDigits_app, !app_nil_r.
        repeat split; cbn [validFrac validExp]; auto.
        -- repeat constructor; lia.
        -- discriminate.
        -- apply validDigits_app; [apply validDigits_repeat0|assumption].
  - assert (HE : validExp (Some (n - 1 <? 0, decimalDigits (Z.abs (n - 1))))).
    { split; [apply decimalDigits_valid|apply decimalDigits_nonempty]. }
    destruct ds as [|d [|d' rest]]; [congruence| |].
    + exists [d], None, (Some (n - 1 <? 0, decimalDigits (Z.abs (n - 1)))).
      split; [reflexivity|].
      split; [assumption|]. split; [discriminate|]. split; [exact I|exact HE].
    + exists [d], (Some (d' :: rest)),
        (Some (n - 1 <? 0, decimalDigits (Z.abs (n - 1)))).
      inversion Hv as [|? ? Hd Hr]; subst.
      split; [reflexivity|].
      split; [constructor; [assumption|constructor]|].
      split; [discriminate|]. split; [exact Hr|exact HE].
Qed.

Lemma padStart0_showDigits n ds :
  padStart0 n (showDigits ds)
  = showDigits (repeat 0 (n - List.length ds) ++ ds).
Proof.
  unfold padStart0, showDigits. rewrite length_map, map_app.
  f_equal. induction (n - List.length ds)%nat as [|k IH]; cbn [repeat map];
    [reflexivity|rewrite IH; reflexivity].
Qed.

(** What [toFixed(2)] writes for a non-negative integer of hundredths
    is a decimal literal. *)
Lemma fixedDigits2_literal n :
  exists A B,
    fixedDigits 2 n = decimalLiteral A (Some B) None
    /\ validDigits A /\ A <> [] /\ validDigits B.
Proof.
  unfold fixedDigits, showNat. rewrite padStart0_showDigits.
  set (D := repeat 0 (3 - List.length (decimalDigits n)) ++ decimalDigits n).
  assert (HD : validDigits D).
  { apply validDigits_app; [apply validDigits_repeat0|apply decimalDigits_valid]. }
  assert (HL : (3 <= List.length D)%nat).
  { unfold D. rewrite length_app, repeat_length. lia. }
  exists (firstn (List.length D - 2) D), (skipn (List.length D - 2) D).
  unfold decimalLiteral, showDigits. rewrite length_map, app_nil_r.
  rewrite firstn_map, skipn_map.
  repeat split.
  - apply validDigits_firstn, HD.
  - destruct D as [|x D']; [simpl in HL; lia|].
    destruct (List.length (x :: D') - 2)%nat eqn:E; [simpl in *; lia|discriminate].
  - apply validDigits_skipn, HD.
Qed.

Lemma numberToString_positive m e :
  exists A frac ex,
    numberToString (S754_finite false m e) = decimalLiteral A frac ex
    /\ validDigits A /\ A <> [] /\ validFrac frac /\ validExp ex.
Proof.
  unfold numberToString. destruct (ratOf m e) as [num den].
  destruct (shortest _ _ _ _ _ _) as [sd n]. cbn [app].
  apply formatShortest_literal;
    [apply decimalDigits_valid|apply decimalDigits_nonempty].
Qed.

(** Rounding a Number that is not negative to two decimals gives a
    Number that is not negative. *)
Lemma round2_nonneg x : hasSign false x -> hasSign false (round2 x).
Proof.
  unfold round2. destruct x as [s|s| |s m e]; cbn [hasSign]; intros H;
    subst; try contradiction.
  - vm_compute. reflexivity.
  - vm_compute. reflexivity.
  - unfold toFixed. destruct (ratOf m e) as [num den]. cbn [app].
    destruct (10 ^ 21 * Zpos den <=? num).
    + destruct (numberToString_positive m e)
        as (A & frac & ex & -> & HA & HA' & HB & HE).
      rewrite StringToNumber_literal by assumption. apply ofDecimal_sign.
    + destruct (fixedDigits2_literal (nearestScaled (Z.of_nat 2) num den))
        as (A & B & -> & HA & HA' & HB).
      rewrite StringToNumber_literal by (assumption || exact I).
      apply ofDecimal_sign.
Qed.

Lemma parseStrDecimal_minus r :
  parseStrDecimal (45 :: r) = NaN \/ hasSign true (parseStrDecimal (45 :: r)).
Proof.
  unfold parseStrDecimal. cbn [stripSign]. change (45 =? 45) with true.
  cbv iota beta.
  destruct (jsstring_eqb r (lit "Infinity")); [right; reflexivity|].
  destruct (takeDigits r) as [ip r1]. destruct (takeFraction r1) as [fp r2].
  destruct (ip ++ fp); [left; reflexivity|].
  destruct (parseExponent r2); [|left; reflexivity].
  right. apply ofDecimal_sign.
Qed.

Lemma StringToNumber_minus r :
  StringToNumber (45 :: r) = NaN \/ hasSign true (StringToNumber (45 :: r)).
Proof.
  unfold StringToNumber.
  destruct (trim_head 45 r eq_refl) as [r' ->].
  assert (E : parseNonDecimal (45 :: r') = None).
  { unfold parseNonDecimal. destruct r'; reflexivity. }
  rewrite E. apply parseStrDecimal_minus.
Qed.

(** A Number that is not positive: [NaN], a zero, or negative. *)
Lemma not_positive_cases x :
  gtb x posZero = false ->
  x = NaN \/ (exists s, x = S754_zero s) \/ hasSign true x.
Proof.
  destruct x as [s|[|]| |[|] m e]; cbn; intros H; try discriminate; eauto.
Qed.

Lemma positive_cases x : gtb x posZero = true -> hasSign false x.
Proof.
  destruct x as [s|[|]| |[|] m e]; cbn; intros H; try discriminate; reflexivity.
Qed.

Lemma ltb_zero_sign x :
  x = NaN \/ hasSign true x -> ltb posZero x = false.
Proof.
  intros [->|H]; [reflexivity|].
  destruct x as [s|s| |s m e]; cbn in *; subst; try contradiction; reflexivity.
Qed.

(** Rounding a Number that is not positive to two decimals gives a
    Number that is not positive. *)
Lemma round2_not_positive x :
  x = NaN \/ (exists s, x = S754_zero s) \/ hasSign true x ->
  ltb posZero (round2 x) = false.
Proof.
  unfold round2. intros [->|[[s ->]|H]].
  - vm_compute. reflexivity.
  - destruct s; vm_compute; reflexivity.
  - destruct x as [s|s| |s m e]; cbn [hasSign] in H; subst;
      try contradiction.
    + vm_compute. reflexivity.
    + vm_compute. reflexivity.
    + unfold toFixed. destruct (ratOf m e) as [num den]. cbn [app].
      apply ltb_zero_sign, StringToNumber_minus.
Qed.

Lemma div_by_finite_sign s x sy my ey :
  hasSign s x -> hasSign (xorb s sy) (div x (S754_finite sy my ey)).
Proof.
  destruct x as [a|a| |a m e]; cbn [hasSign]; intros H; subst;
    try contradiction; try reflexivity.
  apply div_finite_sign.
Qed.

(** The worked hours of the source, a conditional, are the maximum of
    zero and the rounded quotient. *)
Lemma worked_is_max diffMins :
  (if gtb diffMins posZero
   then StringToNumber (toFixed 2 (div diffMins (ofZ 60)))
   else posZero)
  = max0 (round2 (div diffMins (ofZ 60))).
Proof.
  destruct ofZ_60_finite as (m60 & e60 & E60). rewrite E60.
  fold (round2 (div diffMins (S754_finite false m60 e60))).
  unfold max0. destruct (gtb diffMins posZero) eqn:G.
  - apply positive_cases in G.
    pose proof (div_by_finite_sign false diffMins false m60 e60 G) as Hd.
    apply round2_nonneg in Hd.
    destruct (round2 _) as [s|s| |s m e]; cbn [hasSign] in Hd; subst;
      try contradiction; reflexivity.
  - rewrite round2_not_positive; [reflexivity|].
    destruct (not_positive_cases _ G) as [->|[[s ->]|H]].
    + left. reflexivity.
    + right. left. exists (xorb s false). reflexivity.
    + pose proof (div_by_finite_sign true diffMins false m60 e60 H) as Hd.
      cbn [xorb] in Hd.
      destruct (div diffMins _) as [s|s| |s m e]; cbn [hasSign] in Hd; subst;
        try contradiction; eauto.
      * right. right. reflexivity.
      * right. right. reflexivity.
Qed.

(* ================================================================== *)
(** ** The Daily Metrics Calculator *)

Lemma calculateDailyMetrics_unfold env row :
  calculateDailyMetrics env row
  = let d := parseDate env (rowDate row) in
    let inObj := parseTime (rowInTime row) in
    let outObj := parseTime (rowOutTime row) in
    match toISOString d with
    | Throws e => Throws e
    | Ok iso =>
        Ok {| date := iso;
              dayName := snd (dayPolicy (getDay env d));
              inTime := match inObj with Some i => str i | None => lit "-" end;
              outTime := match outObj with Some o => str o | None => lit "-" end;
              expectedHours := fst (dayPolicy (getDay env d));
              workedHours := fst (workedAndLeave (getDay env d) inObj outObj);
              isLeave := snd (workedAndLeave (getDay env d) inObj outObj) |}
    end.
Proof.
  unfold calculateDailyMetrics.
  destruct (dayPolicy _) as [expected name].
  destruct (workedAndLeave _ _ _) as [worked leave]. reflexivity.
Qed.

Lemma toISOString_valid d t :
  timeValue d = Some t -> exists iso, toISOString d = Ok iso.
Proof.
  intros H. unfold toISOString. rewrite H.
  destruct (civilFromDays _) as [[y mo] dd]. eauto.
Qed.

Lemma getDay_valid env d k :
  getDay env d = Some k -> exists t, timeValue d = Some t.
Proof. unfold getDay. destruct (timeValue d); [eauto|discriminate]. Qed.

Lemma dayName_Sunday di : snd (dayPolicy di) = Sunday <-> isDay di 0 = true.
Proof.
  unfold dayPolicy. destruct (isDay di 0); [tauto|].
  destruct (isDay di 6); split; discriminate.
Qed.

(** C1.  Whenever the parsed date is valid the Daily Metrics Calculator
    produces a record, and every record it produces satisfies the
    invariant: [isLeave] holds exactly when the day is not a Sunday and
    at least one of check-in and check-out fails to parse, and
    [workedHours] is 0 whenever [isLeave] holds or the day is a Sunday
    (whatever the punches). *)
Theorem daily_record_invariant env row :
  (timeValue (parseDate env (rowDate row)) <> None ->
   exists r, calculateDailyMetrics env row = Ok r)
  /\
  (forall r,
     calculateDailyMetrics env row = Ok r ->
     (isLeave r = true <->
        dayName r <> Sunday
        /\ (parseTime (rowInTime row) = None
            \/ parseTime (rowOutTime row) = None))
     /\ (isLeave r = true \/ dayName r = Sunday -> workedHours r = posZero)).
Proof.
  rewrite calculateDailyMetrics_unfold. cbv zeta. split.
  - intros Hv. destruct (timeValue _) as [t|] eqn:E; [|congruence].
    destruct (toISOString_valid _ _ E) as [iso ->]. eauto.
  - intros r. destruct (toISOString _) as [iso|e]; [|discriminate].
    intros H. injection H as <-. cbn [isLeave dayName workedHours].
    rewrite dayName_Sunday. unfold workedAndLeave.
    destruct (isDay _ 0); cbn [negb fst snd].
    + split; [split; [discriminate|intros [H _]; congruence]|reflexivity].
    + destruct (parseTime (rowInTime row)) as [i|],
               (parseTime (rowOutTime row)) as [o|]; cbn [fst snd].
      * split; [split; [discriminate|]|].
        -- intros [_ [H|H]]; discriminate.
        -- intros [H|H]; discriminate.
      * split; [split; auto|reflexivity].
      * split; [split; auto|reflexivity].
      * split; [split; auto|reflexivity].
Qed.

Lemma daily_record_invariant_witness :
  exists r,
    calculateDailyMetrics (utcHost 0)
      (mkRow CUndefined (DVal (CStr (lit "2023-10-03")))
             (CStr (lit "09:00")) CUndefined) = Ok r
    /\ isLeave r = true /\ workedHours r = posZero.
Proof.
  set (row := mkRow CUndefined (DVal (CStr (lit "2023-10-03")))
                    (CStr (lit "09:00")) CUndefined).
  destruct (proj1 (daily_record_invariant (utcHost 0) row)) as [r Hr].
  - vm_compute. discriminate.
  - exists r. split; [exact Hr|].
    destruct (proj2 (daily_record_invariant (utcHost 0) row) r Hr) as [Hl Hw].
    assert (L : isLeave r = true).
    { apply Hl. split.
      - clear Hl Hw. vm_compute in Hr. injection Hr as <-. discriminate.
      - right. reflexivity. }
    split; [exact L|]. apply Hw. left. exact L.
Defined.

Lemma isDay_Some d k : isDay (Some d) k = (d =? k).
Proof. reflexivity. Qed.

Lemma calculateDailyMetrics_workday env row d :
  getDay env (parseDate env (rowDate row)) = Some d -> d <> 0 ->
  exists iso,
    calculateDailyMetrics env row
    = Ok {| date := iso;
            dayName := if d =? 6 then Saturday else Weekday;
            inTime := match parseTime (rowInTime row) with
                      | Some i => str i | None => lit "-" end;
            outTime := match parseTime (rowOutTime row) with
                       | Some o => str o | None => lit "-" end;
            expectedHours := if d =? 6 then SATURDAY_HOURS else WEEKDAY_HOURS;
            workedHours :=
              fst (workedAndLeave (Some d) (parseTime (rowInTime row))
                                  (parseTime (rowOutTime row)));
            isLeave :=
              snd (workedAndLeave (Some d) (parseTime (rowInTime row))
                                  (parseTime (rowOutTime row))) |}.
Proof.
  intros Hd Hn. rewrite calculateDailyMetrics_unfold. cbv zeta.
  destruct (getDay_valid _ _ _ Hd) as [t Ht].
  destruct (toISOString_valid _ _ Ht) as [iso ->].
  exists iso. rewrite Hd. unfold dayPolicy. rewrite !isDay_Some.
  apply Z.eqb_neq in Hn. rewrite Hn.
  destruct (d =? 6); reflexivity.
Qed.

(** C2.  On a day that is not a Sunday, with both punches parsed, the
    Daily Metrics Calculator returns a record whose [workedHours] is the
    maximum of 0 and the difference of the punches in minutes divided by
    60 and rounded to two decimals (so a difference that is not positive
    yields 0); [expectedHours] is 8.5 on a weekday, 4.0 on a Saturday and
    0.0 on a Sunday; and "09:00" to "17:30" on Wednesday 2023-10-04
    yields 8.5 worked hours. *)
Theorem worked_and_expected_hours :
  (forall env row d i o,
     getDay env (parseDate env (rowDate row)) = Some d -> d <> 0 ->
     parseTime (rowInTime row) = Some i ->
     parseTime (rowOutTime row) = Some o ->
     exists r,
       calculateDailyMetrics env row = Ok r
       /\ workedHours r
          = max0 (round2 (div (sub (mins o) (mins i)) (ofZ 60)))
       /\ (gtb (sub (mins o) (mins i)) posZero = false ->
           workedHours r = posZero)
       /\ isLeave r = false
       /\ expectedHours r
          = (if d =? 6 then StringToNumber (lit "4.0")
             else StringToNumber (lit "8.5")))
  /\
  (forall env row r,
     calculateDailyMetrics env row = Ok r ->
     expectedHours r
     = match dayName r with
       | Weekday => StringToNumber (lit "8.5")
       | Saturday => StringToNumber (lit "4.0")
       | Sunday => StringToNumber (lit "0.0")
       end
     /\ (dayName r = Sunday <->
         getDay env (parseDate env (rowDate row)) = Some 0)
     /\ (dayName r = Saturday <->
         getDay env (parseDate env (rowDate row)) = Some 6))
  /\
  calculateDailyMetrics (utcHost 0)
    (mkRow CUndefined (DVal (CStr (lit "2023-10-04")))
           (CStr (lit "09:00")) (CStr (lit "17:30")))
  = Ok {| date := lit "2023-10-04T00:00:00.000Z";
          dayName := Weekday;
          inTime := lit "09:00";
          outTime := lit "17:30";
          expectedHours := StringToNumber (lit "8.5");
          workedHours := StringToNumber (lit "8.5");
          isLeave := false |}.
Proof.
  split; [|split].
  - intros env row d i o Hd Hn Hi Ho.
    destruct (calculateDailyMetrics_workday env row d Hd Hn) as [iso ->].
    eexists. split; [reflexivity|].
    cbn [workedHours isLeave expectedHours]. rewrite Hi, Ho.
    unfold workedAndLeave. rewrite isDay_Some.
    apply Z.eqb_neq in Hn. rewrite Hn. cbn [negb fst snd].
    split; [apply worked_is_max|].
    split; [intros ->; reflexivity|].
    split; [reflexivity|].
    destruct (d =? 6); vm_compute; reflexivity.
  - intros env row r. rewrite calculateDailyMetrics_unfold. cbv zeta.
    destruct (toISOString _) as [iso|e]; [|discriminate].
    intros H. injection H as <-. cbn [expectedHours dayName].
    unfold dayPolicy.
    destruct (getDay env _) as [d|]; cbn [isDay].
    + destruct (Z.eqb_spec d 0) as [->|N0]; cbn [fst snd].
      * split; [vm_compute; reflexivity|].
        split; split; congruence.
      * destruct (Z.eqb_spec d 6) as [->|N6]; cbn [fst snd].
        -- split; [vm_compute; reflexivity|].
           split; split; congruence.
        -- split; [vm_compute; reflexivity|].
           split; split; congruence.
    + cbn [fst snd]. split; [vm_compute; reflexivity|].
      split; split; congruence.
  - vm_compute. reflexivity.
Qed.

Lemma worked_and_expected_hours_witness :
  exists r,
    calculateDailyMetrics (utcHost 0)
      (mkRow CUndefined (DVal (CNum (ofZ 45206)))
             (CStr (lit "09:00")) (CStr (lit "11:20"))) = Ok r
    /\ workedHours r = StringToNumber (lit "2.33")
    /\ expectedHours r = StringToNumber (lit "4.0").
Proof.
  destruct (proj1 worked_and_expected_hours (utcHost 0)
              (mkRow CUndefined (DVal (CNum (ofZ 45206)))
                     (CStr (lit "09:00")) (CStr (lit "11:20")))
              6 {| str := lit "09:00"; mins := ofZ 540 |}
              {| str := lit "11:20"; mins := ofZ 680 |})
    as (r & Hr & Hw & _ & _ & He).
  - vm_compute. reflexivity.
  - discriminate.
  - vm_compute. reflexivity.
  - vm_compute. reflexivity.
  - exists r. split; [exact Hr|]. split.
    + rewrite Hw. vm_compute. reflexivity.
    + rewrite He. reflexivity.
Defined.

(* ------------------------------------------------------------------ *)

Lemma parseTime_zeroOrEmpty c : zeroOrEmpty c -> parseTime c = None.
Proof. intros [->|[s ->]]; reflexivity. Qed.

Lemma workedAndLeave_missing_in d o :
  d <> 0 -> workedAndLeave (Some d) None o = (posZero, true).
Proof.
  intros Hn. unfold workedAndLeave. rewrite isDay_Some.
  apply Z.eqb_neq in Hn. rewrite Hn. reflexivity.
Qed.

Lemma workedAndLeave_missing_out d i :
  d <> 0 -> workedAndLeave (Some d) i None = (posZero, true).
Proof.
  intros Hn. unfold workedAndLeave. rewrite isDay_Some.
  apply Z.eqb_neq in Hn. rewrite Hn. destruct i; reflexivity.
Qed.

(** C10.  On a day that is not a Sunday, a punch cell holding the number
    0 or the empty string is rejected by the Time Parser, the day is
    marked as leave with 0 worked hours, and the record is the one the
    row would give with that cell missing. *)
Theorem zero_punch_is_missing env row d :
  getDay env (parseDate env (rowDate row)) = Some d -> d <> 0 ->
  zeroOrEmpty (rowInTime row) \/ zeroOrEmpty (rowOutTime row) ->
  (forall c, zeroOrEmpty c -> parseTime c = None)
  /\ exists r,
       calculateDailyMetrics env row = Ok r
       /\ isLeave r = true /\ workedHours r = posZero
       /\ (zeroOrEmpty (rowInTime row) ->
           inTime r = lit "-"
           /\ calculateDailyMetrics env (withInTime row CUndefined) = Ok r)
       /\ (zeroOrEmpty (rowOutTime row) ->
           outTime r = lit "-"
           /\ calculateDailyMetrics env (withOutTime row CUndefined) = Ok r).
Proof.
  intros Hd Hn Hz. split; [exact parseTime_zeroOrEmpty|].
  destruct (calculateDailyMetrics_workday env row d Hd Hn) as [iso E].
  eexists. split; [exact E|].
  cbn [isLeave workedHours inTime outTime].
  assert (Hwl : workedAndLeave (Some d) (parseTime (rowInTime row))
                  (parseTime (rowOutTime row)) = (posZero, true)).
  { destruct Hz as [Hz|Hz]; rewrite (parseTime_zeroOrEmpty _ Hz).
    - apply workedAndLeave_missing_in, Hn.
    - apply workedAndLeave_missing_out, Hn. }
  rewrite Hwl. cbn [fst snd].
  split; [reflexivity|]. split; [reflexivity|]. split.
  - intros Hz'. rewrite (parseTime_zeroOrEmpty _ Hz').
    split; [reflexivity|].
    rewrite calculateDailyMetrics_unfold in E |- *.
    cbv zeta in E |- *. cbn [withInTime rowDate rowInTime rowOutTime].
    destruct (toISOString _) as [iso'|e]; [|discriminate].
    injection E as E. rewrite <- E, Hd.
    change (parseTime CUndefined) with (@None ParsedTime).
    rewrite workedAndLeave_missing_in by assumption.
    unfold dayPolicy. rewrite !isDay_Some.
    apply Z.eqb_neq in Hn. rewrite Hn. destruct (d =? 6); reflexivity.
  - intros Hz'. rewrite (parseTime_zeroOrEmpty _ Hz').
    split; [reflexivity|].
    rewrite calculateDailyMetrics_unfold in E |- *.
    cbv zeta in E |- *. cbn [withOutTime rowDate rowInTime rowOutTime].
    destruct (toISOString _) as [iso'|e]; [|discriminate].
    injection E as E. rewrite <- E, Hd.
    change (parseTime CUndefined) with (@None ParsedTime).
    rewrite workedAndLeave_missing_out by assumption.
    unfold dayPolicy. rewrite !isDay_Some.
    apply Z.eqb_neq in Hn. rewrite Hn. destruct (d =? 6); reflexivity.
Qed.

Lemma zero_punch_is_missing_witness :
  exists r,
    calculateDailyMetrics (utcHost 0)
      (mkRow CUndefined (DVal (CStr (lit "2023-10-03")))
             (CNum (ofZ 0)) (CStr (lit "17:30"))) = Ok r
    /\ isLeave r = true /\ workedHours r = posZero /\ inTime r = lit "-".
Proof.
  set (row := mkRow CUndefined (DVal (CStr (lit "2023-10-03")))
                    (CNum (ofZ 0)) (CStr (lit "17:30"))).
  destruct (zero_punch_is_missing (utcHost 0) row 2)
    as (_ & r & Hr & Hl & Hw & Hin & _).
  - vm_compute. reflexivity.
  - discriminate.
  - left. right. exists false. reflexivity.
  - exists r. split; [exact Hr|]. split; [exact Hl|]. split; [exact Hw|].
    apply Hin. right. exists false. reflexivity.
Defined.

(* ================================================================== *)
(** ** The Batch Aggregator *)

Lemma fold_accumulate rs : forall st,
  fold_left accumulate rs st
  = {| records := records st ++ rs;
       totalExpected := fold_left add (map expectedHours rs) (totalExpected st);
       totalWorked := fold_left add (map workedHours rs) (totalWorked st);
       leavesTaken := leavesTaken st + countLeaves rs;
       employeeName := employeeName st |}.
Proof.
  unfold countLeaves.
  induction rs as [|r rs IH]; intros st; cbn [fold_left map filter].
  - destruct st. cbn. rewrite app_nil_r, Z.add_0_r. reflexivity.
  - rewrite IH. unfold accumulate.
    cbn [records totalExpected totalWorked leavesTaken employeeName].
    rewrite <- app_assoc. cbn [app]. f_equal.
    destruct (isLeave r); cbn [List.length]; lia.
Qed.

Lemma forEach_later env rows : forall index st,
  index <> 0 ->
  (forall k, 0 <= k -> index + k <> 0) ->
  forEach env index rows st
  = bind (calculateAll env rows) (fun rs => Ok (fold_left accumulate rs st)).
Proof.
  induction rows as [|row rest IH]; intros index st Hi Hk; cbn [forEach calculateAll bind].
  - reflexivity.
  - unfold forEachBody. apply Z.eqb_neq in Hi. rewrite Hi. cbn [andb].
    destruct (calculateDailyMetrics env row) as [r|e]; cbn [bind]; [|reflexivity].
    rewrite IH.
    + destruct (calculateAll env rest); reflexivity.
    + apply (Hk 1). lia.
    + intros k Hk0. rewrite <- Z.add_assoc. apply Hk. lia.
Qed.

Lemma POST_totals env rows rs :
  rows <> [] -> calculateAll env rows = Ok rs ->
  exists s, POST env rows = Success s /\ totalsOf s = totalsOf (aggregate rs).
Proof.
  intros Hne Hall. destruct rows as [|row rest]; [congruence|].
  unfold POST. cbn [forEach calculateAll bind] in *.
  unfold forEachBody.
  destruct (calculateDailyMetrics env row) as [r|e]; cbn [bind] in *;
    [|discriminate].
  rewrite forEach_later by lia.
  destruct (calculateAll env rest) as [rs'|e]; cbn [bind] in *; [|discriminate].
  injection Hall as <-. eexists. split; [reflexivity|].
  unfold aggregate. cbn [fold_left].
  rewrite !fold_accumulate.
  destruct ((0 =? 0) && truthy (rowEmployeeName row)); reflexivity.
Qed.

Lemma policyHours_sign r : policyHours r -> hasSign false (expectedHours r).
Proof. intros [->|[->| ->]]; reflexivity. Qed.

Lemma sum_nonneg l : forall a,
  hasSign false a -> Forall (hasSign false) l ->
  hasSign false (fold_left add l a).
Proof.
  induction l as [|x l IH]; intros a Ha Hl; cbn [fold_left]; [assumption|].
  inversion Hl; subst. apply IH; [apply add_nonneg|]; assumption.
Qed.

Lemma nonneg_zero_or_positive x :
  hasSign false x -> x = posZero \/ gtb x posZero = true.
Proof.
  destruct x as [s|s| |s m e]; cbn [hasSign]; intros H; subst;
    try contradiction; auto.
Qed.

Lemma calculateDailyMetrics_policy env row r :
  calculateDailyMetrics env row = Ok r -> policyHours r.
Proof.
  rewrite calculateDailyMetrics_unfold. cbv zeta.
  destruct (toISOString _); [|discriminate]. intros H. injection H as <-.
  unfold policyHours, dayPolicy. cbn [expectedHours].
  destruct (isDay _ 0); [auto|]. destruct (isDay _ 6); auto.
Qed.

Lemma calculateAll_policy env rows : forall rs,
  calculateAll env rows = Ok rs -> Forall policyHours rs.
Proof.
  induction rows as [|row rest IH]; cbn [calculateAll]; intros rs H.
  - injection H as <-. constructor.
  - destruct (calculateDailyMetrics env row) as [r|e] eqn:E; cbn [bind] in H;
      [|discriminate].
    destruct (calculateAll env rest) as [rs'|e]; cbn [bind] in H; [|discriminate].
    injection H as <-. constructor; [|apply IH; reflexivity].
    eapply calculateDailyMetrics_policy, E.
Qed.

Lemma stats_fold rs : forall w e l,
  fold_left
    (fun (acc : Number * Number * Z) r =>
       let '(worked, expected, leaves) := acc in
       (add worked (workedHours r), add expected (expectedHours r),
        if isLeave r then leaves + 1 else leaves)) rs (w, e, l)
  = (fold_left add (map workedHours rs) w,
     fold_left add (map expectedHours rs) e,
     l + countLeaves rs).
Proof.
  unfold countLeaves.
  induction rs as [|r rs IH]; intros w e l; cbn [fold_left map filter].
  - rewrite Z.add_0_r. reflexivity.
  - rewrite IH. f_equal.
    destruct (isLeave r); cbn [List.length]; lia.
Qed.

(** The dashboard's [stats] are the aggregator's totals of the records of
    the selected month. *)
Lemma stats_aggregate records month :
  let s := aggregate (filteredRecords records month) in
  stats records month
  = {| worked := sTotalWorked s; expected := sTotalExpected s;
       leaves := sLeavesTaken s; productivity := sProductivity s |}.
Proof.
  unfold stats, aggregate. rewrite stats_fold, fold_accumulate.
  reflexivity.
Qed.

Lemma digitsValue_zeros k ds :
  digitsValue (repeat 0 k ++ ds) = digitsValue ds.
Proof.
  unfold digitsValue. rewrite fold_left_app.
  replace (fold_left (fun a d => 10 * a + d) (repeat 0 k) 0) with 0;
    [reflexivity|].
  induction k as [|k IH]; [reflexivity|]. cbn [repeat fold_left].
  exact IH.
Qed.

(** [toFixed(1)] writes the digits of [n] with a period before the last
    one. *)
Lemma fixedDigits1_shape n :
  0 <= n ->
  exists A d,
    fixedDigits 1 n = showDigits A ++ [46; digitChar d]
    /\ validDigits A /\ A <> [] /\ 0 <= d <= 9
    /\ digitsValue (A ++ [d]) = n.
Proof.
  intros Hn. unfold fixedDigits, showNat.
  fold (showDigits (decimalDigits n)). rewrite padStart0_showDigits.
  set (D := repeat 0 (2 - List.length (decimalDigits n)) ++ decimalDigits n).
  assert (HV : validDigits D).
  { apply validDigits_app; [apply validDigits_repeat0|apply decimalDigits_valid]. }
  assert (HL : (2 <= List.length D)%nat).
  { unfold D. rewrite length_app, repeat_length. lia. }
  assert (HW : digitsValue D = n).
  { unfold D. rewrite digitsValue_zeros. apply decimalDigits_value, Hn. }
  assert (HD : D <> []) by (destruct D; [simpl in HL; lia|discriminate]).
  destruct (exists_last HD) as (A & d & E). clearbody D. subst D.
  rewrite length_app in HL. cbn [List.length] in HL.
  apply Forall_app in HV. destruct HV as [HA Hd].
  exists A, d. unfold showDigits. rewrite length_map, map_app, length_app.
  cbn [map List.length].
  replace (List.length A + 1 - 1)%nat with (List.length (map digitChar A) + 0)%nat
    by (rewrite length_map; lia).
  rewrite firstn_app_2, skipn_app.
  replace (List.length (map digitChar A) + 0 - List.length (map digitChar A))%nat
    with 0%nat by lia.
  rewrite skipn_all2 by lia.
  cbn [firstn skipn app]. rewrite app_nil_r.
  split; [reflexivity|]. split; [exact HA|]. split.
  - destruct A; [simpl in HL; lia|discriminate].
  - split; [inversion Hd; assumption|exact HW].
Qed.

Lemma forallb_isDigit_showDigits A :
  validDigits A -> forallb isDigit (showDigits A) = true.
Proof.
  induction 1 as [|a A Ha _ IH]; [reflexivity|].
  cbn [showDigits map forallb]. rewrite isDigit_digitChar by assumption.
  exact IH.
Qed.

Lemma filter_isDigit_showDigits A :
  validDigits A -> filter isDigit (showDigits A) = showDigits A.
Proof.
  induction 1 as [|a A Ha _ IH]; [reflexivity|].
  cbn [showDigits map filter]. rewrite isDigit_digitChar by assumption.
  f_equal. exact IH.
Qed.

Lemma digit_values_showDigits A :
  map (fun c => c - 48) (showDigits A) = A.
Proof.
  unfold showDigits, digitChar. rewrite map_map.
  induction A as [|a A IH]; [reflexivity|].
  cbn [map]. rewrite IH. f_equal. lia.
Qed.

Lemma oneDecimal_shape A d :
  validDigits A -> A <> [] -> 0 <= d <= 9 ->
  isOneDecimal (showDigits A ++ [46; digitChar d]) = true
  /\ tenthsOf (showDigits A ++ [46; digitChar d]) = digitsValue (A ++ [d]).
Proof.
  intros HA HN Hd. split.
  - unfold isOneDecimal. rewrite rev_app_distr. cbn [rev app].
    assert (F : forallb isDigit (rev (showDigits A)) = true).
    { apply forallb_forall. intros x Hx. apply in_rev in Hx.
      pose proof (forallb_isDigit_showDigits A HA) as G.
      rewrite forallb_forall in G. apply G, Hx. }
    destruct (rev (showDigits A)) as [|a R] eqn:E.
    + apply (f_equal (@rev Z)) in E. rewrite rev_involutive in E.
      destruct A; [congruence|discriminate].
    + rewrite isDigit_digitChar by assumption. rewrite Z.eqb_refl.
      cbn [andb]. exact F.
  - unfold tenthsOf. rewrite filter_app, filter_isDigit_showDigits by assumption.
    cbn [filter]. change (isDigit 46) with false. cbv iota.
    rewrite isDigit_digitChar by assumption.
    change [digitChar d] with (showDigits [d]).
    rewrite <- showDigits_app, digit_values_showDigits. reflexivity.
Qed.

Lemma nearestScaled_nearest num den :
  0 <= num ->
  0 <= nearestScaled 1 num den
  /\ 2 * Z.abs (10 * num - nearestScaled 1 num den * Zpos den) <= Zpos den.
Proof.
  intros Hn. unfold nearestScaled. change (10 ^ 1) with 10.
  set (q := (2 * num * 10 + Zpos den) / (2 * Zpos den)).
  pose proof (Z.div_mod (2 * num * 10 + Zpos den) (2 * Zpos den) ltac:(lia)) as E.
  pose proof (Z.mod_pos_bound (2 * num * 10 + Zpos den) (2 * Zpos den) ltac:(lia)) as B.
  fold q in E. set (r := (2 * num * 10 + Zpos den) mod (2 * Zpos den)) in *.
  replace (2 * Zpos den * q) with (2 * (q * Zpos den)) in E by ring.
  set (X := q * Zpos den) in *.
  split; [|lia].
  apply Z.div_pos; lia.
Qed.

(** [toFixed(1)] of a non-negative Number below 10^21: a one-decimal
    fixed-point string that denotes the nearest tenth. *)
Lemma toFixed1_rounds x :
  belowE21 x = true -> hasSign false x ->
  isOneDecimal (toFixed 1 x) = true /\ nearestTenth (tenthsOf (toFixed 1 x)) x.
Proof.
  destruct x as [s|s| |s m e]; cbn [belowE21 hasSign]; try discriminate.
  - intros _ _. split; vm_compute; reflexivity.
  - intros Hb ->. unfold toFixed, nearestTenth.
    assert (Hnum : 0 <= fst (ratOf m e)).
    { unfold ratOf. destruct e; cbn [fst]; lia. }
    destruct (ratOf m e) as [num den]. cbn [fst] in Hnum.
    replace (10 ^ 21 * Zpos den <=? num) with false
      by (symmetry; apply Z.leb_gt, Z.ltb_lt, Hb).
    cbn [app].
    destruct (nearestScaled_nearest num den Hnum) as [N0 N1].
    destruct (fixedDigits1_shape _ N0) as (A & d & E & HA & HN & Hd & HW).
    change (Z.of_nat 1) with 1. rewrite E.
    destruct (oneDecimal_shape A d HA HN Hd) as [O1 O2].
    rewrite O1, O2, HW. split; [reflexivity|exact N1].
Qed.

(** Outside that range [toFixed] gives the default string of the
    Number. *)
Lemma toFixed_large f x : belowE21 x = false -> toFixed f x = numberToString x.
Proof.
  destruct x as [s|s| |s m e]; cbn [belowE21]; try discriminate;
    try reflexivity.
  unfold toFixed, numberToString. destruct (ratOf m e) as [num den].
  intros Hb.
  replace (10 ^ 21 * Zpos den <=? num) with true
    by (symmetry; apply Z.leb_le; apply Z.ltb_ge in Hb; exact Hb).
  destruct (shortest _ _ _ _ _ _) as [sd n]. reflexivity.
Qed.

Lemma div_nonneg x y :
  hasSign false x -> hasSign false y ->
  div x y = NaN \/ hasSign false (div x y).
Proof.
  destruct x as [a|a| |a mx ex], y as [b|b| |b my ey]; cbn [hasSign];
    intros Hx Hy; subst; try contradiction;
    try (left; reflexivity); try (right; reflexivity).
  right. apply (div_finite_sign false _ _ false).
Qed.

Lemma percent_nonneg w e :
  hasSign false w -> hasSign false e ->
  mul (div w e) (ofZ 100) = NaN \/ hasSign false (mul (div w e) (ofZ 100)).
Proof.
  intros Hw He. destruct (div_nonneg w e Hw He) as [-> | H].
  - left. reflexivity.
  - right. assert (E : exists m x, ofZ 100 = S754_finite false m x)
      by (vm_compute; eauto).
    destruct E as (m & x & ->).
    apply (mul_finite_sign false _ false). exact H.
Qed.

(** C3 (amended).  For every sequence of daily records the Batch
    Aggregator returns the left-to-right sums of [expectedHours] and of
    [workedHours] and the number of records on leave.  The productivity
    is "0.0" when the total expected is zero.  When it is positive, with
    [p] the ratio of worked to expected times 100: if [p] is not negative
    and below 10^21, the productivity is a fixed-point string with one
    decimal that denotes [p] rounded to the nearest tenth; if [p] is
    10^21 or more, or not finite, it is the default string of the Number
    (exponent notation, "Infinity" or "NaN").  On records with the
    calculator's expected hours and worked hours that are not negative,
    the total expected is zero or positive and [p] is not negative or is
    [NaN].  The empty sequence gives "0.0"; the totals [POST] returns are
    those of the records of its rows, and the dashboard's recomputation
    gives those of the records of the selected month ("0.0" for a month
    without records); and the three records of the example give 12.5,
    10.5 and "84.0". *)
Theorem aggregate_totals :
  (forall rs,
     let s := aggregate rs in
     let p := mul (div (sTotalWorked s) (sTotalExpected s)) (ofZ 100) in
     sTotalExpected s = sumNumbers (map expectedHours rs)
     /\ sTotalWorked s = sumNumbers (map workedHours rs)
     /\ sLeavesTaken s = countLeaves rs
     /\ sRecords s = rs
     /\ ((exists b, sTotalExpected s = S754_zero b) ->
         sProductivity s = lit "0.0")
     /\ (gtb (sTotalExpected s) posZero = true ->
         belowE21 p = true -> hasSign false p ->
         isOneDecimal (sProductivity s) = true
         /\ nearestTenth (tenthsOf (sProductivity s)) p)
     /\ (gtb (sTotalExpected s) posZero = true ->
         belowE21 p = false ->
         sProductivity s = numberToString p)
     /\ (Forall policyHours rs ->
         sTotalExpected s = posZero
         \/ gtb (sTotalExpected s) posZero = true)
     /\ (Forall policyHours rs ->
         Forall (fun r => hasSign false (workedHours r)) rs ->
         p = NaN \/ hasSign false p))
  /\ sProductivity (aggregate []) = lit "0.0"
  /\ (forall env rows rs,
        rows <> [] -> calculateAll env rows = Ok rs ->
        Forall policyHours rs
        /\ exists s, POST env rows = Success s
                     /\ totalsOf s = totalsOf (aggregate rs))
  /\ (forall records month,
        let s := aggregate (filteredRecords records month) in
        stats records month
        = {| worked := sTotalWorked s; expected := sTotalExpected s;
             leaves := sLeavesTaken s; productivity := sProductivity s |})
  /\ (forall records month,
        filteredRecords records month = [] ->
        productivity (stats records month) = lit "0.0")
  /\ (let s := aggregate
         [ mkRecord (lit "2023-10-04T00:00:00.000Z") Weekday (lit "09:00")
             (lit "17:30") (StringToNumber (lit "8.5"))
             (StringToNumber (lit "8.5")) false;
           mkRecord (lit "2023-10-07T00:00:00.000Z") Saturday (lit "09:00")
             (lit "11:00") (StringToNumber (lit "4.0"))
             (StringToNumber (lit "2.0")) false;
           mkRecord (lit "2023-10-08T00:00:00.000Z") Sunday (lit "-")
             (lit "-") (StringToNumber (lit "0")) (StringToNumber (lit "0"))
             false ] in
      sTotalExpected s = StringToNumber (lit "12.5")
      /\ sTotalWorked s = StringToNumber (lit "10.5")
      /\ sLeavesTaken s = 0
      /\ sProductivity s = lit "84.0").
Proof.
  split; [|split; [|split; [|split; [|split]]]].
  - intros rs s p. unfold p, s, aggregate. rewrite fold_accumulate.
    unfold summaryOf, sumNumbers.
    cbn [sTotalExpected sTotalWorked sLeavesTaken sRecords sProductivity
         records totalExpected totalWorked leavesTaken initialTotals app].
    split; [reflexivity|]. split; [reflexivity|]. split; [reflexivity|].
    split; [reflexivity|]. unfold productivityOf.
    split; [|split; [|split; [|split]]].
    + intros [b ->]. destruct b; reflexivity.
    + intros -> Hb Hs. apply toFixed1_rounds; assumption.
    + intros -> Hb. apply toFixed_large, Hb.
    + intros Hp. apply nonneg_zero_or_positive, sum_nonneg; [reflexivity|].
      apply Forall_map. eapply Forall_impl; [|exact Hp].
      intros r. apply policyHours_sign.
    + intros Hp Hw. apply percent_nonneg.
      * apply sum_nonneg; [reflexivity|]. apply Forall_map. exact Hw.
      * apply sum_nonneg; [reflexivity|].
        apply Forall_map. eapply Forall_impl; [|exact Hp].
        intros r. apply policyHours_sign.
  - reflexivity.
  - intros env rows rs Hne Hall. split.
    + eapply calculateAll_policy, Hall.
    + apply POST_totals; assumption.
  - exact stats_aggregate.
  - intros records month H. rewrite stats_aggregate. cbv zeta.
    rewrite H. reflexivity.
  - vm_compute. repeat split; reflexivity.
Qed.

Lemma aggregate_totals_witness :
  exists s,
    POST (utcHost 0)
      [ mkRow (CStr (lit "Asha")) (DVal (CStr (lit "2023-10-04")))
              (CStr (lit "09:00")) (CStr (lit "17:30"));
        mkRow CUndefined (DVal (CStr (lit "2023-10-07")))
              (CStr (lit "09:00")) (CStr (lit "11:00")) ] = Success s
    /\ sTotalExpected s = StringToNumber (lit "12.5")
    /\ sProductivity s = lit "84.0"
    /\ isOneDecimal (sProductivity s) = true
    /\ tenthsOf (sProductivity s) = 840.
Proof.
  set (rows := [ mkRow (CStr (lit "Asha")) (DVal (CStr (lit "2023-10-04")))
                       (CStr (lit "09:00")) (CStr (lit "17:30"));
                 mkRow CUndefined (DVal (CStr (lit "2023-10-07")))
                       (CStr (lit "09:00")) (CStr (lit "11:00")) ]).
  set (rs := [ mkRecord (lit "2023-10-04T00:00:00.000Z") Weekday
                 (lit "09:00") (lit "17:30") (StringToNumber (lit "8.5"))
                 (StringToNumber (lit "8.5")) false;
               mkRecord (lit "2023-10-07T00:00:00.000Z") Saturday
                 (lit "09:00") (lit "11:00") (StringToNumber (lit "4.0"))
                 (StringToNumber (lit "2.0")) false ]).
  destruct (proj1 (proj2 (proj2 aggregate_totals)) (utcHost 0) rows rs)
    as (_ & s & Hs & Ht).
  - discriminate.
  - vm_compute. reflexivity.
  - exists s. split; [exact Hs|].
    pose proof (f_equal (fun x => fst (fst (fst (fst x)))) Ht) as He.
    pose proof (f_equal (fun x => snd (fst x)) Ht) as Hp.
    cbn [totalsOf fst snd] in He, Hp.
    destruct (proj1 aggregate_totals rs)
      as (_ & _ & _ & _ & _ & Hr & _).
    destruct Hr as [Hd _].
    + vm_compute. reflexivity.
    + vm_compute. reflexivity.
    + vm_compute. reflexivity.
    + split; [rewrite He; vm_compute; reflexivity|].
      split; [rewrite Hp; vm_compute; reflexivity|].
      rewrite Hp. split; [exact Hd|]. vm_compute. reflexivity.
Defined.

(** Twenty-four digits of hours in the check-out: the ratio times 100 is
    above 10^21 and the productivity is in exponent notation, not a
    fixed-point string. *)
Lemma productivity_exponent_notation :
  exists s,
    POST (utcHost 0)
      [ mkRow CUndefined (DVal (CStr (lit "2023-10-04")))
              (CStr (lit "0:00"))
              (CStr (lit "100000000000000000000000:00")) ] = Success s
    /\ gtb (sTotalExpected s) posZero = true
    /\ sProductivity s = lit "1.176470588235294e+24"
    /\ isOneDecimal (sProductivity s) = false.
Proof.
  eexists. split; [vm_compute; reflexivity|].
  repeat split; vm_compute; reflexivity.
Qed.


(* ================================================================== *)
(** ** The Date Parser *)

Lemma exactInt_shape s p :
  Zpos p < 2 ^ 53 ->
  exists m k,
    exactInt s p = S754_finite s m (- k) /\ 0 <= k /\ Zpos m = Zpos p * 2 ^ k.
Proof.
  intros Hp. pose proof (log2_safe _ Hp) as Hd.
  exists (Z.to_pos (Zpos p * 2 ^ (53 - (Z.log2 (Zpos p) + 1)))),
         (53 - (Z.log2 (Zpos p) + 1)).
  split; [|split; [lia|apply exactInt_mantissa, Hd]].
  unfold exactInt. f_equal. lia.
Qed.

Lemma ratOf_neg m q : ratOf m (Zneg q) = (Zpos m, Pos.pow 2 q).
Proof. reflexivity. Qed.

Lemma MathRound_exactInt s p :
  Zpos p < 2 ^ 53 -> MathRound (exactInt s p) = exactInt s p.
Proof.
  intros Hp. destruct (exactInt_shape s p Hp) as (m & k & E & Hk & Hm).
  rewrite E. destruct k as [|q|q]; try lia; [reflexivity|].
  cbn [Z.opp] in E |- *. cbn [MathRound]. rewrite Pos2Z.inj_pow.
  assert (H2 : 0 < 2 ^ Zpos q) by (apply Z.pow_pos_nonneg; lia).
  assert (Ez : (2 * (if s then Zneg m else Zpos m) + 2 ^ Zpos q)
               / (2 * 2 ^ Zpos q) = cval s p).
  { replace (2 * (if s then Zneg m else Zpos m) + 2 ^ Zpos q)
      with ((2 * cval s p + 1) * 2 ^ Zpos q).
    - rewrite Z.div_mul_cancel_r by lia.
      destruct s; unfold cval.
      + change (Zneg p) with (- Zpos p).
        replace (2 * - Zpos p + 1) with (1 + (- Zpos p) * 2) by lia.
        rewrite Z.div_add by lia. reflexivity.
      + replace (2 * Zpos p + 1) with (1 + Zpos p * 2) by lia.
        rewrite Z.div_add by lia. reflexivity.
    - destruct s; unfold cval.
      + change (Zneg m) with (- Zpos m). change (Zneg p) with (- Zpos p). lia.
      + lia. }
  rewrite Ez.
  replace (cval s p =? 0) with false
    by (symmetry; apply Z.eqb_neq; destruct s; discriminate).
  rewrite <- E, ofZ_exact by (unfold safeInt; destruct s; simpl; lia).
  apply signedInt_cval.
Qed.

Lemma MathRound_ofZ z : safeInt z -> MathRound (ofZ z) = ofZ z.
Proof.
  intros Hz. rewrite ofZ_exact by assumption. unfold safeInt in Hz.
  destruct z as [|p|p]; [reflexivity| |];
    apply MathRound_exactInt; simpl in Hz; lia.
Qed.

Lemma truncZ_exactInt s p :
  Zpos p < 2 ^ 53 -> truncZ (exactInt s p) = Some (cval s p).
Proof.
  intros Hp. destruct (exactInt_shape s p Hp) as (m & k & E & Hk & Hm).
  rewrite E. unfold truncZ. destruct k as [|q|q]; try lia.
  - cbn [Z.opp ratOf]. rewrite Z.pow_0_r, Z.mul_1_r in *.
    rewrite Z.div_1_r, Hm. reflexivity.
  - cbn [Z.opp]. rewrite ratOf_neg, Pos2Z.inj_pow, Hm.
    rewrite Z.div_mul by (apply Z.pow_nonzero; lia). reflexivity.
Qed.

Lemma TimeClip_ofZ z :
  Z.abs z <= 8640000000000000 -> TimeClip (ofZ z) = Some z.
Proof.
  intros Hz. assert (Hs : safeInt z) by (unfold safeInt; lia).
  rewrite ofZ_exact by assumption. unfold TimeClip.
  destruct z as [|p|p].
  - reflexivity.
  - cbn [signedInt]. rewrite truncZ_exactInt by (unfold safeInt in Hs; simpl in Hs; lia).
    cbn [cval]. destruct (Z.ltb_spec 8640000000000000 (Z.abs (Zpos p))); [lia|reflexivity].
  - cbn [signedInt]. rewrite truncZ_exactInt by (unfold safeInt in Hs; simpl in Hs; lia).
    cbn [cval]. destruct (Z.ltb_spec 8640000000000000 (Z.abs (Zneg p))); [lia|reflexivity].
Qed.

(** A whole-number serial is converted exactly. *)
Lemma serial_exact n :
  Z.abs (n - 25569) <= 100000000 -> safeInt n ->
  TimeClip (MathRound (mul (mul (sub (ofZ n) (ofZ 25569)) (ofZ 86400))
                           (ofZ 1000)))
  = Some ((n - 25569) * 86400 * 1000).
Proof.
  intros Hr Hn.
  rewrite sub_ofZ by (assumption || unfold safeInt; lia).
  destruct (Z.eq_dec (n - 25569) 0) as [->|Hnz]; [reflexivity|].
  rewrite mul_ofZ by (try (unfold safeInt); lia).
  rewrite mul_ofZ by (try (unfold safeInt); lia).
  rewrite MathRound_ofZ by (unfold safeInt; lia).
  apply TimeClip_ofZ. lia.
Qed.

Section Host.

Variable env : Env.

(** C6 (amended).  The Date Parser returns a [Date] for every cell and
    never signals an error: a [Date] is returned unchanged; a number is
    taken as a spreadsheet serial and converted to
    round((serial - 25569) * 86400 * 1000) milliseconds since the epoch
    (for a whole-number serial that is (serial - 25569) * 86400 seconds
    exactly); a string goes through [Date.parse], and one that does not
    parse, like a missing cell, falls back to the clock.  The date
    returned is valid for every cell that is neither a number nor a
    [Date], and for every whole-number serial within 10^8 days of 25569;
    it is invalid exactly when the cell is an invalid [Date], or a number
    whose millisecond count is [NaN], infinite or beyond 8.64e15 in
    magnitude, as for the numbers [NaN] and [Infinity]. *)
Theorem parseDate_cases :
  (forall d, parseDate env (DObj d) = d)
  /\ (forall x,
        parseDate env (DVal (CNum x))
        = mkDate (TimeClip (MathRound
            (mul (mul (sub x (ofZ 25569)) (ofZ 86400)) (ofZ 1000)))))
  /\ (forall n,
        Z.abs (n - 25569) <= 100000000 -> safeInt n ->
        parseDate env (DVal (CNum (ofZ n)))
        = mkDate (Some ((n - 25569) * 86400 * 1000)))
  /\ (forall s t,
        dateParse env s = Some t ->
        parseDate env (DVal (CStr s)) = mkDate (Some t))
  /\ (forall s,
        dateParse env s = None ->
        parseDate env (DVal (CStr s)) = mkDate (Some (now env)))
  /\ parseDate env (DVal CUndefined) = mkDate (Some (now env))
  /\ parseDate env (DVal CNull) = mkDate (Some 0)
  /\ (forall c,
        (forall x, c <> CNum x) ->
        timeValue (parseDate env (DVal c)) <> None)
  /\ (forall dateVal,
        timeValue (parseDate env dateVal) = None
        <-> (exists d, dateVal = DObj d /\ timeValue d = None)
            \/ (exists x,
                  dateVal = DVal (CNum x)
                  /\ (truncZ (serialMs x) = None
                      \/ exists z, truncZ (serialMs x) = Some z
                                   /\ 8640000000000000 < Z.abs z)))
  /\ timeValue (parseDate env (DVal (CNum NaN))) = None
  /\ timeValue (parseDate env (DVal (CNum Infinity))) = None.
Proof.
  split; [reflexivity|]. split; [reflexivity|].
  split; [|split; [|split; [|split; [|split; [|split; [|split; [|split]]]]]]];
    try reflexivity.
  - intros n Hr Hn. cbn [parseDate newDate]. f_equal.
    apply serial_exact; assumption.
  - intros s t H. cbn [parseDate newDate timeValue]. rewrite H. reflexivity.
  - intros s H. cbn [parseDate newDate timeValue]. rewrite H. reflexivity.
  - intros c Hc. destruct c as [| |s|x]; cbn [parseDate newDate timeValue];
      try discriminate.
    + destruct (dateParse env s); discriminate.
    + exfalso. apply (Hc x). reflexivity.
  - intros dateVal. split.
    + destruct dateVal as [c|d].
      * destruct c as [| |s|x]; cbn [parseDate newDate timeValue];
          try discriminate.
        -- destruct (dateParse env s); discriminate.
        -- intros H. right. exists x. split; [reflexivity|].
           unfold TimeClip in H. fold (serialMs x) in H.
           destruct (truncZ (serialMs x)) as [z|]; [|left; reflexivity].
           right. exists z. split; [reflexivity|].
           destruct (Z.ltb_spec 8640000000000000 (Z.abs z));
             [assumption|discriminate].
      * intros H. left. exists d. split; [reflexivity|exact H].
    + intros [(d & -> & H)|(x & -> & H)]; [exact H|].
      cbn [parseDate newDate timeValue]. unfold TimeClip.
      fold (serialMs x).
      destruct H as [-> | (z & -> & Hz)]; [reflexivity|].
      apply Z.ltb_lt in Hz. rewrite Hz. reflexivity.
Qed.

(** C7 (amended).  The serial 45200 in the two date helpers.  As a
    number, [parseDate] converts it with the offset 25569 and 86400
    seconds a day and gives 2023-10-01, whatever the host, while
    [parseDateString], which has no conversion of serials, takes it as
    milliseconds and gives 1970-01-01 (45.2 seconds after the epoch).  As
    the string "45200", and on any other string, on [null] and on a
    missing cell, the two helpers return the same date: what [Date.parse]
    makes of the text, or the clock. *)
Theorem serial_45200_variants :
  timeValue (parseDate env (DVal (CNum (ofZ 45200)))) = Some 1696118400000
  /\ civilFromDays (1696118400000 / msPerDay) = (2023, 10, 1)
  /\ timeValue (parseDateString env (DVal (CNum (ofZ 45200)))) = Some 45200
  /\ civilFromDays (45200 / msPerDay) = (1970, 1, 1)
  /\ toISOString (parseDate env (DVal (CNum (ofZ 45200))))
     = Ok (lit "2023-10-01T00:00:00.000Z")
  /\ toISOString (parseDateString env (DVal (CNum (ofZ 45200))))
     = Ok (lit "1970-01-01T00:00:45.200Z")
  /\ parseDateString env (DVal (CStr (lit "45200")))
     = parseDate env (DVal (CStr (lit "45200")))
  /\ timeValue (parseDate env (DVal (CStr (lit "45200"))))
     = Some (match dateParse env (lit "45200") with
             | Some t => t
             | None => now env
             end)
  /\ (forall s, parseDateString env (DVal (CStr s))
                = parseDate env (DVal (CStr s)))
  /\ parseDateString env (DVal CNull) = parseDate env (DVal CNull)
  /\ parseDateString env (DVal CUndefined) = parseDate env (DVal CUndefined).
Proof.
  split; [vm_compute; reflexivity|]. split; [vm_compute; reflexivity|].
  split; [vm_compute; reflexivity|]. split; [vm_compute; reflexivity|].
  split; [vm_compute; reflexivity|]. split; [vm_compute; reflexivity|].
  split; [reflexivity|]. split.
  - cbn [parseDate newDate timeValue].
    destruct (dateParse env (lit "45200")); reflexivity.
  - repeat split; reflexivity.
Qed.

End Host.

Lemma parseDate_cases_witness :
  parseDate (utcHost 0) (DVal (CNum (ofZ 45200)))
  = mkDate (Some 1696118400000)
  /\ parseDate (utcHost 0) (DVal (CStr (lit "2023-10-01")))
     = mkDate (Some 1696118400000)
  /\ parseDate (utcHost 1700000000000) (DVal (CStr (lit "next Monday")))
     = mkDate (Some 1700000000000)
  /\ timeValue (parseDate (utcHost 0) (DVal (CStr (lit "next Monday"))))
     <> None
  /\ timeValue (parseDate (utcHost 0) (DVal (CNum (ofZ 1000000000000))))
     = None.
Proof.
  destruct (parseDate_cases (utcHost 0))
    as (_ & _ & Hn & Hs & _ & _ & _ & Hv & Hi & _).
  destruct (parseDate_cases (utcHost 1700000000000)) as (_ & _ & _ & _ & Hf & _).
  split; [|split; [|split; [|split]]].
  - apply (Hn 45200); [vm_compute; discriminate|vm_compute; reflexivity].
  - apply Hs. vm_compute. reflexivity.
  - apply Hf. vm_compute. reflexivity.
  - apply Hv. discriminate.
  - apply Hi. right. exists (ofZ 1000000000000). split; [reflexivity|].
    right. exists 86399997790838407168. split; [vm_compute; reflexivity|].
    vm_compute. reflexivity.
Defined.

(** The number 45200 given to both helpers: the dates differ. *)
Lemma serial_45200_as_number :
  toISOString (parseDate (utcHost 0) (DVal (CNum (ofZ 45200))))
  = Ok (lit "2023-10-01T00:00:00.000Z")
  /\ toISOString (parseDateString (utcHost 0) (DVal (CNum (ofZ 45200))))
     = Ok (lit "1970-01-01T00:00:45.200Z")
  /\ parseDateString (utcHost 0) (DVal (CNum (ofZ 45200)))
     <> parseDate (utcHost 0) (DVal (CNum (ofZ 45200))).
Proof.
  split; [vm_compute; reflexivity|].
  split; [vm_compute; reflexivity|].
  vm_compute. discriminate.
Qed.

(** A serial with a time of day, 25569 + 1/1024: the code rounds the
    milliseconds (84375), the formula in seconds gives 84 s. *)
Lemma parseDate_rounds_milliseconds :
  let serial := add (ofZ 25569) (div (ofZ 1) (ofZ 1024)) in
  parseDate (utcHost 0) (DVal (CNum serial)) = mkDate (Some 84375)
  /\ specSerialDate serial = mkDate (Some 84000)
  /\ parseDate (utcHost 0) (DVal (CNum serial)) <> specSerialDate serial.
Proof.
  split; [vm_compute; reflexivity|].
  split; [vm_compute; reflexivity|].
  vm_compute. discriminate.
Qed.

(* ================================================================== *)
(** ** Dependence on the clock *)

Lemma parseDate_setNow env t dateVal :
  dateResolved env dateVal ->
  parseDate (setNow env t) dateVal = parseDate env dateVal.
Proof.
  destruct dateVal as [[| |s|x]|d]; cbn [dateResolved]; intros H;
    try reflexivity; try contradiction.
  cbn [parseDate newDate setNow dateParse timeValue].
  destruct (dateParse env s); [reflexivity|congruence].
Qed.

Lemma calculateDailyMetrics_setNow env t row :
  dateResolved env (rowDate row) ->
  calculateDailyMetrics (setNow env t) row = calculateDailyMetrics env row.
Proof.
  intros H. unfold calculateDailyMetrics.
  rewrite parseDate_setNow by assumption. reflexivity.
Qed.

Lemma forEach_setNow env t rows : forall index st,
  Forall (fun row => dateResolved env (rowDate row)) rows ->
  forEach (setNow env t) index rows st = forEach env index rows st.
Proof.
  induction rows as [|row rest IH]; intros index st H; [reflexivity|].
  inversion H; subst. cbn [forEach]. unfold forEachBody.
  rewrite calculateDailyMetrics_setNow by assumption.
  destruct (calculateDailyMetrics env row); cbn [bind]; [|reflexivity].
  apply IH. assumption.
Qed.

(** C8 (amended).  The Daily Metrics Calculator does not depend on the
    time of evaluation when the date cell is a [Date], a number, [null]
    or a string that parses: two evaluations of such a row, and of
    [POST] on such rows, at different clock readings yield identical
    outputs.  The totals of the Batch Aggregator depend on the record
    sequence alone, whichever host and rows produced it. *)
Theorem compute_independent_of_clock :
  (forall env t row,
     dateResolved env (rowDate row) ->
     calculateDailyMetrics (setNow env t) row = calculateDailyMetrics env row)
  /\ (forall env t rows,
        Forall (fun row => dateResolved env (rowDate row)) rows ->
        POST (setNow env t) rows = POST env rows)
  /\ (forall env env' rows rows' rs,
        rows <> [] -> rows' <> [] ->
        calculateAll env rows = Ok rs -> calculateAll env' rows' = Ok rs ->
        exists s s',
          POST env rows = Success s /\ POST env' rows' = Success s'
          /\ totalsOf s = totalsOf s').
Proof.
  split; [exact calculateDailyMetrics_setNow|]. split.
  - intros env t rows H. unfold POST. destruct rows as [|row rest];
      [reflexivity|].
    rewrite forEach_setNow by assumption. reflexivity.
  - intros env env' rows rows' rs Hne Hne' H H'.
    destruct (POST_totals env rows rs Hne H) as (s & Hs & Ht).
    destruct (POST_totals env' rows' rs Hne' H') as (s' & Hs' & Ht').
    exists s, s'. split; [assumption|]. split; [assumption|]. congruence.
Qed.

Lemma compute_independent_of_clock_witness :
  calculateDailyMetrics (setNow (utcHost 0) 259200000)
    (mkRow CUndefined (DVal (CStr (lit "2023-10-04")))
           (CStr (lit "09:00")) (CStr (lit "17:30")))
  = calculateDailyMetrics (utcHost 0)
      (mkRow CUndefined (DVal (CStr (lit "2023-10-04")))
             (CStr (lit "09:00")) (CStr (lit "17:30"))).
Proof.
  apply (proj1 compute_independent_of_clock).
  vm_compute. discriminate.
Defined.

(** A row without a date: evaluated on a Thursday it is a weekday with
    8.5 hours worked, evaluated three days later it is a Sunday with
    none. *)
Lemma compute_depends_on_clock :
  let row := mkRow CUndefined (DVal CUndefined)
                   (CStr (lit "09:00")) (CStr (lit "17:30")) in
  calculateDailyMetrics (utcHost 0) row
  = Ok {| date := lit "1970-01-01T00:00:00.000Z"; dayName := Weekday;
          inTime := lit "09:00"; outTime := lit "17:30";
          expectedHours := StringToNumber (lit "8.5");
          workedHours := StringToNumber (lit "8.5"); isLeave := false |}
  /\ calculateDailyMetrics (utcHost 259200000) row
     = Ok {| date := lit "1970-01-04T00:00:00.000Z"; dayName := Sunday;
             inTime := lit "09:00"; outTime := lit "17:30";
             expectedHours := StringToNumber (lit "0");
             workedHours := StringToNumber (lit "0"); isLeave := false |}
  /\ calculateDailyMetrics (utcHost 0) row
     <> calculateDailyMetrics (utcHost 259200000) row.
Proof.
  split; [vm_compute; reflexivity|].
  split; [vm_compute; reflexivity|].
  vm_compute. discriminate.
Qed.

(* ================================================================== *)
(** ** More on the Time Parser *)

Lemma trimStart_app s b :
  trimStart (s ++ b)
  = match trimStart s with
    | [] => trimStart b
    | t => t ++ b
    end.
Proof.
  induction s as [|c s IH]; [simpl; destruct (trimStart b); reflexivity|].
  cbn [app trimStart]. destruct (isWhiteSpace c); [exact IH|reflexivity].
Qed.

Lemma trimStart_allWhiteSpace a : allWhiteSpace a -> trimStart a = [].
Proof. induction 1 as [|c a Hc _ IH]; simpl; [|rewrite Hc]; auto. Qed.

Lemma trimStart_skip a x : allWhiteSpace a -> trimStart (a ++ x) = trimStart x.
Proof.
  intros H. rewrite trimStart_app, trimStart_allWhiteSpace by assumption.
  reflexivity.
Qed.

Lemma trimEnd_skip x b : allWhiteSpace b -> trimEnd (x ++ b) = trimEnd x.
Proof.
  intros H. unfold trimEnd. rewrite rev_app_distr, trimStart_skip;
    [reflexivity|]. apply Forall_rev, H.
Qed.

Lemma trimEnd_nil : trimEnd [] = [].
Proof. reflexivity. Qed.

Lemma trim_surrounded a s b :
  allWhiteSpace a -> allWhiteSpace b -> trim (a ++ s ++ b) = trim s.
Proof.
  intros Ha Hb. unfold trim. rewrite trimStart_skip by assumption.
  rewrite trimStart_app. destruct (trimStart s) as [|c t] eqn:E.
  - rewrite trimStart_allWhiteSpace by assumption. reflexivity.
  - apply trimEnd_skip, Hb.
Qed.

Lemma trim_nil : trim [] = [].
Proof. reflexivity. Qed.

(** The Time Parser sees a string cell through [trim] only. *)
Lemma parseTime_same_trim s s' :
  trim s = trim s' -> parseTime (CStr s) = parseTime (CStr s').
Proof.
  intros H. unfold parseTime. cbn [toStringCell].
  destruct s as [|c r], s' as [|c' r']; cbn [truthy negb].
  - reflexivity.
  - rewrite <- H, trim_nil. reflexivity.
  - rewrite H, trim_nil. reflexivity.
  - rewrite H. reflexivity.
Qed.

(** X1.  White space around the text of a time cell does not matter: the
    Time Parser gives the same result with and without it. *)
Theorem parseTime_surrounding_space a s b :
  allWhiteSpace a -> allWhiteSpace b ->
  parseTime (CStr (a ++ s ++ b)) = parseTime (CStr s).
Proof.
  intros Ha Hb. apply parseTime_same_trim, trim_surrounded; assumption.
Qed.

Lemma parseTime_surrounding_space_witness :
  parseTime (CStr (lit "  9:05 "))
  = Some {| str := lit "09:05"; mins := ofZ 545 |}.
Proof.
  change (lit "  9:05 ") with (lit "  " ++ lit "9:05" ++ lit " ").
  rewrite parseTime_surrounding_space.
  - vm_compute. reflexivity.
  - repeat constructor.
  - repeat constructor.
Defined.

(* ------------------------------------------------------------------ *)

Lemma trimStart_suffix l : exists w, l = w ++ trimStart l.
Proof.
  induction l as [|c l [w IH]]; [exists []; reflexivity|].
  cbn [trimStart]. destruct (isWhiteSpace c).
  - exists (c :: w). cbn [app]. f_equal. exact IH.
  - exists []. reflexivity.
Qed.

Lemma trimEnd_prefix l : exists w, l = trimEnd l ++ w.
Proof.
  unfold trimEnd. destruct (trimStart_suffix (rev l)) as [w Hw].
  exists (rev w). rewrite <- rev_app_distr, <- Hw, rev_involutive.
  reflexivity.
Qed.

Lemma noDigitAhead_trimEnd j : noDigitAhead j -> noDigitAhead (trimEnd j).
Proof.
  intros H. destruct (trimEnd_prefix j) as [w Hw].
  destruct (trimEnd j) as [|c t]; [exact I|].
  rewrite Hw in H. exact H.
Qed.

Lemma trimEnd_app_keep x c r :
  isWhiteSpace c = false -> trimEnd (x ++ c :: r) = x ++ c :: trimEnd r.
Proof.
  intros Hc. unfold trimEnd. rewrite rev_app_distr. cbn [rev].
  rewrite <- app_assoc. cbn [app]. rewrite trimStart_app.
  assert (E : match trimStart (rev r) with
              | [] => trimStart (c :: rev x)
              | _ :: _ => trimStart (rev r) ++ c :: rev x
              end = trimStart (rev r) ++ c :: rev x).
  { destruct (trimStart (rev r)); [|reflexivity].
    cbn [trimStart app]. rewrite Hc. reflexivity. }
  destruct (trimStart (rev r)) as [|d t] eqn:Et.
  - cbn [trimStart]. rewrite Hc. cbn [rev app].
    rewrite rev_involutive. reflexivity.
  - rewrite rev_app_distr. cbn [rev]. rewrite rev_involutive.
    rewrite <- app_assoc. reflexivity.
Qed.

Lemma split_app_absent sep a b :
  includes sep a = false ->
  split sep (a ++ b)
  = match split sep b with
    | p :: ps => (a ++ p) :: ps
    | [] => [a]
    end.
Proof.
  unfold includes. induction a as [|c a IH]; cbn [existsb app split].
  - intros _. destruct (split sep b) eqn:E; [|reflexivity].
    destruct (split_nonempty sep b E).
  - rewrite orb_false_iff. intros [Hc Ha].
    rewrite Z.eqb_sym, Hc, IH by assumption.
    destruct (split sep b); reflexivity.
Qed.

Lemma split_first_noDigit sep b p ps :
  noDigitAhead b -> split sep b = p :: ps -> noDigitAhead p.
Proof.
  destruct b as [|c r]; cbn [split noDigitAhead].
  - intros _ H. injection H as <- _. exact I.
  - intros Hc. destruct (c =? sep).
    + intros H. injection H as <- _. exact I.
    + destruct (split sep r); intros H; injection H as <- _; exact Hc.
Qed.

Lemma includes_app c a b : includes c (a ++ b) = includes c a || includes c b.
Proof. apply existsb_app. Qed.

(** X2.  Each of the two parts of a time is read up to its last leading
    digit: after an hour and a minute written in digits, text that
    follows the hour digits (without a colon) and text that follows the
    minute digits (seconds, an AM/PM marker, a fraction) is ignored, as
    long as it does not start with a digit. *)
Theorem parseTime_trailing_text H M j1 j2 :
  validDigits H -> validDigits M -> H <> [] -> M <> [] ->
  noDigitAhead j1 -> includes 58 j1 = false -> noDigitAhead j2 ->
  parseTime (CStr (showDigits H ++ j1 ++ 58 :: showDigits M ++ j2))
  = parseTime (CStr (showDigits H ++ 58 :: showDigits M)).
Proof.
  intros HvH HvM HH HM Hj1 Hc1 Hj2.
  rewrite (parseTime_digits 58 H M) by (auto).
  destruct H as [|h0 H']; [congruence|].
  destruct (exists_last HM) as (M' & ml & EM).
  assert (Hh0 : 0 <= h0 <= 9) by (inversion HvH; assumption).
  assert (Hml : 0 <= ml <= 9).
  { rewrite EM in HvM. apply Forall_app in HvM. destruct HvM as [_ HvM].
    inversion HvM; assumption. }
  set (j := trimEnd j2).
  assert (Hj' : noDigitAhead j) by (apply noDigitAhead_trimEnd, Hj2).
  set (s := showDigits (h0 :: H') ++ j1 ++ 58 :: showDigits M ++ j2).
  assert (Etrim : trim s
                  = (showDigits (h0 :: H') ++ j1) ++ 58 :: showDigits M ++ j).
  { unfold s, trim. cbn [showDigits map app].
    rewrite trimStart_keep by (apply digit_not_space, isDigit_digitChar, Hh0).
    rewrite EM. unfold showDigits. rewrite map_app. cbn [map].
    replace (digitChar h0 :: map digitChar H' ++ j1 ++ 58
               :: (map digitChar M' ++ [digitChar ml]) ++ j2)
      with ((digitChar h0 :: map digitChar H' ++ j1 ++ 58 :: map digitChar M')
              ++ digitChar ml :: j2)
      by (cbn [app]; repeat rewrite <- app_assoc; cbn [app];
          repeat rewrite <- app_assoc; reflexivity).
    rewrite trimEnd_app_keep
      by (apply digit_not_space, isDigit_digitChar, Hml).
    cbn [app]. repeat rewrite <- app_assoc. cbn [app].
    repeat rewrite <- app_assoc. reflexivity. }
  destruct (split 58 j) as [|p ps] eqn:Ej;
    [destruct (split_nonempty _ _ Ej)|].
  pose proof (split_first_noDigit _ _ _ _ Hj' Ej) as Hp.
  assert (Hinc : includes 58 (trim s) = true).
  { rewrite Etrim, includes_app. cbn [includes existsb].
    rewrite Z.eqb_refl, orb_true_r. reflexivity. }
  assert (Hno : includes 58 (showDigits (h0 :: H') ++ j1) = false).
  { rewrite includes_app, Hc1, orb_false_r.
    apply includes_showDigits; [assumption|reflexivity]. }
  rewrite <- (parseInt10_digits (h0 :: H') j1)
    by (assumption || congruence).
  rewrite <- (parseInt10_digits M p) by assumption.
  apply (parseTime_parts (CStr s) _ _ ps).
  - reflexivity.
  - cbn [toStringCell]. rewrite Etrim. discriminate.
  - cbn [toStringCell]. rewrite Hinc, Etrim.
    rewrite split_at by exact Hno.
    rewrite split_app_absent
      by (apply includes_showDigits; [assumption|reflexivity]).
    rewrite Ej. reflexivity.
  - rewrite parseInt10_digits by (assumption || congruence).
    apply ofZ_not_NaN.
  - rewrite parseInt10_digits by assumption. apply ofZ_not_NaN.
Qed.

Lemma parseTime_trailing_text_witness :
  parseTime (CStr (lit "12:30 PM"))
  = Some {| str := lit "12:30"; mins := ofZ 750 |}
  /\ parseTime (CStr (lit "9.5:30:45")) = parseTime (CStr (lit "9:30")).
Proof.
  split.
  - change (lit "12:30 PM")
      with (showDigits [1; 2] ++ [] ++ 58 :: showDigits [3; 0] ++ lit " PM").
    rewrite parseTime_trailing_text.
    + vm_compute. reflexivity.
    + repeat constructor; lia.
    + repeat constructor; lia.
    + discriminate.
    + discriminate.
    + exact I.
    + reflexivity.
    + reflexivity.
  - change (lit "9.5:30:45")
      with (showDigits [9] ++ lit ".5" ++ 58 :: showDigits [3; 0] ++ lit ":45").
    rewrite parseTime_trailing_text.
    + reflexivity.
    + repeat constructor; lia.
    + repeat constructor; lia.
    + discriminate.
    + discriminate.
    + reflexivity.
    + reflexivity.
    + reflexivity.
Defined.

(* ------------------------------------------------------------------ *)

Lemma parseTime_no_separator c :
  includes 58 (trim (toStringCell c)) = false ->
  includes 46 (trim (toStringCell c)) = false ->
  parseTime c = None.
Proof.
  intros H58 H46. unfold parseTime.
  destruct (truthy c); cbn [negb]; [|reflexivity].
  destruct (trim (toStringCell c)) as [|x t] eqn:E; [reflexivity|].
  rewrite H58, split_absent by assumption. reflexivity.
Qed.

Lemma digits_no_separator ds sep :
  validDigits ds -> isDigit sep = false ->
  includes sep (trim (showDigits ds)) = false.
Proof.
  intros Hv Hs. rewrite trim_id by (apply showDigits_noSpace, Hv).
  apply includes_showDigits; assumption.
Qed.

(** X3.  A cell that holds digits only, with neither a colon nor a
    period, is not a time: the string, and the whole number up to 9999
    (9 for nine o'clock, say), are both rejected. *)
Theorem parseTime_digits_only :
  (forall ds, validDigits ds -> parseTime (CStr (showDigits ds)) = None)
  /\ (forall n, 0 <= n <= 9999 -> parseTime (CNum (ofZ n)) = None).
Proof.
  split.
  - intros ds Hv.
    apply parseTime_no_separator; cbn [toStringCell];
      apply digits_no_separator; (assumption || reflexivity).
  - intros n Hn.
    apply parseTime_no_separator; cbn [toStringCell];
      rewrite numberToString_small by assumption;
      apply digits_no_separator;
      (apply decimalDigits_valid || reflexivity).
Qed.

Lemma parseTime_digits_only_witness :
  parseTime (CNum (ofZ 9)) = None.
Proof. apply (proj2 parseTime_digits_only). lia. Defined.

(* ================================================================== *)
(** ** More on the calculator and the handler *)

Lemma str_has_colon c p :
  parseTime c = Some p ->
  includes 58 (str p) = true /\ str p <> lit "-" /\ str p <> [].
Proof.
  intros H.
  destruct (parseTime_success c p H) as (p0 & p1 & rest & _ & _ & _ & _ & ->).
  cbn [str]. split.
  - unfold includes. rewrite existsb_app. cbn [app existsb].
    rewrite Z.eqb_refl. cbn [orb]. apply orb_true_r.
  - destruct (padStart0 2 (numberToString (parseInt10 p0))) as [|a x];
      cbn [app]; split; try discriminate.
    intros E. injection E as _ E. destruct x; discriminate.
Qed.

Lemma calculateDailyMetrics_fields env row r :
  calculateDailyMetrics env row = Ok r ->
  let d := parseDate env (rowDate row) in
  let inObj := parseTime (rowInTime row) in
  let outObj := parseTime (rowOutTime row) in
  toISOString d = Ok (date r)
  /\ dayName r = snd (dayPolicy (getDay env d))
  /\ inTime r = match inObj with Some i => str i | None => lit "-" end
  /\ outTime r = match outObj with Some o => str o | None => lit "-" end
  /\ expectedHours r = fst (dayPolicy (getDay env d))
  /\ workedHours r = fst (workedAndLeave (getDay env d) inObj outObj)
  /\ isLeave r = snd (workedAndLeave (getDay env d) inObj outObj).
Proof.
  rewrite calculateDailyMetrics_unfold. cbv zeta.
  destruct (toISOString (parseDate env (rowDate row))) as [iso|e];
    [|discriminate].
  intros H. injection H as <-. cbn. repeat split; reflexivity.
Qed.

(** X4.  The placeholder "-" of a record stands for a punch that did not
    parse and for nothing else: a parsed punch is shown by its display
    string, which always contains a colon and so is never "-"; the two
    cases cannot be confused. *)
Theorem placeholder_means_unparsed env row r :
  calculateDailyMetrics env row = Ok r ->
  (inTime r = lit "-" <-> parseTime (rowInTime row) = None)
  /\ (outTime r = lit "-" <-> parseTime (rowOutTime row) = None)
  /\ (forall p, parseTime (rowInTime row) = Some p ->
               inTime r = str p /\ includes 58 (inTime r) = true)
  /\ (forall p, parseTime (rowOutTime row) = Some p ->
               outTime r = str p /\ includes 58 (outTime r) = true)
  /\ (forall c p, parseTime c = Some p ->
                 includes 58 (str p) = true /\ str p <> lit "-").
Proof.
  intros H.
  destruct (calculateDailyMetrics_fields env row r H)
    as (_ & _ & Hi & Ho & _).
  rewrite Hi, Ho. split; [|split; [|split; [|split]]].
  - destruct (parseTime (rowInTime row)) as [i|] eqn:E.
    + split; [|discriminate]. intros C.
      destruct (str_has_colon _ _ E) as (_ & N & _). contradiction.
    + split; reflexivity.
  - destruct (parseTime (rowOutTime row)) as [o|] eqn:E.
    + split; [|discriminate]. intros C.
      destruct (str_has_colon _ _ E) as (_ & N & _). contradiction.
    + split; reflexivity.
  - intros p E. rewrite E. split; [reflexivity|].
    apply (str_has_colon _ _ E).
  - intros p E. rewrite E. split; [reflexivity|].
    apply (str_has_colon _ _ E).
  - intros c p E. destruct (str_has_colon _ _ E) as (A & B & _).
    split; assumption.
Qed.

Lemma placeholder_means_unparsed_witness :
  exists r,
    calculateDailyMetrics (utcHost 0)
      (mkRow CUndefined (DVal (CStr (lit "2023-10-04")))
             (CStr (lit "-:5")) (CStr (lit "17:30"))) = Ok r
    /\ inTime r = lit "-" /\ outTime r <> lit "-"
    /\ includes 58 (outTime r) = true.
Proof.
  set (row := mkRow CUndefined (DVal (CStr (lit "2023-10-04")))
                    (CStr (lit "-:5")) (CStr (lit "17:30"))).
  destruct (calculateDailyMetrics (utcHost 0) row) as [r|e] eqn:E;
    [|vm_compute in E; discriminate].
  exists r. split; [reflexivity|].
  destruct (placeholder_means_unparsed (utcHost 0) row r E)
    as (Hi & Ho & _ & Hc & _).
  split; [|split].
  - apply Hi. vm_compute. reflexivity.
  - intros C. apply Ho in C. vm_compute in C. discriminate.
  - apply (Hc {| str := lit "17:30"; mins := ofZ 1050 |}).
    vm_compute. reflexivity.
Defined.

(* ------------------------------------------------------------------ *)


Lemma dayPolicy_nonneg di : hasSign false (fst (dayPolicy di)).
Proof.
  unfold dayPolicy. destruct (isDay di 0); [reflexivity|].
  destruct (isDay di 6); reflexivity.
Qed.

Lemma calculateAll_Forall2 env rows : forall rs,
  calculateAll env rows = Ok rs
  <-> Forall2 (fun row r => calculateDailyMetrics env row = Ok r) rows rs.
Proof.
  induction rows as [|row rest IH]; intros rs; cbn [calculateAll].
  - split.
    + intros H. injection H as <-. constructor.
    + intros H. inversion H. reflexivity.
  - destruct (calculateDailyMetrics env row) as [r|e] eqn:Er; cbn [bind].
    + destruct (calculateAll env rest) as [rs'|e] eqn:Ea; cbn [bind].
      * split.
        -- intros H. injection H as <-. constructor; [exact Er|].
           apply IH. reflexivity.
        -- intros H. inversion H as [|? r' ? rs'' Hr Hrs]; subst.
           apply IH in Hrs. congruence.
      * split; [discriminate|].
        intros H. inversion H as [|? r' ? rs'' Hr Hrs]; subst.
        apply IH in Hrs. discriminate.
    + split; [discriminate|].
      intros H. inversion H as [|? r' ? rs'' Hr Hrs]; subst. congruence.
Qed.

(** [POST] on a sheet with at least one row: the records of all the rows,
    accumulated from a state that holds the name of the first row. *)
Lemma POST_cons env row rest :
  POST env (row :: rest)
  = match calculateAll env (row :: rest) with
    | Ok rs =>
        Success
          (summaryOf
             (fold_left accumulate rs
                {| records := []; totalExpected := posZero;
                   totalWorked := posZero; leavesTaken := 0;
                   employeeName :=
                     if truthy (rowEmployeeName row)
                     then toStringCell (rowEmployeeName row)
                     else lit "Unknown Employee" |}))
    | Throws _ => Failure 500 (lit "Internal Server Error")
    end.
Proof.
  unfold POST. cbn [forEach calculateAll]. unfold forEachBody.
  rewrite Z.eqb_refl. cbn [andb].
  destruct (calculateDailyMetrics env row) as [r|e]; cbn [bind];
    [|reflexivity].
  rewrite forEach_later by lia.
  destruct (calculateAll env rest) as [rs|e]; cbn [bind fold_left];
    [|reflexivity].
  destruct (truthy (rowEmployeeName row)); reflexivity.
Qed.

Lemma POST_success env rows s :
  POST env rows = Success s ->
  exists row rest rs,
    rows = row :: rest
    /\ calculateAll env rows = Ok rs
    /\ sRecords s = rs
    /\ sTotalExpected s = sumNumbers (map expectedHours rs)
    /\ sTotalWorked s = sumNumbers (map workedHours rs)
    /\ sLeavesTaken s = countLeaves rs
    /\ sEmployeeName s
       = if truthy (rowEmployeeName row)
         then toStringCell (rowEmployeeName row)
         else lit "Unknown Employee".
Proof.
  destruct rows as [|row rest]; [discriminate|].
  rewrite POST_cons.
  destruct (calculateAll env (row :: rest)) as [rs|e]; [|discriminate].
  intros H. injection H as <-.
  exists row, rest, rs. rewrite fold_accumulate. cbn.
  repeat split; reflexivity.
Qed.




(* ------------------------------------------------------------------ *)

Lemma calculateDailyMetrics_outcome env row :
  match calculateDailyMetrics env row with
  | Ok _ => ~ invalidDate env row
  | Throws _ => invalidDate env row
  end.
Proof.
  rewrite calculateDailyMetrics_unfold. cbv zeta. unfold invalidDate.
  unfold toISOString.
  destruct (timeValue (parseDate env (rowDate row))) as [t|].
  - destruct (civilFromDays (t / msPerDay)) as [[y mo] dd]. discriminate.
  - reflexivity.
Qed.

Lemma calculateAll_outcome env rows :
  match calculateAll env rows with
  | Ok _ => Forall (fun row => ~ invalidDate env row) rows
  | Throws _ => Exists (invalidDate env) rows
  end.
Proof.
  induction rows as [|row rest IH]; cbn [calculateAll]; [constructor|].
  pose proof (calculateDailyMetrics_outcome env row) as Hr.
  destruct (calculateDailyMetrics env row) as [r|e]; cbn [bind].
  - destruct (calculateAll env rest) as [rs|e]; cbn [bind].
    + constructor; assumption.
    + apply Exists_cons_tl. exact IH.
  - apply Exists_cons_hd. exact Hr.
Qed.

(** X6.  What [POST] answers for the decoded rows: status 400 exactly
    for a sheet without rows; status 500 exactly when there are rows and
    the date cell of one of them gives an invalid date; and otherwise a
    summary whose records are, in order, the calculator's records of the
    rows. *)
Theorem POST_outcome env rows :
  match POST env rows with
  | Failure st _ =>
      (st = 400 /\ rows = [])
      \/ (st = 500 /\ rows <> [] /\ Exists (invalidDate env) rows)
  | Success s =>
      rows <> []
      /\ Forall (fun row => ~ invalidDate env row) rows
      /\ Forall2 (fun row r => calculateDailyMetrics env row = Ok r)
                 rows (sRecords s)
  end.
Proof.
  destruct rows as [|row rest]; [left; split; reflexivity|].
  rewrite POST_cons.
  pose proof (calculateAll_outcome env (row :: rest)) as Ho.
  destruct (calculateAll env (row :: rest)) as [rs|e] eqn:Ea.
  - split; [discriminate|]. split; [exact Ho|].
    rewrite fold_accumulate. cbn [sRecords summaryOf records app].
    apply calculateAll_Forall2. exact Ea.
  - right. split; [reflexivity|]. split; [discriminate|exact Ho].
Qed.

(* ------------------------------------------------------------------ *)

(** X7.  The employee name of the summary is read from the first row
    alone: its name cell as a string when that cell is truthy, and
    "Unknown Employee" otherwise; the name cells of later rows are never
    looked at. *)
Theorem employee_name_from_first_row env row rest s :
  POST env (row :: rest) = Success s ->
  sEmployeeName s
  = if truthy (rowEmployeeName row)
    then toStringCell (rowEmployeeName row)
    else lit "Unknown Employee".
Proof.
  intros H.
  destruct (POST_success env _ s H)
    as (row' & rest' & rs & Hrows & _ & _ & _ & _ & _ & Hn).
  injection Hrows as <- _. exact Hn.
Qed.

Lemma employee_name_from_first_row_witness :
  exists s,
    POST (utcHost 0)
      [ mkRow (CStr []) (DVal (CStr (lit "2023-10-04")))
              (CStr (lit "09:00")) (CStr (lit "17:30"));
        mkRow (CStr (lit "Asha")) (DVal (CStr (lit "2023-10-05")))
              (CStr (lit "09:00")) (CStr (lit "17:30")) ] = Success s
    /\ sEmployeeName s = lit "Unknown Employee".
Proof.
  set (r1 := mkRow (CStr []) (DVal (CStr (lit "2023-10-04")))
                   (CStr (lit "09:00")) (CStr (lit "17:30"))).
  set (r2 := mkRow (CStr (lit "Asha")) (DVal (CStr (lit "2023-10-05")))
                   (CStr (lit "09:00")) (CStr (lit "17:30"))).
  destruct (POST (utcHost 0) [r1; r2]) as [s|st msg] eqn:E;
    [|vm_compute in E; discriminate].
  exists s. split; [reflexivity|].
  exact (employee_name_from_first_row (utcHost 0) r1 [r2] s E).
Defined.

(* ------------------------------------------------------------------ *)

Lemma isLeave_leaveRow env row r :
  calculateDailyMetrics env row = Ok r -> isLeave r = leaveRow env row.
Proof.
  intros H.
  destruct (calculateDailyMetrics_fields env row r H)
    as (_ & _ & _ & _ & _ & _ & Hl).
  rewrite Hl. unfold leaveRow, workedAndLeave.
  destruct (negb (isDay _ 0)); [|reflexivity].
  destruct (parseTime (rowInTime row)), (parseTime (rowOutTime row));
    reflexivity.
Qed.

Lemma countLeaves_rows env rows rs :
  Forall2 (fun row r => calculateDailyMetrics env row = Ok r) rows rs ->
  countLeaves rs = Z.of_nat (List.length (filter (leaveRow env) rows)).
Proof.
  unfold countLeaves. intros H. f_equal.
  induction H as [|row r rows rs Hr _ IH]; [reflexivity|].
  cbn [filter]. rewrite (isLeave_leaveRow env row r Hr).
  destruct (leaveRow env row); cbn [List.length]; rewrite IH; reflexivity.
Qed.

(** X8.  The leave count of the summary is the number of rows whose day
    is not a Sunday and of which at least one punch does not parse. *)
Theorem leaves_counted_from_rows env rows s :
  POST env rows = Success s ->
  sLeavesTaken s = Z.of_nat (List.length (filter (leaveRow env) rows)).
Proof.
  intros H.
  destruct (POST_success env rows s H)
    as (row & rest & rs & _ & Hall & _ & _ & _ & Hl & _).
  rewrite Hl. apply countLeaves_rows, calculateAll_Forall2, Hall.
Qed.

Lemma leaves_counted_from_rows_witness :
  exists s,
    POST (utcHost 0)
      [ mkRow CUndefined (DVal (CStr (lit "2023-10-04")))
              (CStr (lit "09:00")) CUndefined;
        mkRow CUndefined (DVal (CStr (lit "2023-10-08")))
              CUndefined CUndefined;
        mkRow CUndefined (DVal (CStr (lit "2023-10-09")))
              (CStr (lit "9")) (CStr (lit "17:30")) ] = Success s
    /\ sLeavesTaken s = 2.
Proof.
  set (rows := [ mkRow CUndefined (DVal (CStr (lit "2023-10-04")))
                       (CStr (lit "09:00")) CUndefined;
                 mkRow CUndefined (DVal (CStr (lit "2023-10-08")))
                       CUndefined CUndefined;
                 mkRow CUndefined (DVal (CStr (lit "2023-10-09")))
                       (CStr (lit "9")) (CStr (lit "17:30")) ]).
  destruct (POST (utcHost 0) rows) as [s|st msg] eqn:E;
    [|vm_compute in E; discriminate].
  exists s. split; [reflexivity|].
  rewrite (leaves_counted_from_rows (utcHost 0) rows s E).
  vm_compute. reflexivity.
Defined.

(* ------------------------------------------------------------------ *)

Lemma serial_safe n : Z.abs (n - 25569) <= 100000000 -> safeInt n.
Proof.
  unfold safeInt. change (2 ^ 53) with 9007199254740992. lia.
Qed.

Lemma serial_timeValue env n :
  Z.abs (n - 25569) <= 100000000 ->
  timeValue (parseDate env (DVal (CNum (ofZ n))))
  = Some ((n - 25569) * msPerDay).
Proof.
  intros H. cbn [parseDate newDate timeValue].
  rewrite serial_exact by (assumption || apply serial_safe, H).
  unfold msPerDay. f_equal. lia.
Qed.

(** X9.  The week day of a whole-number spreadsheet serial [n]: with the
    host's offset from UTC at that midnight written [o], the day index is
    [(n - 1 + floor(o / one day)) mod 7].  On a host at or east of UTC
    (an offset below one day) it is [(n - 1) mod 7], the week day of the
    serial's own calendar date; on a host west of UTC it is
    [(n - 2) mod 7], the week day before, while the date string of the
    record stays that of the serial's calendar date. *)
Theorem serial_week_day env n :
  Z.abs (n - 25569) <= 100000000 ->
  let d := parseDate env (DVal (CNum (ofZ n))) in
  let o := localTZA env ((n - 25569) * msPerDay) in
  getDay env d = Some ((n - 1 + o / msPerDay) mod 7)
  /\ (0 <= o < msPerDay -> getDay env d = Some ((n - 1) mod 7))
  /\ (- msPerDay <= o < 0 -> getDay env d = Some ((n - 2) mod 7))
  /\ toISOString d = toISOString (mkDate (Some ((n - 25569) * msPerDay))).
Proof.
  intros H d o.
  assert (G : getDay env d = Some ((n - 1 + o / msPerDay) mod 7)).
  { unfold getDay, d. rewrite serial_timeValue by assumption.
    fold o. f_equal.
    rewrite Z.div_add_l by (unfold msPerDay; lia).
    replace (n - 25569 + o / msPerDay + 4)
      with (n - 1 + o / msPerDay + (-3652) * 7) by lia.
    apply Z.mod_add. lia. }
  split; [exact G|]. split; [|split].
  - intros Ho. rewrite G. rewrite Z.div_small by exact Ho.
    rewrite Z.add_0_r. reflexivity.
  - intros Ho. rewrite G.
    replace (o / msPerDay) with (-1).
    + do 2 f_equal. lia.
    + apply (Z.div_unique o msPerDay (-1) (o + msPerDay)).
      * left. unfold msPerDay in *. lia.
      * lia.
  - unfold toISOString, d. rewrite serial_timeValue by assumption.
    reflexivity.
Qed.

Lemma serial_week_day_witness :
  getDay (utcHost 0) (parseDate (utcHost 0) (DVal (CNum (ofZ 45200))))
  = Some 0
  /\ getDay {| now := 0; localTZA := fun _ => -18000000;
               dateParse := isoDateParse |}
            (parseDate {| now := 0; localTZA := fun _ => -18000000;
                          dateParse := isoDateParse |}
                       (DVal (CNum (ofZ 45200))))
     = Some 6.
Proof.
  split.
  - destruct (serial_week_day (utcHost 0) 45200) as (_ & H & _).
    + vm_compute. discriminate.
    + apply H. vm_compute. split; [discriminate|reflexivity].
  - destruct (serial_week_day
                {| now := 0; localTZA := fun _ => -18000000;
                   dateParse := isoDateParse |} 45200) as (_ & _ & H & _).
    + vm_compute. discriminate.
    + apply H. vm_compute. split; [discriminate|reflexivity].
Defined.

(* ------------------------------------------------------------------ *)

Lemma parseDateString_nonnumeric env dateVal :
  ~ isNumericCell dateVal ->
  parseDateString env dateVal = parseDate env dateVal.
Proof.
  destruct dateVal as [c|d]; intros Hn; [|reflexivity].
  destruct c; try reflexivity.
  exfalso. apply Hn. eexists. reflexivity.
Qed.

(** X10.  The date helper of the older handler and [parseDate] give the
    same date on every cell that is not a number, and different dates on
    every whole-number serial (within 10^8 days of 25569): the older
    helper reads the number as milliseconds. *)
Theorem parseDateString_against_parseDate env :
  (forall dateVal,
     ~ isNumericCell dateVal ->
     parseDateString env dateVal = parseDate env dateVal)
  /\ (forall n,
        Z.abs (n - 25569) <= 100000000 ->
        timeValue (parseDateString env (DVal (CNum (ofZ n)))) = Some n
        /\ timeValue (parseDate env (DVal (CNum (ofZ n))))
           = Some ((n - 25569) * msPerDay)
        /\ parseDateString env (DVal (CNum (ofZ n)))
           <> parseDate env (DVal (CNum (ofZ n)))).
Proof.
  split.
  - intros dateVal Hn. apply parseDateString_nonnumeric, Hn.
  - intros n H.
    assert (A : timeValue (parseDateString env (DVal (CNum (ofZ n)))) = Some n).
    { cbn [parseDateString newDate timeValue].
      rewrite TimeClip_ofZ by lia. reflexivity. }
    pose proof (serial_timeValue env n H) as B.
    split; [exact A|]. split; [exact B|].
    intros E. rewrite E, B in A. injection A as A.
    unfold msPerDay in A. lia.
Qed.

Lemma parseDateString_against_parseDate_witness :
  parseDateString (utcHost 0) (DVal (CStr (lit "2023-10-01")))
  = parseDate (utcHost 0) (DVal (CStr (lit "2023-10-01")))
  /\ parseDateString (utcHost 0) (DVal (CNum (ofZ 45200)))
     <> parseDate (utcHost 0) (DVal (CNum (ofZ 45200))).
Proof.
  split.
  - apply (proj1 (parseDateString_against_parseDate (utcHost 0))).
    intros [x Hx]. discriminate.
  - apply (proj2 (parseDateString_against_parseDate (utcHost 0)) 45200).
    vm_compute. discriminate.
Defined.

(* ================================================================== *)
(** ** The older handler *)

Lemma Number_eqb_eq x y : Number_eqb x y = true -> x = y.
Proof.
  destruct x as [a| a| |a m e], y as [b| b| |b m' e']; cbn [Number_eqb];
    try discriminate; try reflexivity.
  - intros H. apply Bool.eqb_prop in H. congruence.
  - intros H. apply Bool.eqb_prop in H. congruence.
  - rewrite !andb_true_iff. intros [[H1 H2] H3].
    apply Bool.eqb_prop in H1. apply Pos.eqb_eq in H2. apply Z.eqb_eq in H3.
    congruence.
Qed.

Lemma ofDecimal_small v : 0 <= v <= 99 -> ofDecimal false v 0 = ofZ v.
Proof.
  intros Hv.
  assert (G : forallb (fun n => Number_eqb (ofDecimal false n 0) (ofZ n))
                (map Z.of_nat (seq 0 (Z.to_nat 100))) = true)
    by (vm_compute; reflexivity).
  rewrite forallb_forall in G. apply Number_eqb_eq, G.
  apply in_map_iff. exists (Z.to_nat v). split; [lia|].
  apply in_seq. lia.
Qed.

Lemma StringToNumber_digits ds :
  validDigits ds -> ds <> [] -> digitsValue ds <= 99 ->
  StringToNumber (showDigits ds) = ofZ (digitsValue ds).
Proof.
  intros Hv Hne Hb.
  pose proof (StringToNumber_literal ds None None Hv Hne I I) as L.
  unfold decimalLiteral, literalValue in L. cbn [fst snd List.length] in L.
  rewrite !app_nil_r in L. rewrite L.
  apply ofDecimal_small. split; [|assumption].
  apply digitsValue_nonneg, Hv.
Qed.

Lemma legacyMinutes_clean c H M :
  cleanPunch c H M ->
  legacyMinutes c
  = add (mul (ofZ (digitsValue H)) (ofZ 60)) (ofZ (digitsValue M)).
Proof.
  intros (-> & HvH & HvM & HH & HM & HbH & HbM).
  unfold legacyMinutes. cbn [toStringCell].
  rewrite split_at by (apply includes_showDigits; [assumption|reflexivity]).
  rewrite split_absent by (apply includes_showDigits; [assumption|reflexivity]).
  cbn [map nth_error elementNumber].
  rewrite !StringToNumber_digits by assumption. reflexivity.
Qed.

Lemma parseTime_clean c H M :
  cleanPunch c H M ->
  exists p, parseTime c = Some p
            /\ mins p = add (mul (ofZ (digitsValue H)) (ofZ 60))
                            (ofZ (digitsValue M)).
Proof.
  intros (-> & HvH & HvM & HH & HM & _).
  rewrite (parseTime_digits 58 H M) by auto.
  eexists. split; reflexivity.
Qed.

Lemma cleanPunch_truthy c H M : cleanPunch c H M -> truthy c = true.
Proof.
  intros (-> & _ & _ & HH & _). destruct H; [congruence|reflexivity].
Qed.

Lemma orElse_truthy a b : truthy a = true -> orElse a b = a.
Proof. unfold orElse. intros ->. reflexivity. Qed.

Lemma orElseDate_truthy a b : truthyDate a = true -> orElseDate a b = a.
Proof.
  destruct a as [c|d]; cbn [truthyDate orElseDate]; [|reflexivity].
  intros ->. reflexivity.
Qed.

Lemma calculateDailyMetricsLegacy_unfold env row :
  calculateDailyMetricsLegacy env row
  = let date := parseDateString env
                  (orElseDate (keyDate row) (keyDateLower row)) in
    let dayIndex := getDay env date in
    let inTime := orElse (keyInTime row) (keyInTimeLower row) in
    let outTime := orElse (keyOutTime row) (keyOutTimeLower row) in
    let wl :=
      if negb (isDay dayIndex 0) then
        if negb (truthy inTime) || negb (truthy outTime) then (posZero, true)
        else
          let diff := sub (legacyMinutes outTime) (legacyMinutes inTime) in
          (if gtb diff posZero
           then StringToNumber (toFixed 2 (div diff (ofZ 60)))
           else posZero, false)
      else (posZero, false) in
    match toISOString date with
    | Throws e => Throws e
    | Ok iso =>
        Ok {| legacyDate := iso;
              legacyDayName := snd (dayPolicy dayIndex);
              legacyInTime := orElse inTime (CStr (lit "-"));
              legacyOutTime := orElse outTime (CStr (lit "-"));
              legacyExpectedHours := fst (dayPolicy dayIndex);
              legacyWorkedHours := fst wl;
              legacyIsLeave := snd wl |}
    end.
Proof.
  unfold calculateDailyMetricsLegacy. cbv zeta.
  destruct (dayPolicy _) as [expected name].
  destruct (negb (isDay _ 0)); [|reflexivity].
  destruct (negb (truthy _) || negb (truthy _)); reflexivity.
Qed.

(** X11.  On a row whose date cell is present and not a number and whose
    two punches are written as digits, a colon and digits, the older
    handler computes the same date, day name, expected hours, worked
    hours and leave flag as the current calculator; it shows the punches
    as they were typed. *)
Theorem legacy_agrees_on_clean_punches env row name H1 M1 H2 M2 r :
  truthyDate (keyDate row) = true -> ~ isNumericCell (keyDate row) ->
  cleanPunch (keyInTime row) H1 M1 -> cleanPunch (keyOutTime row) H2 M2 ->
  calculateDailyMetrics env (strictRow name row) = Ok r ->
  exists l,
    calculateDailyMetricsLegacy env row = Ok l
    /\ legacyDate l = date r
    /\ legacyDayName l = dayName r
    /\ legacyExpectedHours l = expectedHours r
    /\ legacyWorkedHours l = workedHours r
    /\ legacyIsLeave l = isLeave r
    /\ legacyInTime l = keyInTime row
    /\ legacyOutTime l = keyOutTime row.
Proof.
  intros Hd Hn Hi Ho Hr.
  destruct (calculateDailyMetrics_fields _ _ _ Hr)
    as (Hiso & Hname & _ & _ & He & Hw & Hl).
  cbn [strictRow rowDate rowInTime rowOutTime] in *.
  rewrite calculateDailyMetricsLegacy_unfold. cbv zeta.
  rewrite (orElseDate_truthy _ _ Hd), (parseDateString_nonnumeric _ _ Hn).
  rewrite Hiso.
  pose proof (cleanPunch_truthy _ _ _ Hi) as Ti.
  pose proof (cleanPunch_truthy _ _ _ Ho) as To.
  rewrite (orElse_truthy _ _ Ti), (orElse_truthy _ _ To).
  rewrite !orElse_truthy by assumption.
  rewrite Ti, To. cbn [negb orb].
  rewrite (legacyMinutes_clean _ _ _ Hi), (legacyMinutes_clean _ _ _ Ho).
  destruct (parseTime_clean _ _ _ Hi) as (pi & Epi & Mi).
  destruct (parseTime_clean _ _ _ Ho) as (po & Epo & Mo).
  rewrite Epi, Epo in Hw, Hl. unfold workedAndLeave in Hw, Hl.
  rewrite Mi, Mo in Hw.
  eexists. split; [reflexivity|].
  cbn [legacyDate legacyDayName legacyExpectedHours legacyWorkedHours
       legacyIsLeave legacyInTime legacyOutTime].
  rewrite Hname, He, Hw, Hl.
  destruct (negb (isDay _ 0)); repeat split; reflexivity.
Qed.

Lemma legacy_agrees_on_clean_punches_witness :
  exists l,
    calculateDailyMetricsLegacy (utcHost 0)
      (mkLooseRow (DVal (CStr (lit "2023-10-04"))) (DVal CUndefined)
                  (CStr (lit "09:00")) CUndefined
                  (CStr (lit "17:30")) CUndefined) = Ok l
    /\ legacyWorkedHours l = StringToNumber (lit "8.5")
    /\ legacyIsLeave l = false.
Proof.
  set (row := mkLooseRow (DVal (CStr (lit "2023-10-04"))) (DVal CUndefined)
                         (CStr (lit "09:00")) CUndefined
                         (CStr (lit "17:30")) CUndefined).
  destruct (calculateDailyMetrics (utcHost 0) (strictRow CUndefined row))
    as [r|e] eqn:E; [|vm_compute in E; discriminate].
  destruct (legacy_agrees_on_clean_punches (utcHost 0) row CUndefined
              [0; 9] [0; 0] [1; 7] [3; 0] r)
    as (l & Hl & _ & _ & _ & Hw & Hv & _).
  - reflexivity.
  - intros [x Hx]. discriminate.
  - repeat split; try discriminate; try (vm_compute; discriminate).
    + repeat constructor; lia.
    + repeat constructor; lia.
  - repeat split; try discriminate; try (vm_compute; discriminate).
    + repeat constructor; lia.
    + repeat constructor; lia.
  - exact E.
  - exists l. split; [exact Hl|]. rewrite Hw, Hv.
    vm_compute in E. injection E as <-. split; reflexivity.
Defined.

(* ------------------------------------------------------------------ *)

Lemma add_NaN_r x : add x NaN = NaN.
Proof. destruct x; reflexivity. Qed.

Lemma sub_NaN_r x : sub x NaN = NaN.
Proof. destruct x; reflexivity. Qed.

Lemma sub_NaN_l x : sub NaN x = NaN.
Proof. destruct x; reflexivity. Qed.

Lemma legacyMinutes_no_colon c :
  includes 58 (toStringCell c) = false -> legacyMinutes c = NaN.
Proof.
  intros H. unfold legacyMinutes. rewrite split_absent by assumption.
  cbn [map nth_error elementNumber]. apply add_NaN_r.
Qed.

(** X12.  The older handler reads a punch only when it has a colon: a
    punch without one (written with a period, say, or as a bare number)
    has no minute and its minutes since midnight are [NaN]; a row with
    two non-empty punches of which one lacks a colon gets 0 worked hours
    and is not marked as a leave. *)
Theorem legacy_needs_colon :
  (forall c, includes 58 (toStringCell c) = false -> legacyMinutes c = NaN)
  /\ (forall env row l,
        calculateDailyMetricsLegacy env row = Ok l ->
        let i := orElse (keyInTime row) (keyInTimeLower row) in
        let o := orElse (keyOutTime row) (keyOutTimeLower row) in
        truthy i = true -> truthy o = true ->
        includes 58 (toStringCell i) = false
        \/ includes 58 (toStringCell o) = false ->
        legacyWorkedHours l = posZero /\ legacyIsLeave l = false).
Proof.
  split; [exact legacyMinutes_no_colon|].
  intros env row l. rewrite calculateDailyMetricsLegacy_unfold. cbv zeta.
  destruct (toISOString _) as [iso|e]; [|discriminate].
  intros E Ti To Hc. injection E as <-.
  cbn [legacyWorkedHours legacyIsLeave].
  rewrite Ti, To. cbn [negb orb].
  destruct (negb (isDay _ 0)); [|split; reflexivity].
  cbn [fst snd]. split; [|reflexivity].
  destruct Hc as [Hc|Hc]; rewrite (legacyMinutes_no_colon _ Hc).
  - rewrite sub_NaN_r. reflexivity.
  - rewrite sub_NaN_l. reflexivity.
Qed.

Lemma legacy_needs_colon_witness :
  exists l,
    calculateDailyMetricsLegacy (utcHost 0)
      (mkLooseRow (DVal (CStr (lit "2023-10-04"))) (DVal CUndefined)
                  (CStr (lit "9.00")) CUndefined
                  (CStr (lit "17.30")) CUndefined) = Ok l
    /\ legacyWorkedHours l = posZero /\ legacyIsLeave l = false.
Proof.
  set (row := mkLooseRow (DVal (CStr (lit "2023-10-04"))) (DVal CUndefined)
                         (CStr (lit "9.00")) CUndefined
                         (CStr (lit "17.30")) CUndefined).
  destruct (calculateDailyMetricsLegacy (utcHost 0) row) as [l|e] eqn:E;
    [|vm_compute in E; discriminate].
  exists l. split; [reflexivity|].
  apply (proj2 legacy_needs_colon (utcHost 0) row l E).
  - reflexivity.
  - reflexivity.
  - left. reflexivity.
Defined.

(* ================================================================== *)
(** ** The handler with persistence *)

Lemma calculateDailyMetricsDb_unfold env row :
  calculateDailyMetricsDb env row
  = let d := parseDate env (rowDate row) in
    let inObj := parseTime (rowInTime row) in
    let outObj := parseTime (rowOutTime row) in
    match toISOString d with
    | Throws e => Throws e
    | Ok iso =>
        Ok {| dbDate := iso;
              dbDateObj := d;
              dbDayName := snd (dayPolicy (getDay env d));
              dbInTime := option_map str inObj;
              dbOutTime := option_map str outObj;
              dbExpectedHours := fst (dayPolicy (getDay env d));
              dbWorkedHours := fst (workedAndLeave (getDay env d) inObj outObj);
              dbIsLeave := snd (workedAndLeave (getDay env d) inObj outObj) |}
    end.
Proof.
  unfold calculateDailyMetricsDb.
  destruct (dayPolicy _) as [expected name].
  destruct (workedAndLeave _ _ _) as [worked leave]. reflexivity.
Qed.

Lemma orDash_str c :
  orDash (option_map str (parseTime c))
  = match parseTime c with Some i => str i | None => lit "-" end.
Proof.
  destruct (parseTime c) as [p|] eqn:E; [|reflexivity].
  destruct (str_has_colon c p E) as (_ & _ & N). cbn [option_map orDash].
  destruct (str p); [congruence|reflexivity].
Qed.

(** The two calculators agree: the one of the handler with persistence
    succeeds exactly when the other does, on corresponding records. *)
Lemma calculateDailyMetricsDb_corresponds env row :
  calculateDailyMetrics env row
  = bind (calculateDailyMetricsDb env row) (fun m => Ok (ofDbMetrics m)).
Proof.
  rewrite calculateDailyMetrics_unfold, calculateDailyMetricsDb_unfold.
  cbv zeta. destruct (toISOString _) as [iso|e]; [|reflexivity].
  cbn [bind]. unfold ofDbMetrics.
  cbn [dbDate dbDayName dbInTime dbOutTime dbExpectedHours dbWorkedHours
       dbIsLeave].
  rewrite !orDash_str. reflexivity.
Qed.

(** X13.  What the handler with persistence stores for a row and then
    maps into its response shows the same day as the record of the
    current calculator: the same date string, worked hours and leave
    flag, the day name as day type, and the punches with [null] turned
    back into "-" (a stored punch is never the empty string, so nothing
    else becomes "-"). *)
Theorem stored_view_round_trip env row m :
  calculateDailyMetricsDb env row = Ok m ->
  calculateDailyMetrics env row = Ok (ofDbMetrics m)
  /\ exists v,
       storedView (createData m) = Ok v
       /\ viewDate v = dbDate m
       /\ viewInTime v = inTime (ofDbMetrics m)
       /\ viewOutTime v = outTime (ofDbMetrics m)
       /\ viewWorkedHours v = workedHours (ofDbMetrics m)
       /\ viewIsLeave v = isLeave (ofDbMetrics m)
       /\ viewDayType v = dayNameString (dayName (ofDbMetrics m))
       /\ (dbInTime m = None <-> parseTime (rowInTime row) = None)
       /\ (dbOutTime m = None <-> parseTime (rowOutTime row) = None).
Proof.
  intros H. split.
  - rewrite calculateDailyMetricsDb_corresponds, H. reflexivity.
  - rewrite calculateDailyMetricsDb_unfold in H. cbv zeta in H.
    destruct (toISOString (parseDate env (rowDate row))) as [iso|e] eqn:E;
      [|discriminate].
    injection H as <-. unfold storedView, createData.
    cbn [arDate dbDateObj]. rewrite E. cbn [bind].
    eexists. split; [reflexivity|]. cbn.
    repeat split; try reflexivity; try discriminate;
      destruct (parseTime _); (discriminate || reflexivity).
Qed.

Lemma stored_view_round_trip_witness :
  exists m v,
    calculateDailyMetricsDb (utcHost 0)
      (mkRow CUndefined (DVal (CStr (lit "2023-10-04")))
             (CStr (lit "9:00")) CUndefined) = Ok m
    /\ storedView (createData m) = Ok v
    /\ dbOutTime m = None /\ viewOutTime v = lit "-"
    /\ viewInTime v = lit "09:00".
Proof.
  set (row := mkRow CUndefined (DVal (CStr (lit "2023-10-04")))
                    (CStr (lit "9:00")) CUndefined).
  destruct (calculateDailyMetricsDb (utcHost 0) row) as [m|e] eqn:E;
    [|vm_compute in E; discriminate].
  destruct (stored_view_round_trip (utcHost 0) row m E)
    as (_ & v & Hv & _ & Hi & Ho & _ & _ & _ & _ & Hn).
  exists m, v. split; [reflexivity|]. split; [exact Hv|].
  rewrite Hi, Ho. vm_compute in E. injection E as <-.
  repeat split; reflexivity.
Defined.

(* ------------------------------------------------------------------ *)

Lemma add_posZero_r x : hasSign false x -> add x posZero = x.
Proof.
  destruct x as [s|s| |s m e]; cbn [hasSign]; intros H;
    try contradiction; subst; reflexivity.
Qed.

Lemma storedTotalsStep_policy di e w l (ms : DbMetrics) :
  (dbExpectedHours ms, dbDayName ms) = dayPolicy di ->
  hasSign false e ->
  storedTotalsStep (e, w, l) (createData ms)
  = (add e (dbExpectedHours ms), add w (dbWorkedHours ms),
     if dbIsLeave ms then l + 1 else l).
Proof.
  intros Hp He. unfold storedTotalsStep, createData.
  cbn [arDayType arWorkedHours arIsLeave].
  unfold dayPolicy in Hp.
  destruct (isDay di 0); [|destruct (isDay di 6)];
    injection Hp as -> ->; cbn [dayNameString].
  - change (jsstring_eqb (lit "Sunday") (lit "Weekday")) with false.
    change (jsstring_eqb (lit "Sunday") (lit "Saturday")) with false.
    cbv iota. change SUNDAY_HOURS with posZero.
    rewrite add_posZero_r by assumption. reflexivity.
  - change (jsstring_eqb (lit "Saturday") (lit "Weekday")) with false.
    change (jsstring_eqb (lit "Saturday") (lit "Saturday")) with true.
    cbv iota. reflexivity.
  - change (jsstring_eqb (lit "Weekday") (lit "Weekday")) with true.
    change (jsstring_eqb (lit "Weekday") (lit "Saturday")) with false.
    cbv iota. reflexivity.
Qed.

Lemma calculateDailyMetricsDb_policy env row m :
  calculateDailyMetricsDb env row = Ok m ->
  exists di, (dbExpectedHours m, dbDayName m) = dayPolicy di.
Proof.
  rewrite calculateDailyMetricsDb_unfold. cbv zeta.
  destruct (toISOString _) as [iso|e]; [|discriminate].
  intros H. injection H as <-.
  exists (getDay env (parseDate env (rowDate row))).
  cbn [dbExpectedHours dbDayName]. destruct (dayPolicy _). reflexivity.
Qed.

Lemma storedTotals_fold env rows ms :
  Forall2 (fun row m => calculateDailyMetricsDb env row = Ok m) rows ms ->
  forall e w l,
    hasSign false e ->
    fold_left storedTotalsStep (map createData ms) (e, w, l)
    = (fold_left add (map dbExpectedHours ms) e,
       fold_left add (map dbWorkedHours ms) w,
       l + Z.of_nat (List.length (filter dbIsLeave ms))).
Proof.
  induction 1 as [|row m rows ms Hm _ IH]; intros e w l He;
    cbn [map fold_left filter].
  - cbn [List.length]. rewrite Z.add_0_r. reflexivity.
  - destruct (calculateDailyMetricsDb_policy env row m Hm) as [di Hp].
    rewrite (storedTotalsStep_policy di) by assumption.
    rewrite IH.
    + destruct (dbIsLeave m); cbn [List.length]; f_equal; lia.
    + apply add_nonneg; [assumption|].
      apply (f_equal fst) in Hp. cbn [fst] in Hp. rewrite Hp.
      apply dayPolicy_nonneg.
Qed.

Lemma processRecords_Forall2 env rows : forall ms,
  processRecords env rows = Ok ms ->
  Forall2 (fun row m => calculateDailyMetricsDb env row = Ok m) rows ms.
Proof.
  induction rows as [|row rest IH]; intros ms; cbn [processRecords].
  - intros H. injection H as <-. constructor.
  - destruct (calculateDailyMetricsDb env row) as [m|e] eqn:Em; cbn [bind];
      [|discriminate].
    destruct (processRecords env rest) as [ms'|e]; cbn [bind];
      [|discriminate].
    intros H. injection H as <-. constructor; [exact Em|].
    apply IH. reflexivity.
Qed.

Lemma calculateDailyMetricsDb_date env row m :
  calculateDailyMetricsDb env row = Ok m ->
  timeValue (dbDateObj m) = Some (rowMs env row).
Proof.
  rewrite calculateDailyMetricsDb_unfold. cbv zeta. unfold toISOString, rowMs.
  destruct (timeValue (parseDate env (rowDate row))) as [t|] eqn:E;
    [|discriminate].
  destruct (civilFromDays (t / msPerDay)) as [[y mo] dd].
  intros H. injection H as <-. cbn [dbDateObj]. exact E.
Qed.

Lemma increasing_head a l :
  increasing (a :: l) = true -> Forall (fun b => a < b) l /\ increasing l = true.
Proof.
  revert a. induction l as [|b l IH]; intros a H; [split; [constructor|reflexivity]|].
  cbn [increasing] in H. fold (increasing (b :: l)) in H.
  apply andb_true_iff in H. destruct H as [Hab Hl].
  apply Z.ltb_lt in Hab. split; [|exact Hl].
  constructor; [exact Hab|].
  destruct (IH b Hl) as [F _].
  eapply Forall_impl; [|exact F]. cbv beta. intros c Hc. lia.
Qed.

Lemma upsert_fresh store m :
  Forall (fun r => sameDate (arDate r) (dbDateObj m) = false) store ->
  upsert store m = store ++ [createData m].
Proof.
  induction 1 as [|r store Hr _ IH]; [reflexivity|].
  cbn [upsert app]. rewrite Hr, IH. reflexivity.
Qed.

(** Saving records of ascending dates, all later than the stored ones,
    appends them in order. *)
Lemma saveAll_ascending ts : forall ms store,
  map (fun m => timeValue (dbDateObj m)) ms = map Some ts ->
  increasing ts = true ->
  Forall (fun r => exists t, timeValue (arDate r) = Some t
                             /\ Forall (fun u => t < u) ts) store ->
  saveAll store ms = store ++ map createData ms.
Proof.
  unfold saveAll.
  induction ts as [|t ts IH]; intros ms store Hm Hi Hs;
    destruct ms as [|m ms]; try discriminate.
  - cbn. rewrite app_nil_r. reflexivity.
  - cbn [map] in Hm. injection Hm as Ht Hm.
    destruct (increasing_head _ _ Hi) as [Hlt Hi'].
    cbn [fold_left map]. rewrite upsert_fresh.
    + rewrite (IH ms (store ++ [createData m]) Hm Hi').
      * rewrite <- app_assoc. reflexivity.
      * apply Forall_app. split.
        -- eapply Forall_impl; [|exact Hs]. cbv beta.
           intros r (u & Hu & Hall). exists u. split; [exact Hu|].
           inversion Hall; assumption.
        -- constructor; [|constructor].
           exists t. split; [exact Ht|exact Hlt].
    + eapply Forall_impl; [|exact Hs]. cbv beta.
      intros r (u & Hu & Hall). unfold sameDate. rewrite Hu, Ht.
      apply Z.eqb_neq. inversion Hall; subst. lia.
Qed.

(** Records of ascending dates come back from the store in the same
    order. *)
Lemma findMany_ascending ts : forall l,
  map (fun r => timeValue (arDate r)) l = map Some ts ->
  increasing ts = true ->
  findMany l = l.
Proof.
  unfold findMany.
  induction ts as [|t ts IH]; intros l Hl Hi; destruct l as [|r l];
    try discriminate; [reflexivity|].
  cbn [map] in Hl. injection Hl as Ht Hl.
  destruct (increasing_head _ _ Hi) as [Hlt Hi'].
  cbn [fold_right]. rewrite (IH l Hl Hi').
  destruct l as [|x l']; [reflexivity|].
  destruct ts as [|u ts']; [discriminate|].
  cbn [map] in Hl. injection Hl as Hx _.
  cbn [insertByDate]. unfold dateBefore. rewrite Ht, Hx.
  inversion Hlt as [|? ? Htu _]; subst.
  apply Z.ltb_lt in Htu. rewrite Htu. reflexivity.
Qed.

Lemma processed_dates env rows ms :
  Forall2 (fun row m => calculateDailyMetricsDb env row = Ok m) rows ms ->
  map (fun m => timeValue (dbDateObj m)) ms = map Some (map (rowMs env) rows).
Proof.
  induction 1 as [|row m rows ms Hm _ IH]; [reflexivity|].
  cbn [map]. rewrite IH, (calculateDailyMetricsDb_date env row m Hm).
  reflexivity.
Qed.

Lemma processed_corresponds env rows ms :
  Forall2 (fun row m => calculateDailyMetricsDb env row = Ok m) rows ms ->
  calculateAll env rows = Ok (map ofDbMetrics ms).
Proof.
  induction 1 as [|row m rows ms Hm _ IH]; [reflexivity|].
  cbn [calculateAll map].
  rewrite calculateDailyMetricsDb_corresponds, Hm, IH. reflexivity.
Qed.

Lemma leaves_correspond ms :
  Z.of_nat (List.length (filter dbIsLeave ms))
  = countLeaves (map ofDbMetrics ms).
Proof.
  unfold countLeaves. f_equal.
  induction ms as [|m ms IH]; [reflexivity|].
  cbn [map filter]. unfold ofDbMetrics at 1. cbn [isLeave].
  destruct (dbIsLeave m); cbn [List.length]; rewrite IH; reflexivity.
Qed.

(** X14.  The totals of the handler with persistence.  For an employee
    without stored records and rows whose dates are distinct and in
    ascending order (the store gives the records back ordered by date),
    the totals that handler recomputes from the stored day types (8.5
    for a "Weekday", 4.0 for a "Saturday", nothing otherwise) are the
    totals the current handler returns for the same rows: the same
    expected hours, worked hours and leave count. *)
Theorem stored_totals_match env rows t :
  totalsAfterSaving env [] rows = Ok t ->
  rows <> [] -> datesIncrease env rows ->
  exists s,
    POST env rows = Success s
    /\ t = (sTotalExpected s, sTotalWorked s, sLeavesTaken s).
Proof.
  unfold totalsAfterSaving, datesIncrease. intros H Hne Hi.
  destruct (processRecords env rows) as [ms|e] eqn:Ep; cbn [bind] in H;
    [|discriminate].
  injection H as <-.
  pose proof (processRecords_Forall2 env rows ms Ep) as F.
  pose proof (processed_dates env rows ms F) as Hd.
  rewrite (saveAll_ascending (map (rowMs env) rows) ms [] Hd Hi)
    by constructor.
  cbn [app].
  rewrite (findMany_ascending (map (rowMs env) rows));
    [|rewrite map_map; exact Hd|exact Hi].
  unfold storedTotals.
  rewrite (storedTotals_fold env rows ms F) by reflexivity.
  destruct (POST_totals env rows (map ofDbMetrics ms) Hne
              (processed_corresponds env rows ms F)) as (s & Hs & Ht).
  exists s. split; [exact Hs|].
  pose proof (f_equal (fun x => fst (fst (fst (fst x)))) Ht) as He.
  pose proof (f_equal (fun x => snd (fst (fst (fst x)))) Ht) as Hw.
  pose proof (f_equal (fun x => snd (fst (fst x))) Ht) as Hl.
  cbn [totalsOf fst snd] in He, Hw, Hl.
  rewrite He, Hw, Hl. unfold aggregate. rewrite fold_accumulate.
  cbn [summaryOf sTotalExpected sTotalWorked sLeavesTaken totalExpected
       totalWorked leavesTaken initialTotals].
  rewrite !map_map, leaves_correspond. reflexivity.
Qed.

Lemma stored_totals_match_witness :
  totalsAfterSaving (utcHost 0) []
    [ mkRow CUndefined (DVal (CStr (lit "2023-10-04")))
            (CStr (lit "09:00")) (CStr (lit "17:30"));
      mkRow CUndefined (DVal (CStr (lit "2023-10-07")))
            (CStr (lit "09:00")) (CStr (lit "11:00"));
      mkRow CUndefined (DVal (CStr (lit "2023-10-08")))
            CUndefined CUndefined ]
  = Ok (StringToNumber (lit "12.5"), StringToNumber (lit "10.5"), 0).
Proof.
  set (rows := [ mkRow CUndefined (DVal (CStr (lit "2023-10-04")))
                       (CStr (lit "09:00")) (CStr (lit "17:30"));
                 mkRow CUndefined (DVal (CStr (lit "2023-10-07")))
                       (CStr (lit "09:00")) (CStr (lit "11:00"));
                 mkRow CUndefined (DVal (CStr (lit "2023-10-08")))
                       CUndefined CUndefined ]).
  destruct (totalsAfterSaving (utcHost 0) [] rows) as [t|e] eqn:E;
    [|vm_compute in E; discriminate].
  destruct (stored_totals_match (utcHost 0) rows t E) as (s & Hs & ->).
  - discriminate.
  - vm_compute. reflexivity.
  - vm_compute in Hs. injection Hs as <-. reflexivity.
Defined.

(* ================================================================== *)
(** ** The dashboard *)


Lemma doy_range doe :
  0 <= doe < 146097 ->
  let yoe := (doe - doe / 1460 + doe / 36524 - doe / 146096) / 365 in
  let doy := doe - (365 * yoe + yoe / 4 - yoe / 100) in
  0 <= doy <= 365.
Proof.
  intros H yoe doy. unfold doy, yoe. clear doy yoe.
  Z.to_euclidean_division_equations; lia.
Qed.

Lemma civil_month_range days :
  1 <= snd (fst (civilFromDays days)) <= 12.
Proof.
  unfold civilFromDays. cbv zeta. cbn [fst snd].
  set (doe := days + 719468 - (days + 719468) / 146097 * 146097).
  assert (Hdoe : 0 <= doe < 146097).
  { unfold doe. pose proof (Z.mod_pos_bound (days + 719468) 146097).
    rewrite Z.mod_eq in H by lia. lia. }
  pose proof (doy_range doe Hdoe) as Hdoy. cbv zeta in Hdoy.
  set (doy := doe - (365 * ((doe - doe / 1460 + doe / 36524 - doe / 146096) / 365)
                     + (doe - doe / 1460 + doe / 36524 - doe / 146096) / 365 / 4
                     - (doe - doe / 1460 + doe / 36524 - doe / 146096) / 365 / 100))
    in *.
  assert (Hmp : 0 <= (5 * doy + 2) / 153 <= 11).
  { split.
    - apply Z.div_pos; lia.
    - assert ((5 * doy + 2) / 153 < 12); [|lia].
      apply Z.div_lt_upper_bound; lia. }
  destruct (Z.ltb_spec ((5 * doy + 2) / 153) 10); lia.
Qed.

Lemma lsDigits_length fuel : forall n k,
  0 <= n < 10 ^ Z.of_nat k -> (1 <= k)%nat ->
  (List.length (lsDigits fuel n) <= k)%nat.
Proof.
  induction fuel as [|f IH]; intros n k Hn Hk; cbn [lsDigits List.length];
    [lia|].
  destruct (Z.ltb_spec n 10) as [L|L]; cbn [List.length]; [lia|].
  destruct k as [|k]; [lia|].
  rewrite Nat2Z.inj_succ, Z.pow_succ_r in Hn by lia.
  assert (Hk' : (1 <= k)%nat).
  { destruct k; [|lia]. cbn in Hn. lia. }
  apply le_n_S, IH; [|exact Hk'].
  split; [apply Z.div_pos; lia|].
  apply Z.div_lt_upper_bound; lia.
Qed.

Lemma pad4_small y :
  0 <= y <= 9999 ->
  pad 4 y = [digitChar (y / 1000); digitChar (y / 100 mod 10);
             digitChar (y / 10 mod 10); digitChar (y mod 10)].
Proof.
  intros Hy. unfold pad, showNat. fold (showDigits (decimalDigits y)).
  rewrite padStart0_showDigits.
  set (D := repeat 0 (4 - List.length (decimalDigits y)) ++ decimalDigits y).
  assert (HL : (List.length (decimalDigits y) <= 4)%nat).
  { unfold decimalDigits. rewrite length_rev.
    apply lsDigits_length; [|lia]. change (10 ^ Z.of_nat 4) with 10000. lia. }
  assert (HD : List.length D = 4%nat).
  { unfold D. rewrite length_app, repeat_length. lia. }
  assert (HV : validDigits D).
  { apply validDigits_app; [apply validDigits_repeat0|apply decimalDigits_valid]. }
  assert (HW : digitsValue D = y).
  { unfold D. rewrite digitsValue_zeros. apply decimalDigits_value. lia. }
  destruct D as [|a [|b [|c [|d [|e D']]]]]; try discriminate HD.
  inversion HV as [|? ? Ha HV1]; subst.
  inversion HV1 as [|? ? Hb HV2]; subst.
  inversion HV2 as [|? ? Hc HV3]; subst.
  inversion HV3 as [|? ? Hd _]; subst.
  unfold digitsValue. cbn [fold_left showDigits map].
  set (y := 10 * (10 * (10 * (10 * 0 + a) + b) + c) + d) in *.
  assert (E : y = 1000 * a + 100 * b + 10 * c + d) by (unfold y; lia).
  clearbody y. clear HL HD HV HV1 HV2 HV3.
  assert (A : y / 1000 = a)
    by (symmetry; apply (Z.div_unique y 1000 a (100 * b + 10 * c + d)); lia).
  assert (B : y / 100 = 10 * a + b)
    by (symmetry; apply (Z.div_unique y 100 (10 * a + b) (10 * c + d)); lia).
  assert (C : y / 10 = 100 * a + 10 * b + c)
    by (symmetry; apply (Z.div_unique y 10 (100 * a + 10 * b + c) d); lia).
  assert (B' : y / 100 mod 10 = b)
    by (rewrite B; symmetry; apply (Z.mod_unique _ 10 a b); lia).
  assert (C' : y / 10 mod 10 = c)
    by (rewrite C; symmetry; apply (Z.mod_unique _ 10 (10 * a + b) c); lia).
  assert (D' : y mod 10 = d)
    by (symmetry; apply (Z.mod_unique y 10 (100 * a + 10 * b + c) d); lia).
  rewrite A, B', C', D'. reflexivity.
Qed.

Lemma four_digits_eq y y' :
  0 <= y <= 9999 -> 0 <= y' <= 9999 ->
  (y' / 1000 = y / 1000 /\ y' / 100 mod 10 = y / 100 mod 10
   /\ y' / 10 mod 10 = y / 10 mod 10 /\ y' mod 10 = y mod 10)
  <-> y' = y.
Proof.
  intros Hy Hy'. split; [|intros ->; repeat split].
  intros (A & B & C & D).
  pose proof (Z.div_mod y 10 ltac:(lia)).
  pose proof (Z.div_mod y' 10 ltac:(lia)).
  pose proof (Z.div_mod (y / 10) 10 ltac:(lia)).
  pose proof (Z.div_mod (y' / 10) 10 ltac:(lia)).
  pose proof (Z.div_mod (y / 100) 10 ltac:(lia)).
  pose proof (Z.div_mod (y' / 100) 10 ltac:(lia)).
  rewrite !Z.div_div in * by lia.
  change (10 * 10) with 100 in *. change (100 * 10) with 1000 in *.
  lia.
Qed.

Lemma two_digits_eq m m' :
  0 <= m <= 99 -> 0 <= m' <= 99 ->
  (m' / 10 = m / 10 /\ m' mod 10 = m mod 10) <-> m' = m.
Proof.
  intros Hm Hm'. split; [|intros ->; split; reflexivity].
  intros (A & B).
  pose proof (Z.div_mod m 10 ltac:(lia)).
  pose proof (Z.div_mod m' 10 ltac:(lia)).
  lia.
Qed.

Lemma digitChar_eqb a b : (digitChar a =? digitChar b) = (a =? b).
Proof.
  unfold digitChar. destruct (Z.eqb_spec a b) as [->|N].
  - apply Z.eqb_refl.
  - apply Z.eqb_neq. lia.
Qed.

(** The test of the month filter on an ISO date string. *)
Lemma startsWith_month t y m iso :
  0 <= y <= 9999 -> 1 <= m <= 12 ->
  toISOString (mkDate (Some t)) = Ok iso ->
  startsWith iso (monthString y m)
  = (let '(y', m') := utcYearMonth t in (y' =? y) && (m' =? m)).
Proof.
  intros Hy Hm. unfold toISOString, utcYearMonth. cbn [timeValue].
  pose proof (civil_month_range (t / msPerDay)) as Hmo.
  destruct (civilFromDays (t / msPerDay)) as [[y' mo] dd].
  cbn [fst snd] in Hmo. intros E. injection E as <-.
  unfold monthString. rewrite (pad4_small y) by assumption.
  change (pad 2 m) with (padStart0 2 (showNat m)).
  rewrite (pad2_small m) by lia.
  change (pad 2 mo) with (padStart0 2 (showNat mo)).
  rewrite (pad2_small mo) by lia.
  destruct ((0 <=? y') && (y' <=? 9999)) eqn:R.
  - apply andb_true_iff in R. destruct R as [R1 R2].
    apply Z.leb_le in R1. apply Z.leb_le in R2.
    rewrite (pad4_small y') by lia.
    cbn [app startsWith]. rewrite !digitChar_eqb, Z.eqb_refl.
    cbn [andb]. rewrite andb_true_r.
    apply Bool.eq_iff_eq_true.
    rewrite !andb_true_iff, !Z.eqb_eq.
    rewrite <- (four_digits_eq y y') by lia.
    rewrite <- (two_digits_eq m mo) by lia.
    tauto.
  - assert (N : (y' =? y) = false).
    { apply Z.eqb_neq. intros ->.
      assert ((0 <=? y) && (y <=? 9999) = true); [|congruence].
      apply andb_true_iff. split; apply Z.leb_le; lia. }
    rewrite N. cbn [andb].
    assert (D : 0 <= y / 1000) by (apply Z.div_pos; lia).
    destruct (y' <? 0); cbn [app startsWith].
    + replace (45 =? digitChar (y / 1000)) with false; [reflexivity|].
      symmetry. apply Z.eqb_neq. unfold digitChar. lia.
    + replace (43 =? digitChar (y / 1000)) with false; [reflexivity|].
      symmetry. apply Z.eqb_neq. unfold digitChar. lia.
Qed.

Lemma monthString_nonempty y m :
  0 <= y <= 9999 -> exists c s, monthString y m = c :: s.
Proof.
  intros Hy. unfold monthString. rewrite pad4_small by assumption.
  eexists. eexists. reflexivity.
Qed.

Lemma month_test env y m row r :
  0 <= y <= 9999 -> 1 <= m <= 12 ->
  calculateDailyMetrics env row = Ok r ->
  startsWith (date r) (monthString y m) = rowInMonth env y m row.
Proof.
  intros Hy Hm H.
  destruct (calculateDailyMetrics_fields env row r H) as (Hiso & _).
  cbv zeta in Hiso. unfold rowInMonth.
  destruct (parseDate env (rowDate row)) as [[t|]]; cbn [timeValue].
  - apply startsWith_month; assumption.
  - discriminate.
Qed.

(** X16.  The month filter of the dashboard selects the records of the
    rows whose date falls, in UTC, in the selected month (a year from 0
    to 9999): the filtered records are the calculator's records of those
    rows, in order.  With no month selected every record is kept. *)
Theorem month_filter env rows s y m :
  POST env rows = Success s ->
  0 <= y <= 9999 -> 1 <= m <= 12 ->
  calculateAll env (filter (rowInMonth env y m) rows)
  = Ok (filteredRecords (sRecords s) (monthString y m))
  /\ filteredRecords (sRecords s) [] = sRecords s.
Proof.
  intros H Hy Hm.
  destruct (POST_success env rows s H)
    as (row & rest & rs & _ & Hall & -> & _).
  apply calculateAll_Forall2 in Hall. clear H row rest.
  split.
  - apply calculateAll_Forall2. unfold filteredRecords.
    destruct (monthString_nonempty y m Hy) as (c & ms & E).
    assert (F : filter (fun r => match monthString y m with
                                 | [] => true
                                 | _ :: _ => startsWith (date r) (monthString y m)
                                 end) rs
                = filter (fun r => startsWith (date r) (monthString y m)) rs).
    { rewrite E. reflexivity. }
    rewrite F. clear F E.
    induction Hall as [|row r rows rs Hr _ IH]; [constructor|].
    cbn [filter]. rewrite (month_test env y m row r Hy Hm Hr).
    destruct (rowInMonth env y m row); [constructor; assumption|exact IH].
  - unfold filteredRecords. clear Hall.
    induction rs as [|r rs' IH]; [reflexivity|].
    cbn [filter]. rewrite IH. reflexivity.
Qed.

Lemma month_filter_witness :
  exists s r,
    POST (utcHost 0)
      [ mkRow CUndefined (DVal (CStr (lit "2023-10-04")))
              (CStr (lit "09:00")) (CStr (lit "17:30"));
        mkRow CUndefined (DVal (CStr (lit "2023-11-06")))
              (CStr (lit "09:00")) (CStr (lit "17:30")) ] = Success s
    /\ filteredRecords (sRecords s) (lit "2023-11") = [r]
    /\ calculateDailyMetrics (utcHost 0)
         (mkRow CUndefined (DVal (CStr (lit "2023-11-06")))
                (CStr (lit "09:00")) (CStr (lit "17:30"))) = Ok r.
Proof.
  set (r1 := mkRow CUndefined (DVal (CStr (lit "2023-10-04")))
                   (CStr (lit "09:00")) (CStr (lit "17:30"))).
  set (r2 := mkRow CUndefined (DVal (CStr (lit "2023-11-06")))
                   (CStr (lit "09:00")) (CStr (lit "17:30"))).
  destruct (POST (utcHost 0) [r1; r2]) as [s|st msg] eqn:E;
    [|vm_compute in E; discriminate].
  destruct (month_filter (utcHost 0) [r1; r2] s 2023 11 E) as [H _];
    [lia|lia|].
  change (monthString 2023 11) with (lit "2023-11") in H.
  change (filter (rowInMonth (utcHost 0) 2023 11) [r1; r2]) with [r2] in H.
  cbn [calculateAll] in H.
  destruct (calculateDailyMetrics (utcHost 0) r2) as [r|e] eqn:E2;
    [|discriminate].
  cbn [bind] in H. injection H as H.
  exists s, r. split; [reflexivity|]. split; [symmetry; exact H|reflexivity].
Defined.

(* ================================================================== *)
(** ** Times of the day *)

Lemma display_digits h :
  0 <= h <= 9999 ->
  exists D,
    padStart0 2 (numberToString (ofZ h)) = showDigits D
    /\ validDigits D /\ D <> [] /\ digitsValue D = h.
Proof.
  intros Hh. rewrite numberToString_small by assumption.
  unfold showNat. fold (showDigits (decimalDigits h)).
  rewrite padStart0_showDigits.
  exists (repeat 0 (2 - List.length (decimalDigits h)) ++ decimalDigits h).
  split; [reflexivity|]. split; [|split].
  - apply validDigits_app; [apply validDigits_repeat0|apply decimalDigits_valid].
  - pose proof (decimalDigits_nonempty h) as N.
    destruct (decimalDigits h); [congruence|].
    destruct (repeat 0 _); discriminate.
  - rewrite digitsValue_zeros. apply decimalDigits_value. lia.
Qed.

(** X17.  The display string of a parsed time reads back as the same
    time: for an hour and a minute written in digits (each below 10000,
    separated by a colon or a period), parsing the display gives the
    same display and the same minutes since midnight. *)
Theorem display_reparses sep H M p :
  sep = 58 \/ sep = 46 ->
  validDigits H -> validDigits M -> H <> [] -> M <> [] ->
  digitsValue H <= 9999 -> digitsValue M <= 9999 ->
  parseTime (CStr (showDigits H ++ sep :: showDigits M)) = Some p ->
  parseTime (CStr (str p)) = Some p.
Proof.
  intros Hs HvH HvM HH HM HbH HbM.
  rewrite (parseTime_digits sep H M) by assumption.
  intros E. injection E as <-. cbn [str].
  pose proof (digitsValue_nonneg H HvH) as H0.
  pose proof (digitsValue_nonneg M HvM) as M0.
  destruct (display_digits (digitsValue H)) as (DH & EH & VH & NH & WH);
    [lia|].
  destruct (display_digits (digitsValue M)) as (DM & EM & VM & NM & WM);
    [lia|].
  rewrite EH, EM. cbn [app].
  rewrite (parseTime_digits 58 DH DM) by auto.
  rewrite WH, WM, EH, EM. reflexivity.
Qed.

Lemma display_reparses_witness :
  parseTime (CStr (lit "09:05"))
  = Some {| str := lit "09:05"; mins := ofZ 545 |}.
Proof.
  assert (E : parseTime (CStr (showDigits [9] ++ 46 :: showDigits [5]))
              = Some {| str := lit "09:05"; mins := ofZ 545 |})
    by (vm_compute; reflexivity).
  apply (display_reparses 46 [9] [5]) in E.
  - exact E.
  - right. reflexivity.
  - repeat constructor; lia.
  - repeat constructor; lia.
  - discriminate.
  - discriminate.
  - vm_compute. discriminate.
  - vm_compute. discriminate.
Defined.

(* ------------------------------------------------------------------ *)

Lemma positive_minutes d :
  -1439 <= d <= 1439 -> gtb (ofZ d) posZero = (0 <? d).
Proof.
  intros Hd.
  assert (G : forallb (fun d => Bool.eqb (gtb (ofZ d) posZero) (0 <? d))
                (map (fun k => Z.of_nat k - 1439) (seq 0 2879)) = true)
    by (vm_compute; reflexivity).
  rewrite forallb_forall in G. apply Bool.eqb_prop, G.
  apply in_map_iff. exists (Z.to_nat (d + 1439)). split; [lia|].
  apply in_seq. lia.
Qed.

Lemma hours_of_minutes d :
  1 <= d <= 1439 ->
  StringToNumber (toFixed 2 (div (ofZ d) (ofZ 60)))
  = ofDecimal false ((10 * d + 3) / 6) (-2).
Proof.
  intros Hd.
  assert (G : forallb
                (fun d => Number_eqb
                            (StringToNumber (toFixed 2 (div (ofZ d) (ofZ 60))))
                            (ofDecimal false ((10 * d + 3) / 6) (-2)))
                (map (fun k => Z.of_nat k + 1) (seq 0 1439)) = true)
    by (vm_compute; reflexivity).
  rewrite forallb_forall in G. apply Number_eqb_eq, G.
  apply in_map_iff. exists (Z.to_nat (d - 1)). split; [lia|].
  apply in_seq. lia.
Qed.

Lemma mins_of_day H M :
  validDigits H -> validDigits M ->
  digitsValue H <= 23 -> digitsValue M <= 59 ->
  add (mul (ofZ (digitsValue H)) (ofZ 60)) (ofZ (digitsValue M))
  = ofZ (60 * digitsValue H + digitsValue M)
  /\ 0 <= 60 * digitsValue H + digitsValue M <= 1439.
Proof.
  intros HvH HvM HbH HbM.
  pose proof (digitsValue_nonneg H HvH). pose proof (digitsValue_nonneg M HvM).
  split; [|lia].
  apply mins_exact; try assumption.
  change (2 ^ 53) with 9007199254740992. lia.
Qed.

(** X18.  The worked hours of a day in closed form.  On a day that is
    not a Sunday, with check-in and check-out written as digits, a colon
    and digits within the day (hour up to 23, minute up to 59) and [d]
    the minutes from check-in to check-out: the worked hours are 0 when
    [d] is not positive, and otherwise the Number nearest to [k / 100]
    where [k] is [d * 100 / 60] rounded to the nearest integer (halves
    up), that is [(10 * d + 3) / 6]; the record is not a leave. *)
Theorem worked_hours_closed_form env row H1 M1 H2 M2 r :
  cleanPunch (rowInTime row) H1 M1 -> cleanPunch (rowOutTime row) H2 M2 ->
  digitsValue H1 <= 23 -> digitsValue M1 <= 59 ->
  digitsValue H2 <= 23 -> digitsValue M2 <= 59 ->
  calculateDailyMetrics env row = Ok r -> dayName r <> Sunday ->
  let d := (60 * digitsValue H2 + digitsValue M2)
           - (60 * digitsValue H1 + digitsValue M1) in
  workedHours r
  = (if 0 <? d then ofDecimal false ((10 * d + 3) / 6) (-2) else posZero)
  /\ isLeave r = false.
Proof.
  intros Hi Ho B1 B2 B3 B4 Hr Hs d.
  destruct (calculateDailyMetrics_fields env row r Hr)
    as (_ & Hn & _ & _ & _ & Hw & Hl).
  cbv zeta in Hn, Hw, Hl.
  assert (Hd0 : isDay (getDay env (parseDate env (rowDate row))) 0 = false).
  { destruct (isDay _ 0) eqn:E; [|reflexivity].
    exfalso. apply Hs. rewrite Hn. apply dayName_Sunday, E. }
  destruct (parseTime_clean _ _ _ Hi) as (pi & Epi & Mi).
  destruct (parseTime_clean _ _ _ Ho) as (po & Epo & Mo).
  destruct Hi as (_ & V1 & V2 & _). destruct Ho as (_ & V3 & V4 & _).
  destruct (mins_of_day H1 M1 V1 V2 B1 B2) as [X1 R1].
  destruct (mins_of_day H2 M2 V3 V4 B3 B4) as [X2 R2].
  rewrite Epi, Epo in Hw, Hl. unfold workedAndLeave in Hw, Hl.
  rewrite Hd0 in Hw, Hl. cbn [negb fst snd] in Hw, Hl.
  split; [|exact Hl].
  rewrite Hw, Mi, Mo, X1, X2.
  rewrite sub_ofZ
    by (unfold safeInt; change (2 ^ 53) with 9007199254740992; lia).
  fold d. rewrite positive_minutes by (unfold d; lia).
  destruct (Z.ltb_spec 0 d) as [P|P]; [|reflexivity].
  apply hours_of_minutes. unfold d in *. lia.
Qed.

Lemma worked_hours_closed_form_witness :
  exists r,
    calculateDailyMetrics (utcHost 0)
      (mkRow CUndefined (DVal (CStr (lit "2023-10-04")))
             (CStr (lit "09:10")) (CStr (lit "17:30"))) = Ok r
    /\ workedHours r = StringToNumber (lit "8.33").
Proof.
  set (row := mkRow CUndefined (DVal (CStr (lit "2023-10-04")))
                    (CStr (lit "09:10")) (CStr (lit "17:30"))).
  destruct (calculateDailyMetrics (utcHost 0) row) as [r|e] eqn:E;
    [|vm_compute in E; discriminate].
  exists r. split; [reflexivity|].
  destruct (worked_hours_closed_form (utcHost 0) row
              [0; 9] [1; 0] [1; 7] [3; 0] r) as [Hw _].
  - repeat split; try discriminate; try (vm_compute; discriminate);
      repeat constructor; lia.
  - repeat split; try discriminate; try (vm_compute; discriminate);
      repeat constructor; lia.
  - vm_compute. discriminate.
  - vm_compute. discriminate.
  - vm_compute. discriminate.
  - vm_compute. discriminate.
  - exact E.
  - vm_compute in E. injection E as <-. discriminate.
  - rewrite Hw. vm_compute. reflexivity.
Defined.

(* ================================================================== *)
(** ** The table of the dashboard *)

Lemma leave_not_Sunday di i o :
  snd (workedAndLeave di i o) = true -> snd (dayPolicy di) <> Sunday.
Proof.
  unfold workedAndLeave, dayPolicy.
  destruct (isDay di 0); cbn [negb snd]; [discriminate|].
  destruct (isDay di 6); discriminate.
Qed.

(** The worked hours of a day within the day are sent and read back
    unchanged, and are positive. *)
Lemma json_hours d :
  1 <= d <= 1439 ->
  viaJSON (ofDecimal false ((10 * d + 3) / 6) (-2))
  = Some (ofDecimal false ((10 * d + 3) / 6) (-2))
  /\ gtb (ofDecimal false ((10 * d + 3) / 6) (-2)) posZero = true.
Proof.
  intros Hd.
  assert (G : forallb
                (fun d =>
                   let w := ofDecimal false ((10 * d + 3) / 6) (-2) in
                   match viaJSON w with
                   | Some y => Number_eqb y w && gtb w posZero
                   | None => false
                   end)
                (map (fun k => Z.of_nat k + 1) (seq 0 1439)) = true)
    by (vm_compute; reflexivity).
  rewrite forallb_forall in G. specialize (G d). cbv zeta in G.
  destruct (viaJSON (ofDecimal false ((10 * d + 3) / 6) (-2))) as [y|].
  - assert (E : Number_eqb y (ofDecimal false ((10 * d + 3) / 6) (-2))
                && gtb (ofDecimal false ((10 * d + 3) / 6) (-2)) posZero
                = true).
    { apply G. apply in_map_iff. exists (Z.to_nat (d - 1)). split; [lia|].
      apply in_seq. lia. }
    apply andb_true_iff in E. destruct E as [E1 E2].
    apply Number_eqb_eq in E1. subst y. split; [reflexivity|exact E2].
  - assert (false = true); [|discriminate].
    apply G. apply in_map_iff. exists (Z.to_nat (d - 1)). split; [lia|].
    apply in_seq. lia.
Qed.

Lemma worked_in_day di i o H1 M1 H2 M2 :
  cleanPunch i H1 M1 -> cleanPunch o H2 M2 ->
  digitsValue H1 <= 23 -> digitsValue M1 <= 59 ->
  digitsValue H2 <= 23 -> digitsValue M2 <= 59 ->
  isDay di 0 = false ->
  let d := (60 * digitsValue H2 + digitsValue M2)
           - (60 * digitsValue H1 + digitsValue M1) in
  0 < d ->
  1 <= d <= 1439
  /\ fst (workedAndLeave di (parseTime i) (parseTime o))
     = ofDecimal false ((10 * d + 3) / 6) (-2).
Proof.
  intros Hi Ho B1 B2 B3 B4 Hd0 d Hd.
  destruct (parseTime_clean _ _ _ Hi) as (pi & Epi & Mi).
  destruct (parseTime_clean _ _ _ Ho) as (po & Epo & Mo).
  destruct Hi as (_ & V1 & V2 & _). destruct Ho as (_ & V3 & V4 & _).
  destruct (mins_of_day H1 M1 V1 V2 B1 B2) as [X1 R1].
  destruct (mins_of_day H2 M2 V3 V4 B3 B4) as [X2 R2].
  assert (Hr : 1 <= d <= 1439) by (unfold d in *; lia).
  split; [exact Hr|].
  rewrite Epi, Epo. unfold workedAndLeave. rewrite Hd0. cbn [negb fst].
  rewrite Mi, Mo, X1, X2.
  rewrite sub_ofZ
    by (unfold safeInt; change (2 ^ 53) with 9007199254740992; lia).
  fold d. rewrite positive_minutes by lia.
  replace (0 <? d) with true by (symmetry; apply Z.ltb_lt, Hd).
  apply hours_of_minutes, Hr.
Qed.

(** X15.  The table row the dashboard shows for a record of the
    calculator, as the page receives it (strings and booleans arrive
    unchanged, a Number goes through JSON).  The status badge reads
    "Holiday" exactly on a Sunday, "Absent / Leave" exactly when the
    record is a leave, and "Present" otherwise; the row is tinted
    exactly when the record is a leave (the test on the day name changes
    nothing).  The hours cell shows "-" when the worked hours are 0, as
    on every leave, and also when they are Infinity, which arrives as
    [null]; when it shows a number, that is the number received, it is
    positive, and the worked hours are neither 0 nor Infinity; and for a
    check-in and a check-out within the day with a positive difference,
    on a day that is not a Sunday, it shows the worked hours. *)
Theorem table_row_of_record env row r :
  calculateDailyMetrics env row = Ok r ->
  let name := dayNameString (dayName r) in
  let cell := hoursCell (viaJSON (workedHours r)) in
  (StatusBadge (isLeave r) name = lit "Holiday" <-> dayName r = Sunday)
  /\ (StatusBadge (isLeave r) name = lit "Absent / Leave"
      <-> isLeave r = true)
  /\ (StatusBadge (isLeave r) name = lit "Present"
      <-> dayName r <> Sunday /\ isLeave r = false)
  /\ rowTinted (isLeave r) name = isLeave r
  /\ (workedHours r = posZero -> cell = CStr (lit "-"))
  /\ (workedHours r = Infinity -> cell = CStr (lit "-"))
  /\ (isLeave r = true -> cell = CStr (lit "-"))
  /\ (forall y,
        cell = CNum y ->
        viaJSON (workedHours r) = Some y /\ gtb y posZero = true
        /\ workedHours r <> posZero /\ workedHours r <> Infinity)
  /\ (forall H1 M1 H2 M2,
        cleanPunch (rowInTime row) H1 M1 ->
        cleanPunch (rowOutTime row) H2 M2 ->
        digitsValue H1 <= 23 -> digitsValue M1 <= 59 ->
        digitsValue H2 <= 23 -> digitsValue M2 <= 59 ->
        dayName r <> Sunday ->
        0 < (60 * digitsValue H2 + digitsValue M2)
            - (60 * digitsValue H1 + digitsValue M1) ->
        cell = CNum (workedHours r)).
Proof.
  intros H name cell.
  destruct (calculateDailyMetrics_fields env row r H)
    as (_ & Hn & _ & _ & _ & Hw & Hl).
  cbv zeta in Hn, Hw, Hl.
  set (di := getDay env (parseDate env (rowDate row))) in *.
  assert (HS : isLeave r = true -> dayName r <> Sunday).
  { rewrite Hl, Hn. apply leave_not_Sunday. }
  assert (HB : StatusBadge (isLeave r) name
               = match dayName r with
                 | Sunday => lit "Holiday"
                 | _ => if isLeave r then lit "Absent / Leave"
                        else lit "Present"
                 end).
  { unfold name, StatusBadge. destruct (dayName r); reflexivity. }
  assert (HT : rowTinted (isLeave r) name
               = match dayName r with
                 | Sunday => false
                 | _ => isLeave r
                 end).
  { unfold name, rowTinted.
    destruct (dayName r), (isLeave r); reflexivity. }
  assert (HZ : workedHours r = posZero -> cell = CStr (lit "-")).
  { unfold cell. intros ->. reflexivity. }
  rewrite HB, HT. clear HB HT.
  split; [|split; [|split; [|split; [|split; [|split; [|split; [|split]]]]]]].
  - destruct (dayName r), (isLeave r); split; intros;
      (discriminate || reflexivity).
  - destruct (dayName r), (isLeave r); split; intros;
      try discriminate; try reflexivity.
    exfalso. apply HS; reflexivity.
  - destruct (dayName r), (isLeave r); split;
      try (intros [A B]); try intros A;
      try discriminate; try congruence; try (split; congruence).
  - destruct (dayName r) eqn:E; try reflexivity.
    destruct (isLeave r); [|reflexivity].
    exfalso. apply HS; reflexivity.
  - exact HZ.
  - unfold cell. intros ->. reflexivity.
  - intros L. apply HZ. rewrite Hw. rewrite Hl in L.
    unfold workedAndLeave in *.
    destruct (negb (isDay di 0)); [|reflexivity].
    destruct (parseTime (rowInTime row)), (parseTime (rowOutTime row));
      (reflexivity || discriminate).
  - intros y. unfold cell, hoursCell.
    destruct (viaJSON (workedHours r)) as [w|] eqn:E; [|discriminate].
    destruct (gtb w posZero) eqn:G; [|discriminate].
    intros C. injection C as <-.
    split; [reflexivity|]. split; [exact G|]. split.
    + intros Z. rewrite Z in E. vm_compute in E. injection E as <-.
      discriminate.
    + intros Z. rewrite Z in E. discriminate.
  - intros H1 M1 H2 M2 Hi Ho B1 B2 B3 B4 Hs Hd.
    assert (Hd0 : isDay di 0 = false).
    { destruct (isDay di 0) eqn:E; [|reflexivity].
      exfalso. apply Hs. rewrite Hn. apply dayName_Sunday, E. }
    destruct (worked_in_day di _ _ H1 M1 H2 M2 Hi Ho B1 B2 B3 B4 Hd0 Hd)
      as [Hr Hc].
    unfold cell. rewrite Hw, Hc.
    destruct (json_hours _ Hr) as [J1 J2].
    rewrite J1. cbn [hoursCell]. rewrite J2. reflexivity.
Qed.

Lemma table_row_of_record_witness :
  exists r,
    calculateDailyMetrics (utcHost 0)
      (mkRow CUndefined (DVal (CStr (lit "2023-10-04")))
             (CStr (lit "09:00")) CUndefined) = Ok r
    /\ StatusBadge (isLeave r) (dayNameString (dayName r))
       = lit "Absent / Leave"
    /\ hoursCell (viaJSON (workedHours r)) = CStr (lit "-").
Proof.
  set (row := mkRow CUndefined (DVal (CStr (lit "2023-10-04")))
                    (CStr (lit "09:00")) CUndefined).
  destruct (calculateDailyMetrics (utcHost 0) row) as [r|e] eqn:E;
    [|vm_compute in E; discriminate].
  exists r. split; [reflexivity|].
  destruct (table_row_of_record (utcHost 0) row r E)
    as (_ & Hb & _ & _ & _ & _ & Hh & _).
  assert (L : isLeave r = true).
  { vm_compute in E. injection E as <-. reflexivity. }
  split; [apply Hb, L|apply Hh, L].
Defined.
